(** * tsndef: the NDEF binary codec, embedded and verified

    The development follows the layout of the TypeScript sources:
    - [src/TNF.ts]            the type-name-format table,
    - [src/bytes.ts]          header byte, record fields, TLV envelope (encoder),
    - [src/utils/record.ts]   URI prefix table and record helpers,
    - [src/records/*.ts]      record factories,
    - [src/parse/index.ts]    zero stripping, TLV unwrapping, record parser,
    - [src/message.ts]        the [NDEFMessage] container.

    Bytes are [Byte.byte], a [Uint8Array] is a [list byte], JavaScript
    numbers that can leave the integers are [num], thrown exceptions are the
    [Err] case of [result]. *)

From stdpp Require Import gmap strings list.
From Stdlib Require Import ZArith Lia Strings.Byte DecimalString.

Local Open Scope Z_scope.

(** ** JavaScript values used by the codec *)

(** Exceptions thrown by the library or by the platform. *)
Inductive JSError : Type :=
  | Error (message : string)
  | TypeError (message : string)
  | SyntaxError (message : string).

Definition message (e : JSError) : string :=
  match e with
  | Error m | TypeError m | SyntaxError m => m
  end.

(** A computation that returns or throws. *)
Inductive result (A : Type) : Type :=
  | OK (a : A)
  | Err (e : JSError).
Arguments OK {A} a.
Arguments Err {A} e.

(** Sequencing: [x ← m; k] runs [k] on the value of [m] and passes an
    exception on. *)
#[global] Instance result_ret : MRet result := fun A a => OK a.
#[global] Instance result_bind : MBind result := fun A B k m =>
  match m with
  | OK a => k a
  | Err e => Err e
  end.

(** Numbers.  Every number the codec computes is an integer or [NaN]
    (the result of arithmetic on an [undefined] array read). *)
Inductive num : Type :=
  | Num (z : Z)
  | NaN.

Definition num_add (a b : num) : num :=
  match a, b with
  | Num x, Num y => Num (x + y)
  | _, _ => NaN
  end.

(** [a >= b], [a > b], [a < b]: any comparison with [NaN] is false. *)
Definition num_geb (a b : num) : bool :=
  match a, b with Num x, Num y => x >=? y | _, _ => false end.
Definition num_gtb (a b : num) : bool :=
  match a, b with Num x, Num y => x >? y | _, _ => false end.
Definition num_ltb (a b : num) : bool :=
  match a, b with Num x, Num y => x <? y | _, _ => false end.

(** [a === b] on numbers: [NaN] equals nothing. *)
Definition num_eqb (a b : num) : bool :=
  match a, b with Num x, Num y => x =? y | _, _ => false end.

(** ToInt32 on an integer: wrap into [-2^31, 2^31). *)
Definition wrap32 (z : Z) : Z := (z + 2 ^ 31) mod 2 ^ 32 - 2 ^ 31.

(** ToInt32 on a number: [NaN] becomes 0. *)
Definition ToInt32 (a : num) : Z :=
  match a with Num z => wrap32 z | NaN => 0 end.

(** The bit operators [|], [&], [<<], [>>] on 32-bit integers. *)
Definition js_or (a b : num) : Z := wrap32 (Z.lor (ToInt32 a) (ToInt32 b)).
Definition js_and (a b : num) : Z := wrap32 (Z.land (ToInt32 a) (ToInt32 b)).
Definition js_shl (a b : num) : Z := wrap32 (Z.shiftl (ToInt32 a) (ToInt32 b mod 32)).
Definition js_shr (a b : num) : Z := Z.shiftr (ToInt32 a) (ToInt32 b mod 32).

(** ToIntegerOrInfinity, used by [slice]: [NaN] becomes 0. *)
Definition ToInteger (a : num) : Z :=
  match a with Num z => z | NaN => 0 end.

(** Number to string, as in a template literal: the decimal digits of an
    integer.  JavaScript prints an integer this way when its magnitude is
    below 10^21, and in exponent form from there on; the codec prints
    byte values, buffer lengths and category codes. *)
Definition num_to_string (a : num) : string :=
  match a with
  | Num z => NilZero.string_of_int (Z.to_int z)
  | NaN => "NaN"
  end.

(** *** Typed arrays *)

Definition byte_to_Z (b : byte) : Z := Z.of_N (Byte.to_N b).

(** Storing a number in a [Uint8Array] keeps it modulo 256. *)
Definition to_uint8 (z : Z) : byte :=
  match Byte.of_N (Z.to_N (z mod 256)) with
  | Some b => b
  | None => x00
  end.

Definition len {A : Type} (l : list A) : num := Num (Z.of_nat (length l)).

(** [data[offset]!]: the element, or [undefined] out of range, at a negative
    index or at [NaN].  Every use of such a read in the codec converts it to a
    number, which turns [undefined] into [NaN]. *)
Definition index (data : list byte) (offset : num) : num :=
  match offset with
  | Num z =>
      if (0 <=? z) && (z <? Z.of_nat (length data))
      then match data !! Z.to_nat z with
           | Some b => Num (byte_to_Z b)
           | None => NaN
           end
      else NaN
  | NaN => NaN
  end.

(** Relative index of [%TypedArray%.prototype.slice]. *)
Definition relative_index (n : Z) (i : Z) : Z :=
  if i <? 0 then Z.max (n + i) 0 else Z.min i n.

(** [data.slice(start, end)]. *)
Definition slice (data : list byte) (start stop : num) : list byte :=
  let n := Z.of_nat (length data) in
  let k := relative_index n (ToInteger start) in
  let final := relative_index n (ToInteger stop) in
  take (Z.to_nat (final - k)) (drop (Z.to_nat k) data).

(** *** Strings

    A string is represented by its UTF-8 bytes, so [TextEncoder.encode]
    is the list of its bytes; strings with unpaired surrogates have no
    representation.  The codec searches strings for ASCII patterns only,
    and such a pattern occurs at the same places in the UTF-8 bytes of a
    string as in its UTF-16 code units. *)

Definition TextEncoder_encode (s : string) : list byte := String.list_byte_of_string s.

(** [s.startsWith(p)]. *)
Definition startsWith (s p : string) : bool := String.prefix p s.

(** Position of the first occurrence of [p] in [s] ([s.indexOf(p)]). *)
Fixpoint indexOf (s p : string) : option nat :=
  if String.prefix p s then Some 0%nat
  else match s with
       | EmptyString => None
       | String _ s' => S <$> indexOf s' p
       end.

(** [s.replace(p, '')] for a string pattern: the first occurrence of [p]
    is removed. *)
Definition replace_with_empty (s p : string) : string :=
  match indexOf s p with
  | Some i =>
      String.append (String.substring 0 i s)
        (String.substring (i + String.length p) (String.length s - (i + String.length p)) s)
  | None => s
  end.

(** *** Platform services the codec calls

    The UTF-8 decoder with replacement, the URL parser and the JSON codec
    are platform code; the codec is verified against their interface. *)
Class Platform : Type := {
  (** [new TextDecoder().decode(bytes)]; never throws. *)
  TextDecoder_decode : list byte → string;
  (** [URL.canParse(s)]. *)
  URL_canParse : string → bool;
  (** Values [JSON.parse] returns and [JSON.stringify] accepts. *)
  JSONValue : Type;
  (** [JSON.parse(s)]; throws a [SyntaxError] on malformed text. *)
  JSON_parse : string → result JSONValue;
  (** [JSON.stringify(v)]. *)
  JSON_stringify : JSONValue → string;
}.

(** ** src/TNF.ts *)

Inductive TNF : Type :=
  | empty | well_known | media | absolute_uri
  | forum_external | unknown | unchanged | reserved.

(** [TNFLookup]: the [throw] is unreachable for a value of type [TNF]. *)
Definition TNFLookup (t : TNF) : Z :=
  match t with
  | empty => 0x00
  | well_known => 0x01
  | media => 0x02
  | absolute_uri => 0x03
  | forum_external => 0x04
  | unknown => 0x05
  | unchanged => 0x06
  | reserved => 0x07
  end.

Definition TNFCodeLookup (tnfCode : Z) : result TNF :=
  match tnfCode with
  | 0x00 => OK empty
  | 0x01 => OK well_known
  | 0x02 => OK media
  | 0x03 => OK absolute_uri
  | 0x04 => OK forum_external
  | 0x05 => OK unknown
  | 0x06 => OK unchanged
  | 0x07 => OK reserved
  | _ => Err (TypeError ("Unknown TNF code: " +:+ num_to_string (Num tnfCode)))
  end.

(** ** Header byte: [constructHeaderByte] (src/bytes.ts) and
    [parseNDEFRecordHeader] (src/parse/index.ts) *)

Module HeaderBytesInfo.
Record t : Type := mk {
  tnfCode : Z;
  isBeginning : bool;
  isEnd : bool;
  isIdPresent : bool;
  isShortRecord : bool;
  isChunked : bool;
}.
End HeaderBytesInfo.

Definition constructHeaderByte (info : HeaderBytesInfo.t) : list byte :=
  let headerByte := 0 in
  let headerByte :=
    if HeaderBytesInfo.isBeginning info
    then js_or (Num headerByte) (Num (js_shl (Num 1) (Num 7))) else headerByte in
  let headerByte :=
    if HeaderBytesInfo.isEnd info
    then js_or (Num headerByte) (Num (js_shl (Num 1) (Num 6))) else headerByte in
  let headerByte :=
    if HeaderBytesInfo.isChunked info
    then js_or (Num headerByte) (Num (js_shl (Num 1) (Num 5))) else headerByte in
  let headerByte :=
    if HeaderBytesInfo.isShortRecord info
    then js_or (Num headerByte) (Num (js_shl (Num 1) (Num 4))) else headerByte in
  let headerByte :=
    if HeaderBytesInfo.isIdPresent info
    then js_or (Num headerByte) (Num (js_shl (Num 1) (Num 3))) else headerByte in
  let headerByte :=
    js_or (Num headerByte)
      (Num (js_shl (Num (js_and (Num (HeaderBytesInfo.tnfCode info)) (Num 7))) (Num 0))) in
  [to_uint8 headerByte].

Module NDEFRecordHeader.
Record t : Type := mk {
  tnf : TNF;
  messageBeginFlag : bool;
  messageEndFlag : bool;
  chunkFlag : bool;
  shortRecordFlag : bool;
  idLengthFlag : bool;
}.
End NDEFRecordHeader.

(** [(headerByte & mask) !== 0]. *)
Definition flag (headerByte : num) (mask : Z) : bool :=
  negb (js_and headerByte (Num mask) =? 0).

Definition parseNDEFRecordHeader (headerByte : num) : result NDEFRecordHeader.t :=
  let chunkFlag := flag headerByte 0x20 in
  if chunkFlag then Err (Error "Chunked records are not supported yet")
  else
    tnf ← TNFCodeLookup (js_and headerByte (Num 0x07));
    OK {| NDEFRecordHeader.messageBeginFlag := flag headerByte 0x80;
          NDEFRecordHeader.messageEndFlag := flag headerByte 0x40;
          NDEFRecordHeader.chunkFlag := false;
          NDEFRecordHeader.shortRecordFlag := flag headerByte 0x10;
          NDEFRecordHeader.idLengthFlag := flag headerByte 0x08;
          NDEFRecordHeader.tnf := tnf |}.

(** ** Records (src/types/records/index.ts) *)

(** [BinaryLike]: the three binary inputs [binaryLikeToUint8Array] accepts,
    each with the bytes it holds. *)
Inductive BinaryLike : Type :=
  | Uint8Array (bytes : list byte)
  | Blob (bytes : list byte)
  | ArrayBuffer (bytes : list byte).

(** src/utils/index.ts.  The final [throw] is unreachable for a value of
    type [BinaryLike]; awaiting the blob is sequential. *)
Definition binaryLikeToUint8Array (data : BinaryLike) : list byte :=
  match data with
  | Uint8Array bytes => bytes
  | Blob bytes => bytes
  | ArrayBuffer bytes => bytes
  end.

Inductive SafePayload (TPayload : Type) : Type :=
  | SafeSuccess (payload : TPayload)
  | SafeFailure (error : string).
Arguments SafeSuccess {TPayload} payload.
Arguments SafeFailure {TPayload} error.

Definition success {TPayload : Type} (s : SafePayload TPayload) : bool :=
  match s with SafeSuccess _ => true | SafeFailure _ => false end.

(** The options every factory takes: the payload and an optional id. *)
Module BaseNDEFRecordOptions.
Record t (TPayload : Type) : Type := mk {
  payload : TPayload;
  id : option string;
}.
Arguments mk {TPayload} payload id.
Arguments payload {TPayload} t.
Arguments id {TPayload} t.
End BaseNDEFRecordOptions.

Section Records.
Context `{Platform}.

(** What a payload accessor can return. *)
Inductive PayloadValue : Type :=
  | PString (s : string)
  | PJson (v : JSONValue)
  | PBinary (b : BinaryLike).

(** [BaseNDEFRecord]: accessors are closures over immutable data; a call is
    modelled by applying the accessor to [()]. *)
Record BaseNDEFRecord : Type := mkRecord {
  tnf : TNF;
  payload : unit → result PayloadValue;
  safePayload : unit → SafePayload PayloadValue;
  type : string;
  id : option string;
  isIdentified : bool;
  rawPayload : unit → list byte;
  rawType : unit → list byte;
  rawId : unit → option (list byte);
}.

(** ** src/bytes.ts *)

Record RecordInfo : Type := mkInfo {
  record : BaseNDEFRecord;
  isBeginning : bool;
  isEnd : bool;
}.

Definition constructBytesFromRecordInfo (info : RecordInfo) : result (list byte) :=
  let rawPayload := rawPayload (record info) () in
  let rawType := rawType (record info) () in
  let rawId := rawId (record info) () in
  if num_gtb (len rawPayload) (Num (2 ^ 32 - 1))
  then Err (TypeError "Payload length exceeds maximum allowed length of 2^32 - 1 bytes.")
  else if num_gtb (len rawType) (Num 255)
  then Err (TypeError "Type length exceeds maximum allowed length of 255 bytes.")
  else if match rawId with Some rawId => num_gtb (len rawId) (Num 255) | None => false end
  then Err (TypeError "ID length exceeds maximum allowed length of 255 bytes.")
  else
    let isShortRecord := num_ltb (len rawPayload) (Num 256) in
    let isIdPresent := match rawId with Some _ => true | None => false end in
    let headerBytes :=
      constructHeaderByte
        {| HeaderBytesInfo.isBeginning := isBeginning info;
           HeaderBytesInfo.isEnd := isEnd info;
           HeaderBytesInfo.isChunked := false;
           HeaderBytesInfo.isShortRecord := isShortRecord;
           HeaderBytesInfo.isIdPresent := isIdPresent;
           HeaderBytesInfo.tnfCode := TNFLookup (tnf (record info)) |} in
    let typeLengthBytes := [to_uint8 (ToInteger (len rawType))] in
    let payloadLengthBytes :=
      if isShortRecord
      then [to_uint8 (ToInteger (len rawPayload))]
      else [to_uint8 (js_and (Num (js_shr (len rawPayload) (Num 24))) (Num 0xFF));
            to_uint8 (js_and (Num (js_shr (len rawPayload) (Num 16))) (Num 0xFF));
            to_uint8 (js_and (Num (js_shr (len rawPayload) (Num 8))) (Num 0xFF));
            to_uint8 (js_and (len rawPayload) (Num 0xFF))] in
    let idLengthBytes :=
      match rawId with
      | None => []
      | Some rawId => [to_uint8 (ToInteger (len rawId))]
      end in
    let typeBytes := rawType in
    let idBytes := match rawId with Some rawId => rawId | None => [] end in
    let payloadBytes := rawPayload in
    OK (headerBytes ++ typeLengthBytes ++ payloadLengthBytes ++ idLengthBytes
          ++ typeBytes ++ idBytes ++ payloadBytes).

(** The four marker flags [constructBytes] tracks while it walks [infos]. *)
Record Markers : Type := mkMarkers {
  hasBeginning : bool;
  hasEnd : bool;
  hasMultipleBeginning : bool;
  hasMultipleEnd : bool;
}.

(** The two [if] statements at the top of the loop body. *)
Definition updateMarkers (m : Markers) (info : RecordInfo) : Markers :=
  let m :=
    if isBeginning info
    then {| hasBeginning := true; hasEnd := hasEnd m;
            hasMultipleBeginning := if hasBeginning m then true else hasMultipleBeginning m;
            hasMultipleEnd := hasMultipleEnd m |}
    else m in
  if isEnd info
  then {| hasBeginning := hasBeginning m; hasEnd := true;
          hasMultipleBeginning := hasMultipleBeginning m;
          hasMultipleEnd := if hasEnd m then true else hasMultipleEnd m |}
  else m.

(** One pass of the [for] loop of [constructBytes]. *)
Definition constructBytes_step (info : RecordInfo) (st : Markers * list byte)
  : result (Markers * list byte) :=
  let '(m, result) := st in
  let m := updateMarkers m info in
  recordBytes ← constructBytesFromRecordInfo info;
  OK (m, result ++ recordBytes).

Fixpoint constructBytes_loop (infos : list RecordInfo) (st : Markers * list byte)
  : result (Markers * list byte) :=
  match infos with
  | [] => OK st
  | info :: infos => st ← constructBytes_step info st; constructBytes_loop infos st
  end.

(** The TLV envelope.  In the long branch the source fills a local
    [lengthBytes] and never assigns [NDEFMessageLength], which is therefore
    still [undefined] when it is spread into the array literal: the spread
    throws a [TypeError] (the message text is the engine's). *)
Definition constructBytes (infos : list RecordInfo) : result (list byte) :=
  if num_eqb (len infos) (Num 0) then OK []
  else
    '(m, result) ← constructBytes_loop infos (mkMarkers false false false false, []);
    if hasMultipleBeginning m
    then Err (Error "Multiple records with message begin flag found. Only one record can have the message begin flag.")
    else if hasMultipleEnd m
    then Err (Error "Multiple records with message end flag found. Only one record can have the message end flag.")
    else if negb (hasBeginning m)
    then Err (Error "No record with message begin flag found. At least one record must have the message begin flag.")
    else if negb (hasEnd m)
    then Err (Error "No record with message end flag found. At least one record must have the message end flag.")
    else
      let messageLength := len result in
      let NDEFMessagePrefix := x03 in
      let NDEFMessageLength : option (list byte) :=
        if num_gtb (len result) (Num 0xFE)
        then
          let lengthBytes :=
            [to_uint8 0xFF;
             to_uint8 (js_and (Num (js_shr messageLength (Num 8))) (Num 0xFF));
             to_uint8 (js_and messageLength (Num 0xFF))] in
          None
        else Some [to_uint8 (ToInteger messageLength)] in
      let suffixByte := xfe in
      match NDEFMessageLength with
      | None => Err (TypeError "NDEFMessageLength is not iterable")
      | Some NDEFMessageLength =>
          OK ([NDEFMessagePrefix] ++ NDEFMessageLength ++ result ++ [suffixByte])
      end.

(** [NDEFMessage.toBytes] (src/message.ts), on the records the message
    holds when it is called. *)
Definition recordInfos (records : list BaseNDEFRecord) : list RecordInfo :=
  imap (fun index record =>
          {| record := record;
             isBeginning := bool_decide (index = 0%nat);
             isEnd := bool_decide (Z.of_nat index = Z.of_nat (length records) - 1) |})
       records.

Definition toBytes (records : list BaseNDEFRecord) : result (list byte) :=
  let infos := recordInfos records in
  constructBytes infos.

(** The infos [toBytes] builds for the records from position [k] on, in a
    message of [n] records; [recordInfos] is the case [k = 0]. *)
Definition infosFrom (k n : nat) (records : list BaseNDEFRecord) : list RecordInfo :=
  imap (fun index record =>
          {| record := record;
             isBeginning := bool_decide ((k + index)%nat = 0%nat);
             isEnd := bool_decide (Z.of_nat (k + index) = Z.of_nat n - 1) |})
       records.

(** ** src/utils/record.ts *)

Record PrefixMapping : Type := mkPrefix {
  URIIdentifierPrefix : Z;
  URISuffix : string;
}.

(** The [switch (true)] of the source: the cases are tried from top to
    bottom and the first whose [startsWith] holds returns. *)
Definition getWellKnownURIPrefixMapping (URI : string) : result PrefixMapping :=
  if negb (URL_canParse URI) then Err (TypeError "Provided URI is not a valid URI")
  else if startsWith URI "http://www." then OK (mkPrefix 0x01 (replace_with_empty URI "http://www."))
  else if startsWith URI "https://www." then OK (mkPrefix 0x02 (replace_with_empty URI "https://www."))
  else if startsWith URI "http://" then OK (mkPrefix 0x03 (replace_with_empty URI "http://"))
  else if startsWith URI "https://" then OK (mkPrefix 0x04 (replace_with_empty URI "https://"))
  else if startsWith URI "tel:" then OK (mkPrefix 0x05 (replace_with_empty URI "tel:"))
  else if startsWith URI "mailto:" then OK (mkPrefix 0x06 (replace_with_empty URI "mailto:"))
  else if startsWith URI "ftp://anonymous:anonymous@"
  then OK (mkPrefix 0x07 (replace_with_empty URI "ftp://anonymous:anonymous@"))
  else if startsWith URI "ftp://ftp." then OK (mkPrefix 0x08 (replace_with_empty URI "ftp://ftp."))
  else if startsWith URI "ftps://" then OK (mkPrefix 0x09 (replace_with_empty URI "ftps://"))
  else if startsWith URI "sftp://" then OK (mkPrefix 0x0A (replace_with_empty URI "sftp://"))
  else if startsWith URI "smb://" then OK (mkPrefix 0x0B (replace_with_empty URI "smb://"))
  else if startsWith URI "nfs://" then OK (mkPrefix 0x0C (replace_with_empty URI "nfs://"))
  else if startsWith URI "ftp://" then OK (mkPrefix 0x0D (replace_with_empty URI "ftp://"))
  else if startsWith URI "dav://" then OK (mkPrefix 0x0E (replace_with_empty URI "dav://"))
  else if startsWith URI "news:" then OK (mkPrefix 0x0F (replace_with_empty URI "news:"))
  else if startsWith URI "telnet://" then OK (mkPrefix 0x10 (replace_with_empty URI "telnet://"))
  else if startsWith URI "imap:" then OK (mkPrefix 0x11 (replace_with_empty URI "imap:"))
  else if startsWith URI "rtsp://" then OK (mkPrefix 0x12 (replace_with_empty URI "rtsp://"))
  else if startsWith URI "urn:" then OK (mkPrefix 0x13 (replace_with_empty URI "urn:"))
  else if startsWith URI "pop:" then OK (mkPrefix 0x14 (replace_with_empty URI "pop:"))
  else if startsWith URI "sip:" then OK (mkPrefix 0x15 (replace_with_empty URI "sip:"))
  else if startsWith URI "sips:" then OK (mkPrefix 0x16 (replace_with_empty URI "sips:"))
  else if startsWith URI "tftp:" then OK (mkPrefix 0x17 (replace_with_empty URI "tftp:"))
  else if startsWith URI "btspp://" then OK (mkPrefix 0x18 (replace_with_empty URI "btspp://"))
  else if startsWith URI "btl2cap://" then OK (mkPrefix 0x19 (replace_with_empty URI "btl2cap://"))
  else if startsWith URI "btgoep://" then OK (mkPrefix 0x1A (replace_with_empty URI "btgoep://"))
  else if startsWith URI "tcpobex://" then OK (mkPrefix 0x1B (replace_with_empty URI "tcpobex://"))
  else if startsWith URI "irdaobex://" then OK (mkPrefix 0x1C (replace_with_empty URI "irdaobex://"))
  else if startsWith URI "file://" then OK (mkPrefix 0x1D (replace_with_empty URI "file://"))
  else if startsWith URI "urn:epc:id:" then OK (mkPrefix 0x1E (replace_with_empty URI "urn:epc:id:"))
  else if startsWith URI "urn:epc:tag:" then OK (mkPrefix 0x1F (replace_with_empty URI "urn:epc:tag:"))
  else if startsWith URI "urn:epc:pat:" then OK (mkPrefix 0x20 (replace_with_empty URI "urn:epc:pat:"))
  else if startsWith URI "urn:epc:raw:" then OK (mkPrefix 0x21 (replace_with_empty URI "urn:epc:raw:"))
  else if startsWith URI "urn:epc:" then OK (mkPrefix 0x22 (replace_with_empty URI "urn:epc:"))
  else if startsWith URI "urn:nfc:" then OK (mkPrefix 0x23 (replace_with_empty URI "urn:nfc:"))
  else OK (mkPrefix 0x00 URI).

(** [prepareIdForRecord]: the [id] and [rawId] members of a record. *)
Definition prepareIdForRecord (id : option string)
  : option string * (unit → option (list byte)) :=
  match id with
  | None => (id, fun _ => None)
  | Some s => (id, fun _ => Some (TextEncoder_encode s))
  end.

(** [prepareTypeForRecord]: the [type] and [rawType] members of a record. *)
Definition prepareTypeForRecord (type : string) : string * (unit → list byte) :=
  (type, fun _ => TextEncoder_encode type).

(** The table of [reconstructURIFromPrefix]. *)
Definition prefixMappings (prefixCode : Z) : option string :=
  match prefixCode with
  | 0x00 => Some ""
  | 0x01 => Some "http://www."
  | 0x02 => Some "https://www."
  | 0x03 => Some "http://"
  | 0x04 => Some "https://"
  | 0x05 => Some "tel:"
  | 0x06 => Some "mailto:"
  | 0x07 => Some "ftp://anonymous:anonymous@"
  | 0x08 => Some "ftp://ftp."
  | 0x09 => Some "ftps://"
  | 0x0A => Some "sftp://"
  | 0x0B => Some "smb://"
  | 0x0C => Some "nfs://"
  | 0x0D => Some "ftp://"
  | 0x0E => Some "dav://"
  | 0x0F => Some "news:"
  | 0x10 => Some "telnet://"
  | 0x11 => Some "imap:"
  | 0x12 => Some "rtsp://"
  | 0x13 => Some "urn:"
  | 0x14 => Some "pop:"
  | 0x15 => Some "sip:"
  | 0x16 => Some "sips:"
  | 0x17 => Some "tftp:"
  | 0x18 => Some "btspp://"
  | 0x19 => Some "btl2cap://"
  | 0x1A => Some "btgoep://"
  | 0x1B => Some "tcpobex://"
  | 0x1C => Some "irdaobex://"
  | 0x1D => Some "file://"
  | 0x1E => Some "urn:epc:id:"
  | 0x1F => Some "urn:epc:tag:"
  | 0x20 => Some "urn:epc:pat:"
  | 0x21 => Some "urn:epc:raw:"
  | 0x22 => Some "urn:epc:"
  | 0x23 => Some "urn:nfc:"
  | _ => None
  end.

Definition reconstructURIFromPrefix (prefixCode : num) (suffix : string) : result string :=
  match match prefixCode with Num z => prefixMappings z | NaN => None end with
  | None => Err (TypeError ("Invalid prefix code: " +:+ num_to_string prefixCode))
  | Some prefix => OK (prefix +:+ suffix)
  end.

(** [id ? f : g] on an optional string: [undefined] and [''] are falsy. *)
Definition truthy (id : option string) : bool :=
  match id with
  | Some s => negb (String.eqb s "")
  | None => false
  end.

(** The [rawId] accessor the parsing-side constructors build. *)
Definition rawIdOfParsed (id : option string) : unit → option (list byte) :=
  match id with
  | Some s => if truthy id then fun _ => Some (TextEncoder_encode s) else fun _ => None
  | None => fun _ => None
  end.

Definition createUnidentifiedRecord
  (tnf : TNF) (type : string) (rawPayload : list byte) (id : option string) : BaseNDEFRecord :=
  {| tnf := tnf;
     payload := fun _ => OK (PBinary (Uint8Array rawPayload));
     safePayload := fun _ => SafeSuccess (PBinary (Uint8Array rawPayload));
     rawPayload := fun _ => rawPayload;
     type := type;
     rawType := fun _ => TextEncoder_encode type;
     id := id;
     rawId := rawIdOfParsed id;
     isIdentified := false |}.

(** ** Record factories (src/records/wellKnown.ts, src/records/media.ts) *)

Definition createNDEFRecordWellKnownURI (NDEFInfo : BaseNDEFRecordOptions.t string)
  : result BaseNDEFRecord :=
  m ← getWellKnownURIPrefixMapping (BaseNDEFRecordOptions.payload NDEFInfo);
  let URIIdentifierPrefix := URIIdentifierPrefix m in
  let URISuffix := URISuffix m in
  let '(id, rawId) := prepareIdForRecord (BaseNDEFRecordOptions.id NDEFInfo) in
  let '(type, rawType) := prepareTypeForRecord "U" in
  OK {| tnf := well_known;
        payload := fun _ => OK (PString (BaseNDEFRecordOptions.payload NDEFInfo));
        safePayload := fun _ => SafeSuccess (PString (BaseNDEFRecordOptions.payload NDEFInfo));
        rawPayload := fun _ => to_uint8 URIIdentifierPrefix :: TextEncoder_encode URISuffix;
        id := id; rawId := rawId;
        type := type; rawType := rawType;
        isIdentified := true |}.

Definition createNDEFRecordMediaApplicationJson (NDEFInfo : BaseNDEFRecordOptions.t JSONValue)
  : BaseNDEFRecord :=
  let '(id, rawId) := prepareIdForRecord (BaseNDEFRecordOptions.id NDEFInfo) in
  let '(type, rawType) := prepareTypeForRecord "application/json" in
  {| tnf := media;
     payload := fun _ => OK (PJson (BaseNDEFRecordOptions.payload NDEFInfo));
     safePayload := fun _ => SafeSuccess (PJson (BaseNDEFRecordOptions.payload NDEFInfo));
     rawPayload := fun _ =>
       TextEncoder_encode (JSON_stringify (BaseNDEFRecordOptions.payload NDEFInfo));
     id := id; rawId := rawId;
     type := type; rawType := rawType;
     isIdentified := true |}.

(** The two text factories, [createNDEFRecordMediaTextPlain] and
    [createNDEFRecordMediaTextHTML], differ in the media type only. *)
Definition createNDEFRecordMediaText (mediaType : string)
  (NDEFInfo : BaseNDEFRecordOptions.t string) : BaseNDEFRecord :=
  let '(id, rawId) := prepareIdForRecord (BaseNDEFRecordOptions.id NDEFInfo) in
  let '(type, rawType) := prepareTypeForRecord mediaType in
  {| tnf := media;
     payload := fun _ => OK (PString (BaseNDEFRecordOptions.payload NDEFInfo));
     safePayload := fun _ => SafeSuccess (PString (BaseNDEFRecordOptions.payload NDEFInfo));
     rawPayload := fun _ => TextEncoder_encode (BaseNDEFRecordOptions.payload NDEFInfo);
     id := id; rawId := rawId;
     type := type; rawType := rawType;
     isIdentified := true |}.

Definition createNDEFRecordMediaTextPlain := createNDEFRecordMediaText "text/plain".
Definition createNDEFRecordMediaTextHTML := createNDEFRecordMediaText "text/html".

(** The four binary factories ([image/png], [image/jpeg], [video/mp4],
    [audio/mpeg]) differ in the media type only. *)
Definition createNDEFRecordMediaBinary (mediaType : string)
  (NDEFInfo : BaseNDEFRecordOptions.t BinaryLike) : BaseNDEFRecord :=
  let '(id, rawId) := prepareIdForRecord (BaseNDEFRecordOptions.id NDEFInfo) in
  let '(type, rawType) := prepareTypeForRecord mediaType in
  {| tnf := media;
     payload := fun _ => OK (PBinary (BaseNDEFRecordOptions.payload NDEFInfo));
     safePayload := fun _ => SafeSuccess (PBinary (BaseNDEFRecordOptions.payload NDEFInfo));
     rawPayload := fun _ => binaryLikeToUint8Array (BaseNDEFRecordOptions.payload NDEFInfo);
     id := id; rawId := rawId;
     type := type; rawType := rawType;
     isIdentified := true |}.

Definition createNDEFRecordMediaImagePNG := createNDEFRecordMediaBinary "image/png".
Definition createNDEFRecordMediaImageJPEG := createNDEFRecordMediaBinary "image/jpeg".
Definition createNDEFRecordMediaVideoMP4 := createNDEFRecordMediaBinary "video/mp4".
Definition createNDEFRecordMediaAudioMPEG := createNDEFRecordMediaBinary "audio/mpeg".

(** ** Parsing-side constructors (src/records/wellKnownFromBytes.ts,
    src/records/mediaFromBytes.ts) *)

Definition createNDEFRecordWellKnownURIFromBytes (rawPayload : list byte) (id : option string)
  : result BaseNDEFRecord :=
  if num_eqb (len rawPayload) (Num 0)
  then Err (Error "URI record payload cannot be empty")
  else
    let prefixCode := index rawPayload (Num 0) in
    let suffixBytes := slice rawPayload (Num 1) (len rawPayload) in
    let suffix := TextDecoder_decode suffixBytes in
    fullURI ← reconstructURIFromPrefix prefixCode suffix;
    OK {| tnf := well_known;
          payload := fun _ => OK (PString fullURI);
          safePayload := fun _ => SafeSuccess (PString fullURI);
          rawPayload := fun _ => rawPayload;
          type := "U";
          rawType := fun _ => TextEncoder_encode "U";
          id := id;
          rawId := rawIdOfParsed id;
          isIdentified := true |}.

Definition createNDEFRecordMediaApplicationJsonFromBytes
  (rawPayload : list byte) (id : option string) : BaseNDEFRecord :=
  {| tnf := media;
     payload := fun _ =>
       let jsonString := TextDecoder_decode rawPayload in
       v ← JSON_parse jsonString; OK (PJson v);
     safePayload := fun _ =>
       (* try / catch around the same two steps *)
       let jsonString := TextDecoder_decode rawPayload in
       match JSON_parse jsonString with
       | OK parsedPayload => SafeSuccess (PJson parsedPayload)
       | Err error => SafeFailure (message error)
       end;
     rawPayload := fun _ => rawPayload;
     type := "application/json";
     rawType := fun _ => TextEncoder_encode "application/json";
     id := id;
     rawId := rawIdOfParsed id;
     isIdentified := true |}.

(** [createNDEFRecordMediaTextPlainFromBytes] and
    [createNDEFRecordMediaTextHTMLFromBytes]. *)
Definition createNDEFRecordMediaTextFromBytes (mediaType : string)
  (rawPayload : list byte) (id : option string) : BaseNDEFRecord :=
  {| tnf := media;
     payload := fun _ => OK (PString (TextDecoder_decode rawPayload));
     safePayload := fun _ => SafeSuccess (PString (TextDecoder_decode rawPayload));
     rawPayload := fun _ => rawPayload;
     type := mediaType;
     rawType := fun _ => TextEncoder_encode mediaType;
     id := id;
     rawId := rawIdOfParsed id;
     isIdentified := true |}.

Definition createNDEFRecordMediaTextPlainFromBytes :=
  createNDEFRecordMediaTextFromBytes "text/plain".
Definition createNDEFRecordMediaTextHTMLFromBytes :=
  createNDEFRecordMediaTextFromBytes "text/html".

(** The four binary constructors. *)
Definition createNDEFRecordMediaBinaryFromBytes (mediaType : string)
  (rawPayload : list byte) (id : option string) : BaseNDEFRecord :=
  {| tnf := media;
     payload := fun _ => OK (PBinary (Uint8Array rawPayload));
     safePayload := fun _ => SafeSuccess (PBinary (Uint8Array rawPayload));
     rawPayload := fun _ => rawPayload;
     type := mediaType;
     rawType := fun _ => TextEncoder_encode mediaType;
     id := id;
     rawId := rawIdOfParsed id;
     isIdentified := true |}.

Definition createNDEFRecordMediaImagePNGFromBytes :=
  createNDEFRecordMediaBinaryFromBytes "image/png".
Definition createNDEFRecordMediaImageJPEGFromBytes :=
  createNDEFRecordMediaBinaryFromBytes "image/jpeg".
Definition createNDEFRecordMediaVideoMP4FromBytes :=
  createNDEFRecordMediaBinaryFromBytes "video/mp4".
Definition createNDEFRecordMediaAudioMPEGFromBytes :=
  createNDEFRecordMediaBinaryFromBytes "audio/mpeg".

(** ** src/parse/index.ts *)

(** The first [while] loop of [stripLeadingTrailingZeros]: [start] moves up
    over zero bytes.  It makes at most [data.length] passes, which is the
    fuel it is given. *)
Fixpoint firstNonZero (fuel : nat) (data : list byte) (start stop : Z) : Z :=
  match fuel with
  | O => start
  | S fuel =>
      if (start <? stop) && num_eqb (index data (Num start)) (Num 0x00)
      then firstNonZero fuel data (start + 1) stop
      else start
  end.

(** The second loop: [end] moves down over zero bytes. *)
Fixpoint lastNonZero (fuel : nat) (data : list byte) (start stop : Z) : Z :=
  match fuel with
  | O => stop
  | S fuel =>
      if (stop >? start) && num_eqb (index data (Num (stop - 1))) (Num 0x00)
      then lastNonZero fuel data start (stop - 1)
      else stop
  end.

Definition stripLeadingTrailingZeros (data : list byte) : list byte :=
  let start := 0 in
  let stop := Z.of_nat (length data) in
  let start := firstNonZero (length data) data start stop in
  let stop := lastNonZero (length data) data start stop in
  slice data (Num start) (Num stop).

Definition validateAndStripTLV (data : list byte) : result (list byte) :=
  if num_ltb (len data) (Num 3)
  then Err (Error "TLV structure is malformed: not enough data")
  else if negb (num_eqb (index data (Num 0)) (Num 0x03))
  then Err (Error "TLV structure is malformed: first byte is not 0x03")
  else if negb (num_eqb (index data (num_add (len data) (Num (-1)))) (Num 0xFE))
  then Err (Error "TLV structure is malformed: last byte is not 0xFE")
  else
    '(length, headerSize) ←
      (if num_ltb (index data (Num 1)) (Num 0xFF)
       then OK (index data (Num 1), Num 2)
       else if num_eqb (index data (Num 1)) (Num 0xFF)
       then
         if num_ltb (len data) (Num 5)
         then Err (Error "TLV structure is malformed: long length format requires at least 5 bytes")
         else OK (Num (js_or (Num (js_shl (index data (Num 2)) (Num 8))) (index data (Num 3))),
                  Num 4)
       else Err (Error "TLV structure is malformed: invalid length field format"));
    let expectedTotalLength := num_add (num_add headerSize length) (Num 1) in
    if negb (num_eqb (len data) expectedTotalLength)
    then Err (Error ("TLV structure is malformed: expected total length "
                       +:+ num_to_string expectedTotalLength +:+ ", got "
                       +:+ num_to_string (len data)))
    else if num_eqb length (Num 0)
    then OK []
    else if num_eqb (len data) (Num 4)
    then Err (Error "TLV structure is malformed: length field must be 1 or 3 bytes")
    else
      let value := slice data headerSize (num_add (len data) (Num (-1))) in
      OK value.

Definition createWellKnownRecord (type : string) (rawPayload : list byte) (id : option string)
  : result BaseNDEFRecord :=
  if String.eqb type "U"
  then createNDEFRecordWellKnownURIFromBytes rawPayload id
  else OK (createUnidentifiedRecord well_known type rawPayload id).

Definition createMediaRecord (type : string) (rawPayload : list byte) (id : option string)
  : BaseNDEFRecord :=
  if String.eqb type "application/json"
  then createNDEFRecordMediaApplicationJsonFromBytes rawPayload id
  else if String.eqb type "text/plain"
  then createNDEFRecordMediaTextPlainFromBytes rawPayload id
  else if String.eqb type "text/html"
  then createNDEFRecordMediaTextHTMLFromBytes rawPayload id
  else if String.eqb type "image/png"
  then createNDEFRecordMediaImagePNGFromBytes rawPayload id
  else if String.eqb type "image/jpeg"
  then createNDEFRecordMediaImageJPEGFromBytes rawPayload id
  else if String.eqb type "video/mp4"
  then createNDEFRecordMediaVideoMP4FromBytes rawPayload id
  else if String.eqb type "audio/mpeg"
  then createNDEFRecordMediaAudioMPEGFromBytes rawPayload id
  else createUnidentifiedRecord media type rawPayload id.

Definition createNDEFRecordFromRawData
  (tnf : TNF) (rawType rawPayload : list byte) (rawId : option (list byte))
  : result BaseNDEFRecord :=
  let typeString := TextDecoder_decode rawType in
  let id := TextDecoder_decode <$> rawId in
  match tnf with
  | well_known => createWellKnownRecord typeString rawPayload id
  | media => OK (createMediaRecord typeString rawPayload id)
  | _ => OK (createUnidentifiedRecord tnf typeString rawPayload id)
  end.

(** [ParsedNDEFRecordResult]; its [record] field is [parsed_record] here,
    [record] being the field of [RecordInfo]. *)
Record ParsedNDEFRecordResult : Type := mkParsed {
  parsed_record : BaseNDEFRecord;
  nextOffset : num;
  isMessageEnd : bool;
}.

Definition parseNDEFRecord (data : list byte) (offset : num) : result ParsedNDEFRecordResult :=
  if num_geb offset (len data)
  then Err (Error "Unexpected end of data while parsing NDEF record")
  else
    header ← parseNDEFRecordHeader (index data offset);
    let offset := num_add offset (Num 1) in
    if num_geb offset (len data)
    then Err (Error "Unexpected end of data while reading TYPE_LENGTH")
    else
      let typeLength := index data offset in
      let offset := num_add offset (Num 1) in
      '(payloadLength, offset) ←
        (if NDEFRecordHeader.shortRecordFlag header
         then
           if num_geb offset (len data)
           then Err (Error "Unexpected end of data while reading PAYLOAD_LENGTH (short record)")
           else OK (index data offset, num_add offset (Num 1))
         else
           if num_gtb (num_add offset (Num 4)) (len data)
           then Err (Error "Unexpected end of data while reading PAYLOAD_LENGTH (long record)")
           else
             OK (Num (js_or (Num (js_or (Num (js_or
                        (Num (js_shl (index data offset) (Num 24)))
                        (Num (js_shl (index data (num_add offset (Num 1))) (Num 16)))))
                        (Num (js_shl (index data (num_add offset (Num 2))) (Num 8)))))
                        (index data (num_add offset (Num 3)))),
                 num_add offset (Num 4)));
      '(idLength, offset) ←
        (if NDEFRecordHeader.idLengthFlag header
         then
           if num_geb offset (len data)
           then Err (Error "Unexpected end of data while reading ID_LENGTH")
           else OK (index data offset, num_add offset (Num 1))
         else OK (Num 0, offset));
      if num_gtb (num_add offset typeLength) (len data)
      then Err (Error "Unexpected end of data while reading TYPE")
      else
        let rawType := slice data offset (num_add offset typeLength) in
        let offset := num_add offset typeLength in
        '(rawId, offset) ←
          (if NDEFRecordHeader.idLengthFlag header
           then
             if num_gtb (num_add offset idLength) (len data)
             then Err (Error "Unexpected end of data while reading ID")
             else OK (Some (slice data offset (num_add offset idLength)),
                      num_add offset idLength)
           else OK (None, offset));
        if num_gtb (num_add offset payloadLength) (len data)
        then Err (Error "Unexpected end of data while reading PAYLOAD")
        else
          let rawPayload := slice data offset (num_add offset payloadLength) in
          let offset := num_add offset payloadLength in
          record ← createNDEFRecordFromRawData (NDEFRecordHeader.tnf header)
                     rawType rawPayload rawId;
          OK {| parsed_record := record;
                nextOffset := offset;
                isMessageEnd := NDEFRecordHeader.messageEndFlag header |}.

(** The [while] loop of [parseNDEFMessage].  A length field with its top
    bit set reads as a negative number and moves the cursor backwards, so
    the loop has no bound in terms of the input: [fuel] counts iterations
    and [None] means that [fuel] iterations did not finish it. *)
Fixpoint parseRecords (fuel : nat) (data : list byte) (offset : num)
  (records : list BaseNDEFRecord) : option (result (list BaseNDEFRecord)) :=
  if num_ltb offset (len data)
  then
    match fuel with
    | O => None
    | S fuel =>
        match parseNDEFRecord data offset with
        | Err e => Some (Err e)
        | OK recordResult =>
            let records := records ++ [parsed_record recordResult] in
            let offset := nextOffset recordResult in
            if isMessageEnd recordResult
            then Some (OK records)
            else parseRecords fuel data offset records
        end
    end
  else Some (OK records).

(** [parseNDEFMessage]; the result is the record array of the message it
    constructs. *)
Definition parseNDEFMessage (fuel : nat) (data : list byte)
  : option (result (list BaseNDEFRecord)) :=
  let data := stripLeadingTrailingZeros data in
  if num_eqb (len data) (Num 0)
  then Some (OK [])
  else
    match validateAndStripTLV data with
    | Err e => Some (Err e)
    | OK data =>
        if num_eqb (len data) (Num 0)
        then Some (OK [])
        else parseRecords fuel data (Num 0) []
    end.

(** [safeParseNDEFMessage]: the same, with the exception caught. *)
Inductive SafeParse : Type :=
  | ParseSuccess (message : list BaseNDEFRecord)
  | ParseFailure (error : string).

Definition safeParseNDEFMessage (fuel : nat) (data : list byte) : option SafeParse :=
  match parseNDEFMessage fuel data with
  | None => None
  | Some (OK message) => Some (ParseSuccess message)
  | Some (Err error) => Some (ParseFailure (message error))
  end.

End Records.

(** A platform on which the codec can be run on examples: text is ASCII,
    a URL is anything with a non-empty scheme before a colon, and a JSON
    document is kept as its text when it opens with a brace. *)
Definition example_platform : Platform := {|
  TextDecoder_decode := String.string_of_list_byte;
  URL_canParse := fun s => match indexOf s ":" with Some (S _) => true | _ => false end;
  JSONValue := string;
  JSON_parse := fun s =>
    if String.prefix "{" s then OK s
    else Err (SyntaxError "Unexpected token in JSON at position 0");
  JSON_stringify := fun v => v;
|}.

(** *** The stages of [parseNDEFRecord], named

    [parseNDEFRecord] reads its fields one after the other; the three
    conditional reads are named here so that each can be reasoned about on
    its own ([parseNDEFRecord_stages] below shows they are its text). *)

Section Stages.
Context `{Platform}.

(** PAYLOAD_LENGTH: one byte for a short record, four big-endian bytes
    otherwise; returns the length and the cursor after it. *)
Definition readPayloadLength (data : list byte) (shortRecordFlag : bool) (offset : num)
  : result (num * num) :=
  if shortRecordFlag
  then
    if num_geb offset (len data)
    then Err (Error "Unexpected end of data while reading PAYLOAD_LENGTH (short record)")
    else OK (index data offset, num_add offset (Num 1))
  else
    if num_gtb (num_add offset (Num 4)) (len data)
    then Err (Error "Unexpected end of data while reading PAYLOAD_LENGTH (long record)")
    else
      OK (Num (js_or (Num (js_or (Num (js_or
                 (Num (js_shl (index data offset) (Num 24)))
                 (Num (js_shl (index data (num_add offset (Num 1))) (Num 16)))))
                 (Num (js_shl (index data (num_add offset (Num 2))) (Num 8)))))
                 (index data (num_add offset (Num 3)))),
          num_add offset (Num 4)).

(** ID_LENGTH: one byte when the IL flag is set, else 0. *)
Definition readIdLength (data : list byte) (idLengthFlag : bool) (offset : num)
  : result (num * num) :=
  if idLengthFlag
  then
    if num_geb offset (len data)
    then Err (Error "Unexpected end of data while reading ID_LENGTH")
    else OK (index data offset, num_add offset (Num 1))
  else OK (Num 0, offset).

(** ID: [idLength] bytes when the IL flag is set. *)
Definition readId (data : list byte) (idLengthFlag : bool) (idLength offset : num)
  : result (option (list byte) * num) :=
  if idLengthFlag
  then
    if num_gtb (num_add offset idLength) (len data)
    then Err (Error "Unexpected end of data while reading ID")
    else OK (Some (slice data offset (num_add offset idLength)),
             num_add offset idLength)
  else OK (None, offset).

(** The length bytes [constructBytesFromRecordInfo] writes for a payload of
    [n] bytes. *)
Definition payloadLengthBytes (n : Z) : list byte :=
  if num_ltb (Num n) (Num 256)
  then [to_uint8 n]
  else [to_uint8 (js_and (Num (js_shr (Num n) (Num 24))) (Num 0xFF));
        to_uint8 (js_and (Num (js_shr (Num n) (Num 16))) (Num 0xFF));
        to_uint8 (js_and (Num (js_shr (Num n) (Num 8))) (Num 0xFF));
        to_uint8 (js_and (Num n) (Num 0xFF))].

(** [parseNDEFRecord], written with the named stages. *)
Definition parseNDEFRecord_staged (data : list byte) (offset : num)
  : result ParsedNDEFRecordResult :=
  if num_geb offset (len data)
  then Err (Error "Unexpected end of data while parsing NDEF record")
  else
    header ← parseNDEFRecordHeader (index data offset);
    let offset := num_add offset (Num 1) in
    if num_geb offset (len data)
    then Err (Error "Unexpected end of data while reading TYPE_LENGTH")
    else
      let typeLength := index data offset in
      let offset := num_add offset (Num 1) in
      '(payloadLength, offset) ←
        readPayloadLength data (NDEFRecordHeader.shortRecordFlag header) offset;
      '(idLength, offset) ←
        readIdLength data (NDEFRecordHeader.idLengthFlag header) offset;
      if num_gtb (num_add offset typeLength) (len data)
      then Err (Error "Unexpected end of data while reading TYPE")
      else
        let rawType := slice data offset (num_add offset typeLength) in
        let offset := num_add offset typeLength in
        '(rawId, offset) ←
          readId data (NDEFRecordHeader.idLengthFlag header) idLength offset;
        if num_gtb (num_add offset payloadLength) (len data)
        then Err (Error "Unexpected end of data while reading PAYLOAD")
        else
          let rawPayload := slice data offset (num_add offset payloadLength) in
          let offset := num_add offset payloadLength in
          record ← createNDEFRecordFromRawData (NDEFRecordHeader.tnf header)
                     rawType rawPayload rawId;
          OK {| parsed_record := record;
                nextOffset := offset;
                isMessageEnd := NDEFRecordHeader.messageEndFlag header |}.

End Stages.

(** *** What the decoder makes of encoded records *)

Section Decoded.
Context `{Platform}.

(** The record [parseNDEFRecord] builds from the wire fields of [r]. *)
Definition reparse (r : BaseNDEFRecord) : result BaseNDEFRecord :=
  createNDEFRecordFromRawData (tnf r) (rawType r ()) (rawPayload r ()) (rawId r ()).

(** Walking the records in order and stopping behind the first one whose
    end flag is set: the records rebuilt so far, and whether an end flag
    stopped the walk. *)
Fixpoint decodedUntilEnd (infos : list RecordInfo) : result (list BaseNDEFRecord * bool) :=
  match infos with
  | [] => OK ([], false)
  | info :: infos =>
      r ← reparse (record info);
      if isEnd info then OK ([r], true)
      else '(rs, stopped) ← decodedUntilEnd infos; OK (r :: rs, stopped)
  end.

(** The records [parseNDEFMessage] is to return for [infos] on the wire. *)
Definition untilMessageEnd (infos : list RecordInfo) : result (list BaseNDEFRecord) :=
  '(rs, _) ← decodedUntilEnd infos; OK rs.

(** A URI payload the parser rejects: empty, or with a prefix code above
    0x23. *)
Definition badURIPayload (rawPayload : list byte) : bool :=
  match rawPayload with
  | [] => true
  | prefixCode :: _ => 0x23 <? byte_to_Z prefixCode
  end.

(** The payload of every record fits a signed 32-bit length. *)
Definition payloadsFit (infos : list RecordInfo) : Prop :=
  Forall (fun info => Z.of_nat (length (rawPayload (record info) ())) < 2 ^ 31) infos.

End Decoded.

(** *** Records built by the factories, and when two records agree

    The round trip of a message is stated for records that come out of
    the eight exported factories. *)

Section Descriptors.
Context `{Platform}.

Inductive RecordDescriptor : Type :=
  | WellKnownURI (options : BaseNDEFRecordOptions.t string)
  | MediaApplicationJson (options : BaseNDEFRecordOptions.t JSONValue)
  | MediaTextPlain (options : BaseNDEFRecordOptions.t string)
  | MediaTextHTML (options : BaseNDEFRecordOptions.t string)
  | MediaImagePNG (options : BaseNDEFRecordOptions.t BinaryLike)
  | MediaImageJPEG (options : BaseNDEFRecordOptions.t BinaryLike)
  | MediaVideoMP4 (options : BaseNDEFRecordOptions.t BinaryLike)
  | MediaAudioMPEG (options : BaseNDEFRecordOptions.t BinaryLike).

(** The factory call a descriptor stands for. *)
Definition createRecord (d : RecordDescriptor) : result BaseNDEFRecord :=
  match d with
  | WellKnownURI options => createNDEFRecordWellKnownURI options
  | MediaApplicationJson options => OK (createNDEFRecordMediaApplicationJson options)
  | MediaTextPlain options => OK (createNDEFRecordMediaTextPlain options)
  | MediaTextHTML options => OK (createNDEFRecordMediaTextHTML options)
  | MediaImagePNG options => OK (createNDEFRecordMediaImagePNG options)
  | MediaImageJPEG options => OK (createNDEFRecordMediaImageJPEG options)
  | MediaVideoMP4 options => OK (createNDEFRecordMediaVideoMP4 options)
  | MediaAudioMPEG options => OK (createNDEFRecordMediaAudioMPEG options)
  end.

Definition descriptorType (d : RecordDescriptor) : string :=
  match d with
  | WellKnownURI _ => "U"
  | MediaApplicationJson _ => "application/json"
  | MediaTextPlain _ => "text/plain"
  | MediaTextHTML _ => "text/html"
  | MediaImagePNG _ => "image/png"
  | MediaImageJPEG _ => "image/jpeg"
  | MediaVideoMP4 _ => "video/mp4"
  | MediaAudioMPEG _ => "audio/mpeg"
  end.

Definition descriptorId (d : RecordDescriptor) : option string :=
  match d with
  | WellKnownURI o | MediaTextPlain o | MediaTextHTML o => BaseNDEFRecordOptions.id o
  | MediaApplicationJson o => BaseNDEFRecordOptions.id o
  | MediaImagePNG o | MediaImageJPEG o | MediaVideoMP4 o | MediaAudioMPEG o =>
      BaseNDEFRecordOptions.id o
  end.

(** Text the platform decoder returns unchanged from its UTF-8 bytes
    (well-formed text that does not start with a byte order mark). *)
Definition textOK (s : string) : Prop :=
  TextDecoder_decode (TextEncoder_encode s) = s.

(** A descriptor with a well-formed payload: its texts survive UTF-8, its
    URI parses, its JSON value survives [stringify] and [parse]. *)
Definition wellFormed (d : RecordDescriptor) : Prop :=
  textOK (descriptorType d)
  ∧ match descriptorId d with Some s => textOK s | None => True end
  ∧ match d with
    | WellKnownURI o =>
        ∀ m, getWellKnownURIPrefixMapping (BaseNDEFRecordOptions.payload o) = OK m →
             textOK (URISuffix m)
    | MediaApplicationJson o =>
        JSON_parse (TextDecoder_decode (TextEncoder_encode
                      (JSON_stringify (BaseNDEFRecordOptions.payload o))))
        = OK (BaseNDEFRecordOptions.payload o)
    | MediaTextPlain o | MediaTextHTML o => textOK (BaseNDEFRecordOptions.payload o)
    | _ => True
    end.

(** Payload values that agree: the same text, the same JSON value, the
    same bytes. *)
Definition samePayload (a b : PayloadValue) : Prop :=
  match a, b with
  | PString s, PString s' => s = s'
  | PJson v, PJson v' => v = v'
  | PBinary x, PBinary y => binaryLikeToUint8Array x = binaryLikeToUint8Array y
  | _, _ => False
  end.

(** Records that agree in category, type, id and payload. *)
Definition sameRecord (r r' : BaseNDEFRecord) : Prop :=
  tnf r' = tnf r
  ∧ type r' = type r
  ∧ id r' = id r
  ∧ isIdentified r' = isIdentified r
  ∧ rawPayload r' () = rawPayload r ()
  ∧ ∃ v v', payload r () = OK v ∧ payload r' () = OK v' ∧ samePayload v v'.

End Descriptors.

(** ** src/message.ts: the [NDEFMessage] object

    A message is an object whose [records] field refers to an array; the
    constructor stores the array it is given ([records ?? []]), so the
    array can be shared.  The heap keeps message objects and arrays apart. *)

Section Message.
Context `{Platform}.

Definition loc : Type := positive.

Record Heap : Type := mkHeap {
  (** message object ↦ the array its [records] field refers to *)
  messages : gmap loc loc;
  (** array ↦ its elements *)
  arrays : gmap loc (list BaseNDEFRecord);
}.

(** [m.records], read through the heap. *)
Definition records (h : Heap) (m : loc) : option (list BaseNDEFRecord) :=
  a ← messages h !! m; arrays h !! a.

(** [new NDEFMessage(records)] with an existing array. *)
Definition newNDEFMessageOf (records : loc) (h : Heap) : loc * Heap :=
  let m := fresh (dom (messages h)) in
  (m, {| messages := <[m := records]> (messages h); arrays := arrays h |}).

(** [new NDEFMessage()]: the message gets a new empty array. *)
Definition newNDEFMessage (h : Heap) : loc * Heap :=
  let a := fresh (dom (arrays h)) in
  newNDEFMessageOf a {| messages := messages h; arrays := <[a := []]> (arrays h) |}.

(** A method that updates the array of [this] in place with [f] and
    returns [this]. *)
Definition updateRecords (f : list BaseNDEFRecord → list BaseNDEFRecord)
  (this : loc) (h : Heap) : option (loc * Heap) :=
  a ← messages h !! this;
  l ← arrays h !! a;
  Some (this, {| messages := messages h; arrays := <[a := f l]> (arrays h) |}).

(** [this.records.unshift(header); return this]. *)
Definition addHead (this : loc) (header : BaseNDEFRecord) : Heap → option (loc * Heap) :=
  updateRecords (fun l => header :: l) this.

(** [this.records.push(tail); return this]. *)
Definition addTail (this : loc) (tail : BaseNDEFRecord) : Heap → option (loc * Heap) :=
  updateRecords (fun l => l ++ [tail]) this.

Definition add (this : loc) (record : BaseNDEFRecord) : Heap → option (loc * Heap) :=
  addTail this record.

(** [if (this.records.length === 0) return this; this.records.shift();
    return this]. *)
Definition removeHead (this : loc) (h : Heap) : option (loc * Heap) :=
  l ← records h this;
  if num_eqb (len l) (Num 0) then Some (this, h)
  else updateRecords (drop 1) this h.

(** [if (this.records.length === 0) return this; this.records.pop();
    return this]. *)
Definition removeTail (this : loc) (h : Heap) : option (loc * Heap) :=
  l ← records h this;
  if num_eqb (len l) (Num 0) then Some (this, h)
  else updateRecords (fun l => removelast l) this h.

Definition remove (this : loc) : Heap → option (loc * Heap) :=
  removeTail this.

(** [this.toBytes()], on the records the message holds at the call. *)
Definition messageToBytes (this : loc) (h : Heap) : option (result (list byte)) :=
  toBytes <$> records h this.

(** What a call that updates the array of [this] with [f] leaves behind:
    the call returns [this]; no message object and no array is created;
    every message whose [records] field refers to the same array, [this]
    included, now holds [f l]; every other array is untouched. *)
Definition updatedInPlace (f : list BaseNDEFRecord → list BaseNDEFRecord)
  (this : loc) (l : list BaseNDEFRecord) (h : Heap) (out : option (loc * Heap)) : Prop :=
  ∃ h', out = Some (this, h')
        ∧ messages h' = messages h
        ∧ dom (arrays h') = dom (arrays h)
        ∧ records h' this = Some (f l)
        ∧ (∀ m, messages h !! m = messages h !! this → records h' m = Some (f l))
        ∧ (∀ m, is_Some (messages h !! m) → messages h !! m ≠ messages h !! this →
                records h' m = records h m).

End Message.

(** ** The TLV checks in the words of the specification

    [tlvRejected] lists the five conditions under which unwrapping is
    said to fail; [tlvFourByteGuard] is the further check the code makes
    before it slices. *)

(** The byte at position [i], or [-1] past the end. *)
Definition byteAt (data : list byte) (i : nat) : Z :=
  match data !! i with Some b => byte_to_Z b | None => -1 end.

Definition tlvLongForm (data : list byte) : bool := byteAt data 1 =? 0xFF.

Definition tlvHeaderSize (data : list byte) : Z :=
  if tlvLongForm data then 4 else 2.

Definition tlvDeclaredLength (data : list byte) : Z :=
  if tlvLongForm data then 256 * byteAt data 2 + byteAt data 3 else byteAt data 1.

Definition tlvRejected (data : list byte) : bool :=
  (Z.of_nat (length data) <? 3)
  || negb (byteAt data 0 =? 0x03)
  || negb (byteAt data (length data - 1) =? 0xFE)
  || (tlvLongForm data && (Z.of_nat (length data) <? 5))
  || negb (Z.of_nat (length data) =? tlvHeaderSize data + tlvDeclaredLength data + 1).

Definition tlvFourByteGuard (data : list byte) : bool :=
  (Z.of_nat (length data) =? 4) && negb (tlvDeclaredLength data =? 0).

(** The value of a TLV block: the declared number of bytes after the header. *)
Definition tlvValue (data : list byte) : list byte :=
  take (Z.to_nat (tlvDeclaredLength data)) (drop (Z.to_nat (tlvHeaderSize data)) data).

(** ** Notions the further properties are stated with *)

(** The [length] getter of [NDEFMessage]: [this.records.length]. *)
Module NDEFMessage.
Definition length `{Platform} (this : loc) (h : Heap) : option num :=
  len <$> records h this.
End NDEFMessage.

Section Observations.
Context `{Platform}.

(** How many records of [infos] carry the begin flag, the end flag. *)
Definition beginCount (infos : list RecordInfo) : nat :=
  length (filter (fun info => isBeginning info = true) infos).
Definition endCount (infos : list RecordInfo) : nat :=
  length (filter (fun info => isEnd info = true) infos).

(** The three errors of [constructBytesFromRecordInfo]. *)
Definition recordEncodingError (e : JSError) : Prop :=
  e = TypeError "Payload length exceeds maximum allowed length of 2^32 - 1 bytes."
  ∨ e = TypeError "Type length exceeds maximum allowed length of 255 bytes."
  ∨ e = TypeError "ID length exceeds maximum allowed length of 255 bytes.".

(** The record types the parser knows: [U] among the well-known records
    and seven media types. *)
Definition knownType (tnf : TNF) (type : string) : bool :=
  match tnf with
  | well_known => String.eqb type "U"
  | media =>
      existsb (String.eqb type)
        ["application/json"; "text/plain"; "text/html"; "image/png";
         "image/jpeg"; "video/mp4"; "audio/mpeg"]
  | _ => false
  end.

(** The errors of the record parser: six truncation errors, the chunk
    flag, and the two errors of a URI payload. *)
Definition recordParseError (e : JSError) : Prop :=
  String.prefix "Unexpected end of data" (message e) = true
  ∨ e = Error "Chunked records are not supported yet"
  ∨ e = Error "URI record payload cannot be empty"
  ∨ ∃ c : byte,
      e = TypeError ("Invalid prefix code: " +:+ num_to_string (Num (byte_to_Z c))).

(** The value [payload()] of a parsed record is to return, from the
    category, the type and the payload bytes of the record. *)
Definition decodedPayload (t : TNF) (type : string) (bytes : list byte)
  : result PayloadValue :=
  if knownType t type
  then
    match t with
    | well_known =>
        match bytes with
        | [] => Err (Error "URI record payload cannot be empty")
        | c :: rest =>
            uri ← reconstructURIFromPrefix (Num (byte_to_Z c)) (TextDecoder_decode rest);
            OK (PString uri)
        end
    | _ =>
        if String.eqb type "application/json"
        then v ← JSON_parse (TextDecoder_decode bytes); OK (PJson v)
        else if String.eqb type "text/plain" || String.eqb type "text/html"
        then OK (PString (TextDecoder_decode bytes))
        else OK (PBinary (Uint8Array bytes))
    end
  else OK (PBinary (Uint8Array bytes)).

(** What holds of every record the parser returns: it is marked as
    identified exactly when its type is known, its payload is the decoded
    value of its bytes, [safePayload] reports what [payload] does, and
    [payload] can throw for a JSON record only. *)
Definition parsedRecordInvariant (r : BaseNDEFRecord) : Prop :=
  isIdentified r = knownType (tnf r) (type r)
  ∧ payload r () = decodedPayload (tnf r) (type r) (rawPayload r ())
  ∧ safePayload r ()
    = match payload r () with
      | OK v => SafeSuccess v
      | Err e => SafeFailure (message e)
      end
  ∧ ((∃ e, payload r () = Err e) → tnf r = media ∧ type r = "application/json").

(** A record whose type and id bytes are the UTF-8 encoding of the text
    they decode to, and whose id, if it has one, is not the empty
    string. *)
Definition reencodable (r : BaseNDEFRecord) : Prop :=
  TextEncoder_encode (TextDecoder_decode (rawType r ())) = rawType r ()
  ∧ match rawId r () with
    | None => True
    | Some i =>
        TextDecoder_decode i ≠ "" ∧ TextEncoder_encode (TextDecoder_decode i) = i
    end.

End Observations.

(** A long record without type and id whose four length bytes, FF FF FF
    FA, read as the 32-bit integer -6, which is minus the size of the
    record. *)
Definition backwardRecord (t : TNF) (mb : bool) : list byte :=
  constructHeaderByte (HeaderBytesInfo.mk (TNFLookup t) mb false false false false)
    ++ [x00; xff; xff; xff; xfa].

(** ** The record layout in the words of the specification

    A record on the wire: the header byte with MB in bit 7, ME in bit 6,
    the chunk flag (bit 5) clear, SR in bit 4, IL in bit 3 and the
    category code in bits 2-0; TYPE_LENGTH; PAYLOAD_LENGTH, one byte when
    SR is set and four bytes, most significant first, otherwise;
    ID_LENGTH when IL is set; then the type, the id and the payload.
    The encoder sets SR exactly for payloads below 256 bytes
    ([constructBytesFromRecordInfo_wire] below); on the wire a short
    payload may come in the long form as well, and an id may be empty. *)
Record WireRecord : Type := mkWire {
  wireTNF : TNF;
  wireMB : bool;
  wireME : bool;
  wireSR : bool;
  wireType : list byte;
  wireId : option (list byte);
  wirePayload : list byte;
}.

(** The header byte: the flags at their bits, the category code below. *)
Definition wireHeader (w : WireRecord) : byte :=
  to_uint8 ((if wireMB w then 0x80 else 0) + (if wireME w then 0x40 else 0)
            + (if wireSR w then 0x10 else 0)
            + (match wireId w with Some _ => 0x08 | None => 0 end)
            + TNFLookup (wireTNF w)).

(** PAYLOAD_LENGTH in the short and in the long form. *)
Definition wireLength (short : bool) (n : Z) : list byte :=
  if short then [to_uint8 n]
  else [to_uint8 (n / 2 ^ 24); to_uint8 (n / 2 ^ 16); to_uint8 (n / 2 ^ 8); to_uint8 n].

(** The bytes of the record. *)
Definition wireBytes (w : WireRecord) : list byte :=
  [wireHeader w; to_uint8 (Z.of_nat (length (wireType w)))]
    ++ wireLength (wireSR w) (Z.of_nat (length (wirePayload w)))
    ++ match wireId w with Some i => [to_uint8 (Z.of_nat (length i))] | None => [] end
    ++ wireType w
    ++ match wireId w with Some i => i | None => [] end
    ++ wirePayload w.

(** The fields fit their length bytes. *)
Definition wireFits (w : WireRecord) : Prop :=
  Z.of_nat (length (wireType w)) <= 255
  ∧ (∀ i, wireId w = Some i → Z.of_nat (length i) <= 255)
  ∧ (wireSR w = true → Z.of_nat (length (wirePayload w)) <= 255).

Section Wire.
Context `{Platform}.

(** The record [parseNDEFRecord] builds from the fields of [w]. *)
Definition wireRecord (w : WireRecord) : result BaseNDEFRecord :=
  createNDEFRecordFromRawData (wireTNF w) (wireType w) (wirePayload w) (wireId w).

(** A well-known record of type [U] whose payload the parser rejects. *)
Definition badURIRecord (w : WireRecord) : Prop :=
  wireTNF w = well_known
  ∧ TextDecoder_decode (wireType w) = "U"
  ∧ badURIPayload (wirePayload w) = true.

(** A media record of type [application/json]. *)
Definition jsonRecord (w : WireRecord) : Prop :=
  wireTNF w = media ∧ TextDecoder_decode (wireType w) = "application/json".

(** The two errors of a URI payload. *)
Definition uriPayloadError (e : JSError) : Prop :=
  e = Error "URI record payload cannot be empty"
  ∨ ∃ c : byte,
      e = TypeError ("Invalid prefix code: " +:+ num_to_string (Num (byte_to_Z c))).

End Wire.

(** ** The cursor of the parser *)

Section Cursor.
Context `{Platform}.

(** The cursors at which the loop of [parseNDEFMessage] reads a record of
    [data]: 0, and the cursor that a record read at such a cursor
    returns, unless its end flag is set. *)
Inductive recordStart (data : list byte) : Z → Prop :=
  | recordStart_first : recordStart data 0
  | recordStart_next (off next : Z) (res : ParsedNDEFRecordResult) :
      recordStart data off →
      parseNDEFRecord data (Num off) = OK res →
      isMessageEnd res = false →
      nextOffset res = Num next →
      recordStart data next.

(** The payload length of the record that starts at [off] does not read
    as a negative number: its short-record flag is set, or the first of
    its four length bytes is below 0x80. *)
Definition lengthNotNegative (data : list byte) (off : Z) : Prop :=
  flag (index data (Num off)) 0x10 = true
  ∨ num_ltb (index data (Num (off + 2))) (Num 0x80) = true.

End Cursor.

(** * Properties *)

(** ** Bytes and 32-bit arithmetic *)

Lemma byte_to_Z_range (b : byte) : 0 <= byte_to_Z b < 256.
Proof.
  unfold byte_to_Z. pose proof (Byte.to_N_bounded b). lia.
Qed.

Lemma to_uint8_byte_to_Z (b : byte) : to_uint8 (byte_to_Z b) = b.
Proof.
  unfold to_uint8. pose proof (byte_to_Z_range b) as Hb.
  rewrite Z.mod_small by lia. unfold byte_to_Z.
  rewrite N2Z.id, Byte.of_to_N. reflexivity.
Qed.

Lemma byte_to_Z_to_uint8 (z : Z) : 0 <= z < 256 → byte_to_Z (to_uint8 z) = z.
Proof.
  intros Hz. unfold to_uint8, byte_to_Z. rewrite Z.mod_small by lia.
  destruct (Byte.of_N (Z.to_N z)) as [b|] eqn:Hb.
  - apply Byte.to_of_N in Hb. rewrite Hb. lia.
  - apply Byte.of_N_None_iff in Hb. lia.
Qed.

Lemma wrap32_small (z : Z) : - 2 ^ 31 <= z < 2 ^ 31 → wrap32 z = z.
Proof. intros Hz. unfold wrap32. rewrite Z.mod_small; lia. Qed.

(** ** C7: the header byte *)

(** The byte [constructHeaderByte] builds, bit by bit, and what
    [parseNDEFRecordHeader] reads from it. *)
Lemma constructHeaderByte_layout (mb me sr il : bool) (t : TNF) :
  ∃ b : byte,
    constructHeaderByte (HeaderBytesInfo.mk (TNFLookup t) mb me il sr false) = [b]
    ∧ Z.testbit (byte_to_Z b) 7 = mb
    ∧ Z.testbit (byte_to_Z b) 6 = me
    ∧ Z.testbit (byte_to_Z b) 5 = false
    ∧ Z.testbit (byte_to_Z b) 4 = sr
    ∧ Z.testbit (byte_to_Z b) 3 = il
    ∧ Z.land (byte_to_Z b) 7 = TNFLookup t
    ∧ parseNDEFRecordHeader (Num (byte_to_Z b))
      = OK (NDEFRecordHeader.mk t mb me false sr il).
Proof.
  destruct mb, me, sr, il, t; eexists;
    (split; [vm_compute; reflexivity |]); vm_compute; repeat split.
Qed.

(** The five header bytes of the repository's unit tests. *)
Example header_test_vectors :
  constructHeaderByte (HeaderBytesInfo.mk 0x01 true true true true false) = [xd9]
  ∧ constructHeaderByte (HeaderBytesInfo.mk 0x01 true false true true false) = [x99]
  ∧ constructHeaderByte (HeaderBytesInfo.mk 0x04 false true true false false) = [x4c]
  ∧ constructHeaderByte (HeaderBytesInfo.mk 0x07 false false false true false) = [x17]
  ∧ constructHeaderByte (HeaderBytesInfo.mk 0x02 true false false false false) = [x82].
Proof. repeat split; reflexivity. Qed.

(** C7.  [constructHeaderByte] emits one byte with bit 7 = MessageBegin,
    bit 6 = MessageEnd, bit 5 (chunk flag) clear, bit 4 = ShortRecord,
    bit 3 = IdLengthPresent and bits 2-0 = the TNF code;
    [parseNDEFRecordHeader] fails on every byte with bit 5 set and reads
    those six fields back from every byte with bit 5 clear; parsing the
    constructed byte returns the fields it was built from. *)
Theorem header_byte_codec :
  (∀ (mb me sr il : bool) (t : TNF),
     ∃ b : byte,
       constructHeaderByte (HeaderBytesInfo.mk (TNFLookup t) mb me il sr false) = [b]
       ∧ Z.testbit (byte_to_Z b) 7 = mb
       ∧ Z.testbit (byte_to_Z b) 6 = me
       ∧ Z.testbit (byte_to_Z b) 5 = false
       ∧ Z.testbit (byte_to_Z b) 4 = sr
       ∧ Z.testbit (byte_to_Z b) 3 = il
       ∧ Z.land (byte_to_Z b) 7 = TNFLookup t
       ∧ parseNDEFRecordHeader (Num (byte_to_Z b))
         = OK (NDEFRecordHeader.mk t mb me false sr il))
  ∧ (∀ b : byte,
       ∃ t : TNF,
         TNFCodeLookup (Z.land (byte_to_Z b) 7) = OK t
         ∧ parseNDEFRecordHeader (Num (byte_to_Z b))
           = if Z.testbit (byte_to_Z b) 5
             then Err (Error "Chunked records are not supported yet")
             else OK (NDEFRecordHeader.mk t
                        (Z.testbit (byte_to_Z b) 7) (Z.testbit (byte_to_Z b) 6) false
                        (Z.testbit (byte_to_Z b) 4) (Z.testbit (byte_to_Z b) 3))).
Proof.
  split.
  - exact constructHeaderByte_layout.
  - intros b.
    destruct b;
      match goal with
      | |- ∃ t, TNFCodeLookup ?c = _ ∧ _ =>
          let r := eval vm_compute in (TNFCodeLookup c) in
          match r with OK ?t => exists t end
      end; split; vm_compute; reflexivity.
Qed.

(** ** The encoder loop *)

Section Encoder.
Context `{Platform}.

Lemma bind_OK {A B : Type} (a : A) (k : A → result B) : (OK a ≫= k) = k a.
Proof. reflexivity. Qed.

Lemma bind_Err {A B : Type} (e : JSError) (k : A → result B) : (Err e ≫= k) = Err e.
Proof. reflexivity. Qed.

(** The loop of [constructBytes] appends the encodings of the records in
    order and folds the markers over them. *)
Lemma constructBytes_loop_spec (infos : list RecordInfo) (m : Markers) (acc : list byte) :
  constructBytes_loop infos (m, acc)
  = (bs ← mapM constructBytesFromRecordInfo infos;
     OK (fold_left updateMarkers infos m, acc ++ concat bs)).
Proof.
  revert m acc. induction infos as [|info infos IH]; intros m acc; simpl.
  - rewrite app_nil_r. reflexivity.
  - destruct (constructBytesFromRecordInfo info) as [b|e]; simpl; [|reflexivity].
    rewrite IH. destruct (mapM constructBytesFromRecordInfo infos) as [bs|e]; simpl.
    + rewrite app_assoc. reflexivity.
    + reflexivity.
Qed.

Lemma infosFrom_cons (k n : nat) (r : BaseNDEFRecord) (rs : list BaseNDEFRecord) :
  infosFrom k n (r :: rs)
  = {| record := r;
       isBeginning := bool_decide (k = 0%nat);
       isEnd := bool_decide (Z.of_nat k = Z.of_nat n - 1) |}
    :: infosFrom (S k) n rs.
Proof.
  unfold infosFrom. rewrite imap_cons. f_equal.
  - rewrite Nat.add_0_r. reflexivity.
  - apply imap_ext. intros i x _. simpl. rewrite Nat.add_succ_r. reflexivity.
Qed.

Lemma recordInfos_infosFrom (records : list BaseNDEFRecord) :
  recordInfos records = infosFrom 0 (length records) records.
Proof. reflexivity. Qed.

Lemma infosFrom_record (k n : nat) (records : list BaseNDEFRecord) :
  record <$> infosFrom k n records = records.
Proof.
  revert k. induction records as [|r rs IH]; intros k; [reflexivity|].
  rewrite infosFrom_cons. simpl. rewrite IH. reflexivity.
Qed.

(** After the first record, the one marker still to come is the end. *)
Lemma markers_tail (rs : list BaseNDEFRecord) (k n : nat) :
  (1 <= k)%nat → n = (k + length rs)%nat → rs ≠ [] →
  fold_left updateMarkers (infosFrom k n rs) (mkMarkers true false false false)
  = mkMarkers true true false false.
Proof.
  revert k. induction rs as [|r rs IH]; intros k Hk Hn Hne; [congruence|].
  rewrite infosFrom_cons. simpl fold_left. simpl length in Hn.
  destruct rs as [|r' rs'].
  - unfold updateMarkers. simpl.
    rewrite (bool_decide_eq_false_2 (k = 0%nat)) by lia.
    rewrite bool_decide_eq_true_2 by (simpl in Hn; lia). reflexivity.
  - unfold updateMarkers at 2. simpl isBeginning. simpl isEnd.
    rewrite (bool_decide_eq_false_2 (k = 0%nat)) by lia.
    rewrite bool_decide_eq_false_2 by (simpl in Hn; lia).
    apply IH; [lia | simpl in *; lia | discriminate].
Qed.

(** The assignment rule of [toBytes] always yields one begin and one end. *)
Lemma markers_recordInfos (records : list BaseNDEFRecord) :
  records ≠ [] →
  fold_left updateMarkers (recordInfos records) (mkMarkers false false false false)
  = mkMarkers true true false false.
Proof.
  intros Hne. rewrite recordInfos_infosFrom.
  destruct records as [|r rs]; [congruence|].
  rewrite infosFrom_cons. simpl fold_left.
  destruct rs as [|r' rs'].
  - reflexivity.
  - unfold updateMarkers at 2. simpl isBeginning. simpl isEnd.
    rewrite bool_decide_eq_false_2 by (simpl length; lia). simpl.
    apply (markers_tail (r' :: rs') 1); [lia | reflexivity | discriminate].
Qed.

Lemma recordInfos_nonempty (records : list BaseNDEFRecord) :
  records ≠ [] → num_eqb (len (recordInfos records)) (Num 0) = false.
Proof.
  intros Hne. destruct records; [congruence|].
  unfold recordInfos. rewrite imap_cons. simpl. reflexivity.
Qed.

(** The two branches of the TLV length in [constructBytes], for infos
    whose markers pass the four checks. *)
Lemma constructBytes_cases (infos : list RecordInfo) (bs : list (list byte)) :
  infos ≠ [] →
  mapM constructBytesFromRecordInfo infos = OK bs →
  fold_left updateMarkers infos (mkMarkers false false false false)
  = mkMarkers true true false false →
  constructBytes infos
  = if Z.of_nat (length (concat bs)) <=? 254
    then OK ([x03; to_uint8 (Z.of_nat (length (concat bs)))] ++ concat bs ++ [xfe])
    else Err (TypeError "NDEFMessageLength is not iterable").
Proof.
  intros Hne Hbs Hmarkers. unfold constructBytes.
  assert (Hlen : num_eqb (len infos) (Num 0) = false)
    by (destruct infos; [congruence | reflexivity]).
  rewrite Hlen, constructBytes_loop_spec, Hbs, bind_OK, bind_OK, Hmarkers. simpl.
  unfold num_gtb, len.
  destruct (Z.of_nat (length (concat bs)) <=? 254) eqn:Hle.
  - apply Z.leb_le in Hle.
    destruct (Z.of_nat (length (concat bs)) >? 254) eqn:Hgt; [lia|]. reflexivity.
  - apply Z.leb_gt in Hle.
    destruct (Z.of_nat (length (concat bs)) >? 254) eqn:Hgt; [reflexivity|lia].
Qed.

Lemma recordInfos_nil (records : list BaseNDEFRecord) :
  recordInfos records = [] → records = [].
Proof. destruct records; [reflexivity | discriminate]. Qed.

(** C2.  For a non-empty record sequence whose records all encode,
    [toBytes] writes tag 0x03, a one-byte length, the record bytes and the
    terminator 0xFE when the record bytes number at most 254, and throws a
    [TypeError] when they number more: the long length form (0xFF and two
    length bytes) is computed but never emitted. *)
Theorem toBytes_length_form (records : list BaseNDEFRecord) (bs : list (list byte)) :
  records ≠ [] →
  mapM constructBytesFromRecordInfo (recordInfos records) = OK bs →
  (Z.of_nat (length (concat bs)) <= 254 →
   toBytes records
   = OK ([x03; to_uint8 (Z.of_nat (length (concat bs)))] ++ concat bs ++ [xfe]))
  ∧ (254 < Z.of_nat (length (concat bs)) →
     toBytes records = Err (TypeError "NDEFMessageLength is not iterable")).
Proof.
  intros Hne Hbs. unfold toBytes.
  assert (Hinfos : recordInfos records ≠ [])
    by (intros Hnil; apply Hne, recordInfos_nil, Hnil).
  rewrite (constructBytes_cases (recordInfos records) bs Hinfos Hbs
             (markers_recordInfos records Hne)).
  split; intros Hlen.
  - destruct (Z.leb_spec (Z.of_nat (length (concat bs))) 254); [reflexivity | lia].
  - destruct (Z.leb_spec (Z.of_nat (length (concat bs))) 254); [lia | reflexivity].
Qed.

End Encoder.

Lemma toBytes_length_form_witness :
  @toBytes example_platform
    [createNDEFRecordMediaImagePNG
       (BaseNDEFRecordOptions.mk (Uint8Array (replicate 250 x00)) None)]
  = Err (TypeError "NDEFMessageLength is not iterable").
Proof.
  refine (proj2 (@toBytes_length_form example_platform
                   [createNDEFRecordMediaImagePNG
                      (BaseNDEFRecordOptions.mk (Uint8Array (replicate 250 x00)) None)]
                   [[xd2; x09; xfa] ++ TextEncoder_encode "image/png" ++ replicate 250 x00]
                   _ _) _).
  - discriminate.
  - vm_compute. reflexivity.
  - vm_compute. reflexivity.
Defined.

(** ** Strings *)

Lemma prefix_append (p s : string) : String.prefix p (p +:+ s) = true.
Proof.
  induction p as [|a p IH]; simpl.
  - destruct s; reflexivity.
  - destruct (Ascii.ascii_dec a a); [exact IH | congruence].
Qed.

Lemma indexOf_unfold (s p : string) :
  indexOf s p
  = if String.prefix p s then Some 0%nat
    else match s with
         | EmptyString => None
         | String _ s' => S <$> indexOf s' p
         end.
Proof. destruct s; reflexivity. Qed.

Lemma substring_all (s : string) : String.substring 0 (String.length s) s = s.
Proof. induction s as [|a s IH]; simpl; [reflexivity | rewrite IH; reflexivity]. Qed.

Lemma substring_skip (p s : string) :
  String.substring (String.length p) (String.length (p +:+ s) - String.length p) (p +:+ s) = s.
Proof.
  induction p as [|a p IH]; simpl.
  - rewrite Nat.sub_0_r. apply substring_all.
  - exact IH.
Qed.

Lemma startsWith_split (p s : string) :
  startsWith s p = true → ∃ rest, s = p +:+ rest.
Proof.
  unfold startsWith. revert s. induction p as [|a p IH]; intros s Hp.
  - exists s. reflexivity.
  - destruct s as [|b s]; simpl in Hp; [discriminate|].
    destruct (Ascii.ascii_dec a b) as [->|]; [|discriminate].
    destruct (IH s Hp) as [rest ->]. exists rest. reflexivity.
Qed.

(** Removing the first occurrence of a prefix removes the prefix. *)
Lemma replace_with_empty_prefix (p s : string) : replace_with_empty (p +:+ s) p = s.
Proof.
  unfold replace_with_empty. rewrite indexOf_unfold, prefix_append. simpl plus.
  rewrite substring_skip. destruct (p +:+ s); reflexivity.
Qed.

(** ** C3: URI prefix compression *)

Section URIPrefix.
Context `{Platform}.

Lemma mapping_of_urn (rest : string) :
  URL_canParse ("urn:" +:+ rest) = true →
  getWellKnownURIPrefixMapping ("urn:" +:+ rest) = OK (mkPrefix 0x13 rest).
Proof.
  intros Hurl. unfold getWellKnownURIPrefixMapping. rewrite Hurl.
  rewrite (replace_with_empty_prefix "urn:" rest).
  destruct rest; vm_compute; reflexivity.
Qed.

(** The cases behind the one for [urn:] that name a longer [urn:] prefix
    are never taken: no code above 0x1D is returned. *)
Lemma getWellKnownURIPrefixMapping_code_bound (URI : string) (m : PrefixMapping) :
  getWellKnownURIPrefixMapping URI = OK m → 0 <= URIIdentifierPrefix m <= 0x1D.
Proof.
  unfold getWellKnownURIPrefixMapping.
  destruct (URL_canParse URI); [|discriminate]. cbv beta iota delta [negb].
  repeat
    match goal with
    | |- (if startsWith ?u ?p then OK (mkPrefix ?c _) else _) = OK m → _ =>
        destruct (startsWith u p) eqn:?;
        [ first
            [ intros [= <-]; simpl; lia
            | exfalso;
              match goal with
              | Hs : startsWith u p = true, Hurn : startsWith u "urn:" = false |- _ =>
                  apply startsWith_split in Hs as [rest ->];
                  vm_compute in Hurn; discriminate Hurn
              end ]
        | ]
    end.
  intros [= <-]. simpl. lia.
Qed.

(** C3.  Every URI that starts with [urn:] is abbreviated with code 0x13
    and the text after [urn:]: the case for [urn:] stands before the cases
    for [urn:epc:id:], [urn:epc:tag:], [urn:epc:pat:], [urn:epc:raw:],
    [urn:epc:] and [urn:nfc:], which are therefore never taken, and no
    code above 0x1D is ever returned.  A URI that starts with
    [urn:epc:id:] gets the payload 0x13 followed by the UTF-8 bytes of
    [epc:id:...], not 0x1E followed by the rest. *)
Theorem urn_case_shadows_longer_prefixes (rest : string) (id : option string) :
  URL_canParse ("urn:" +:+ rest) = true →
  getWellKnownURIPrefixMapping ("urn:" +:+ rest) = OK (mkPrefix 0x13 rest)
  ∧ (∃ r, createNDEFRecordWellKnownURI (BaseNDEFRecordOptions.mk ("urn:" +:+ rest) id) = OK r
          ∧ rawPayload r () = x13 :: TextEncoder_encode rest)
  ∧ (∀ URI m, getWellKnownURIPrefixMapping URI = OK m → 0 <= URIIdentifierPrefix m <= 0x1D).
Proof.
  intros Hurl. pose proof (mapping_of_urn rest Hurl) as Hmap.
  split; [exact Hmap|]. split; [|exact getWellKnownURIPrefixMapping_code_bound].
  unfold createNDEFRecordWellKnownURI.
  change (BaseNDEFRecordOptions.payload (BaseNDEFRecordOptions.mk ("urn:" +:+ rest) id))
    with ("urn:" +:+ rest).
  rewrite Hmap, bind_OK. destruct id; eexists; split; reflexivity.
Qed.

(** C6.  The record of a single-record message for ["http://www.nfc.com"]
    encodes to D1 01 08 55 01 6E 66 63 2E 63 6F 6D, and [toBytes] returns
    these twelve bytes inside the TLV envelope: 03 0C, the record, FE. *)
Theorem nfc_com_record_bytes :
  URL_canParse "http://www.nfc.com" = true →
  ∃ r, createNDEFRecordWellKnownURI (BaseNDEFRecordOptions.mk "http://www.nfc.com" None) = OK r
       ∧ constructBytesFromRecordInfo (mkInfo r true true)
         = OK [xd1; x01; x08; x55; x01; x6e; x66; x63; x2e; x63; x6f; x6d]
       ∧ toBytes [r]
         = OK [x03; x0c; xd1; x01; x08; x55; x01; x6e; x66; x63; x2e; x63; x6f; x6d; xfe].
Proof.
  intros Hurl. unfold createNDEFRecordWellKnownURI, getWellKnownURIPrefixMapping.
  simpl BaseNDEFRecordOptions.payload. rewrite Hurl. simpl.
  eexists. split; [reflexivity|]. split; vm_compute; reflexivity.
Qed.

End URIPrefix.

Lemma urn_case_shadows_longer_prefixes_witness :
  ∃ r, @createNDEFRecordWellKnownURI example_platform
         (BaseNDEFRecordOptions.mk "urn:epc:id:sgtin:0614141.107346.2017" None) = OK r
       ∧ rawPayload r () = x13 :: TextEncoder_encode "epc:id:sgtin:0614141.107346.2017".
Proof.
  apply (@urn_case_shadows_longer_prefixes example_platform
           "epc:id:sgtin:0614141.107346.2017" None).
  vm_compute. reflexivity.
Defined.

Lemma nfc_com_record_bytes_witness :
  ∃ r, @createNDEFRecordWellKnownURI example_platform
         (BaseNDEFRecordOptions.mk "http://www.nfc.com" None) = OK r
       ∧ constructBytesFromRecordInfo (mkInfo r true true)
         = OK [xd1; x01; x08; x55; x01; x6e; x66; x63; x2e; x63; x6f; x6d]
       ∧ toBytes [r]
         = OK [x03; x0c; xd1; x01; x08; x55; x01; x6e; x66; x63; x2e; x63; x6f; x6d; xfe].
Proof.
  apply (@nfc_com_record_bytes example_platform). vm_compute. reflexivity.
Defined.

(** C6 read for [toBytes]: the bytes it returns for the message are not
    the twelve record bytes alone. *)
Lemma nfc_com_message_is_enveloped :
  ¬ (∀ (P : Platform) (r : BaseNDEFRecord),
       createNDEFRecordWellKnownURI (BaseNDEFRecordOptions.mk "http://www.nfc.com" None) = OK r →
       toBytes [r] = OK [xd1; x01; x08; x55; x01; x6e; x66; x63; x2e; x63; x6f; x6d]).
Proof.
  intros Hall.
  assert (∃ r, @createNDEFRecordWellKnownURI example_platform
                 (BaseNDEFRecordOptions.mk "http://www.nfc.com" None) = OK r
               ∧ @toBytes example_platform [r]
                 = OK [x03; x0c; xd1; x01; x08; x55; x01; x6e; x66; x63; x2e; x63;
                       x6f; x6d; xfe]) as (r & Hr & Hbytes).
  { eexists. split; [reflexivity | vm_compute; reflexivity]. }
  specialize (Hall example_platform r Hr). rewrite Hbytes in Hall. discriminate.
Qed.

(** ** Array reads and slices *)

Lemma index_byteAt (data : list byte) (i : nat) :
  (i < length data)%nat → index data (Num (Z.of_nat i)) = Num (byteAt data i).
Proof.
  intros Hi. unfold index, byteAt.
  destruct (Z.leb_spec 0 (Z.of_nat i)); [|lia].
  destruct (Z.ltb_spec (Z.of_nat i) (Z.of_nat (length data))); [|lia].
  simpl. rewrite Nat2Z.id.
  destruct (data !! i) eqn:Hl; [reflexivity|].
  apply lookup_ge_None in Hl. lia.
Qed.

Lemma byteAt_range (data : list byte) (i : nat) :
  (i < length data)%nat → 0 <= byteAt data i < 256.
Proof.
  intros Hi. unfold byteAt. destruct (data !! i) eqn:Hl.
  - apply byte_to_Z_range.
  - apply lookup_ge_None in Hl. lia.
Qed.

Lemma relative_index_inside (n i : Z) : 0 <= i <= n → relative_index n i = i.
Proof.
  intros Hi. unfold relative_index.
  destruct (Z.ltb_spec i 0); lia.
Qed.

(** A slice between two positions inside the array. *)
Lemma slice_inside (data : list byte) (s e : Z) :
  0 <= s <= e → e <= Z.of_nat (length data) →
  slice data (Num s) (Num e) = take (Z.to_nat (e - s)) (drop (Z.to_nat s) data).
Proof.
  intros Hs He. unfold slice. simpl ToInteger.
  rewrite !relative_index_inside by lia. reflexivity.
Qed.

(** Two bytes read as a big-endian 16-bit number. *)
Lemma lor_shiftl_add (a b n : Z) :
  0 <= n → 0 <= b < 2 ^ n → Z.lor (Z.shiftl a n) b = a * 2 ^ n + b.
Proof.
  intros Hn Hb.
  assert (Hland : Z.land (Z.shiftl a n) b = 0).
  { apply Z.bits_inj'. intros i Hi. rewrite Z.land_spec, Z.bits_0.
    destruct (Z.lt_ge_cases i n) as [Hlt|Hge].
    - rewrite Z.shiftl_spec_low by assumption. reflexivity.
    - destruct (Z.eq_dec b 0) as [->|Hb0].
      + rewrite Z.bits_0. apply andb_false_r.
      + rewrite (Z.bits_above_log2 b i); [apply andb_false_r | lia |].
        apply Z.log2_lt_pow2; [lia|].
        apply Z.lt_le_trans with (2 ^ n); [lia|].
        apply Z.pow_le_mono_r; lia. }
  rewrite <- Z.lxor_lor by assumption.
  rewrite <- Z.add_nocarry_lxor by assumption.
  rewrite Z.shiftl_mul_pow2 by assumption. reflexivity.
Qed.

Lemma js_be16 (a b : Z) :
  0 <= a < 256 → 0 <= b < 256 →
  js_or (Num (js_shl (Num a) (Num 8))) (Num b) = 256 * a + b.
Proof.
  intros Ha Hb. unfold js_or, js_shl, ToInt32.
  rewrite (wrap32_small a) by lia. rewrite (wrap32_small 8) by lia.
  rewrite (wrap32_small b) by lia.
  change (8 mod 32) with 8.
  assert (Hs : Z.shiftl a 8 = a * 256)
    by (rewrite Z.shiftl_mul_pow2 by lia; reflexivity).
  rewrite !(wrap32_small (Z.shiftl a 8)) by (rewrite Hs; lia).
  rewrite lor_shiftl_add by (change (2 ^ 8) with 256; lia).
  change (2 ^ 8) with 256. rewrite wrap32_small by lia. lia.
Qed.

(** ** C4: TLV unwrapping *)

(** The checks of [validateAndStripTLV], one by one. *)
Lemma validateAndStripTLV_cases (data : list byte) :
  match validateAndStripTLV data with
  | Err _ => tlvRejected data || tlvFourByteGuard data = true
  | OK value => tlvRejected data || tlvFourByteGuard data = false ∧ value = tlvValue data
  end.
Proof.
  unfold validateAndStripTLV, tlvRejected, tlvFourByteGuard, tlvValue,
    tlvDeclaredLength, tlvHeaderSize, tlvLongForm, len.
  remember (Z.of_nat (length data)) as n eqn:Hn.
  unfold num_ltb at 1.
  destruct (Z.ltb_spec n 3) as [Hlt|Hge]; [reflexivity|].
  pose proof (index_byteAt data 0 ltac:(lia)) as H0. change (Z.of_nat 0) with 0 in H0.
  pose proof (index_byteAt data 1 ltac:(lia)) as H1. change (Z.of_nat 1) with 1 in H1.
  pose proof (index_byteAt data 2 ltac:(lia)) as H2. change (Z.of_nat 2) with 2 in H2.
  pose proof (index_byteAt data (length data - 1) ltac:(lia)) as Hl.
  replace (Z.of_nat (length data - 1)) with (n + -1) in Hl by lia.
  pose proof (byteAt_range data 0 ltac:(lia)) as R0.
  pose proof (byteAt_range data 1 ltac:(lia)) as R1.
  pose proof (byteAt_range data 2 ltac:(lia)) as R2.
  pose proof (byteAt_range data (length data - 1) ltac:(lia)) as Rl.
  simpl num_add. rewrite H0, H1, Hl. unfold num_eqb, num_ltb. simpl orb.
  destruct (Z.eqb_spec (byteAt data 0) 3) as [E0|E0]; [|reflexivity].
  destruct (Z.eqb_spec (byteAt data (length data - 1)) 254) as [El|El]; [|reflexivity].
  simpl negb. simpl orb. cbv iota.
  destruct (Z.eqb_spec (byteAt data 1) 255) as [E1|E1].
  - (* long form *)
    rewrite E1. change (255 <? 255) with false. cbv iota. simpl andb.
    destruct (Z.ltb_spec n 5) as [Hlt5|Hge5]; [reflexivity|].
    pose proof (index_byteAt data 3 ltac:(lia)) as H3. change (Z.of_nat 3) with 3 in H3.
    pose proof (byteAt_range data 3 ltac:(lia)) as R3.
    rewrite H2, H3, js_be16 by assumption.
    rewrite bind_OK. simpl num_add. cbv iota. simpl orb.
    destruct (Z.eqb_spec n (4 + (256 * byteAt data 2 + byteAt data 3) + 1)) as [En|En];
      [|reflexivity].
    simpl negb. simpl orb. cbv iota.
    destruct (Z.eqb_spec (256 * byteAt data 2 + byteAt data 3) 0) as [Ez|Ez].
    + rewrite andb_false_r. split; [reflexivity|]. rewrite Ez. reflexivity.
    + destruct (Z.eqb_spec n 4) as [E4|E4]; [lia|].
      split; [reflexivity|].
      rewrite slice_inside by lia. f_equal. lia.
  - (* short form *)
    destruct (Z.ltb_spec (byteAt data 1) 255) as [L1|L1]; [|lia].
    rewrite bind_OK. simpl num_add. cbv iota. simpl andb. simpl orb.
    destruct (Z.eqb_spec n (2 + byteAt data 1 + 1)) as [En|En]; [|reflexivity].
    simpl negb. simpl orb. cbv iota.
    destruct (Z.eqb_spec (byteAt data 1) 0) as [Ez|Ez].
    + rewrite andb_false_r. split; [reflexivity|]. rewrite Ez. reflexivity.
    + destruct (Z.eqb_spec n 4) as [E4|E4]; [reflexivity|].
      split; [reflexivity|].
      rewrite slice_inside by lia. f_equal. lia.
Qed.

(** C4.  [validateAndStripTLV] throws exactly when the buffer has fewer
    than 3 bytes, or its first byte is not 0x03, or its last byte is not
    0xFE, or it is in long form with fewer than 5 bytes, or its length is
    not header size + declared length + 1, or it has exactly 4 bytes and a
    declared length other than 0; otherwise it returns the declared number
    of bytes after the header. *)
Theorem validateAndStripTLV_spec (data : list byte) :
  ((∃ e, validateAndStripTLV data = Err e)
   ↔ tlvRejected data = true ∨ tlvFourByteGuard data = true)
  ∧ (tlvRejected data = false → tlvFourByteGuard data = false →
     validateAndStripTLV data = OK (tlvValue data)).
Proof.
  pose proof (validateAndStripTLV_cases data) as Hcases.
  destruct (validateAndStripTLV data) as [value|e].
  - destruct Hcases as [Hok ->]. apply orb_false_elim in Hok as [Hr Hg].
    split; [split|].
    + intros [e He]. discriminate He.
    + intros [Hr' | Hg']; congruence.
    + reflexivity.
  - apply orb_true_elim in Hcases.
    split; [split|].
    + intros _. destruct Hcases as [Hr | Hg]; [left | right]; assumption.
    + intros _. exists e. reflexivity.
    + intros Hr Hg. destruct Hcases; congruence.
Qed.

Lemma validateAndStripTLV_spec_witness :
  validateAndStripTLV [x03; x03; xaa; xbb; xcc; xfe] = OK [xaa; xbb; xcc].
Proof.
  exact (proj2 (validateAndStripTLV_spec [x03; x03; xaa; xbb; xcc; xfe]) eq_refl eq_refl).
Defined.

Lemma byteAt_le (data : list byte) (i : nat) : byteAt data i <= 255.
Proof.
  unfold byteAt. destruct (data !! i) as [b|]; [|lia].
  pose proof (byte_to_Z_range b). lia.
Qed.

(** A TLV value has at most 65535 bytes. *)
Lemma validateAndStripTLV_length (data value : list byte) :
  validateAndStripTLV data = OK value → Z.of_nat (length value) <= 65535.
Proof.
  intros Hv. pose proof (validateAndStripTLV_cases data) as Hc.
  rewrite Hv in Hc. destruct Hc as [_ ->]. unfold tlvValue.
  rewrite length_take.
  assert (tlvDeclaredLength data <= 65535).
  { unfold tlvDeclaredLength.
    pose proof (byteAt_le data 1). pose proof (byteAt_le data 2).
    pose proof (byteAt_le data 3). destruct (tlvLongForm data); lia. }
  lia.
Qed.

Lemma validateAndStripTLV_nil : validateAndStripTLV [] = Err (Error "TLV structure is malformed: not enough data").
Proof. reflexivity. Qed.

(** The special case named in C4: a four-byte block with a one-byte value
    meets none of the five listed conditions and is rejected all the same. *)
Lemma four_byte_tlv_rejected :
  tlvRejected [x03; x01; x2a; xfe] = false
  ∧ tlvValue [x03; x01; x2a; xfe] = [x2a]
  ∧ validateAndStripTLV [x03; x01; x2a; xfe]
    = Err (Error "TLV structure is malformed: length field must be 1 or 3 bytes").
Proof. repeat split; vm_compute; reflexivity. Qed.

(** ** C10: the mutators of [NDEFMessage] *)

Section MessageMutators.
Context `{Platform}.

Lemma updateRecords_inPlace (f : list BaseNDEFRecord → list BaseNDEFRecord)
  (this : loc) (l : list BaseNDEFRecord) (h : Heap) :
  records h this = Some l → updatedInPlace f this l h (updateRecords f this h).
Proof.
  unfold updatedInPlace, updateRecords, records. intros Hrec.
  destruct (messages h !! this) as [a|] eqn:Hm; simpl in Hrec; [|discriminate].
  simpl. rewrite Hrec. simpl. eexists. split; [reflexivity|]. simpl.
  split; [reflexivity|]. split; [|split; [|split]].
  - apply dom_insert_lookup_L. rewrite Hrec. eauto.
  - rewrite Hm. simpl. apply lookup_insert_eq.
  - intros m Hsame. rewrite Hsame. simpl. apply lookup_insert_eq.
  - intros m [a' Ha'] Hne. rewrite Ha'. simpl.
    apply lookup_insert_ne. congruence.
Qed.

Lemma unchanged_inPlace (f : list BaseNDEFRecord → list BaseNDEFRecord)
  (this : loc) (l : list BaseNDEFRecord) (h : Heap) :
  records h this = Some l → f l = l → updatedInPlace f this l h (Some (this, h)).
Proof.
  intros Hrec Hf. exists h. rewrite Hf. split; [reflexivity|]. split; [reflexivity|].
  split; [reflexivity|]. split; [exact Hrec|]. split.
  - intros m Hsame. unfold records in *. rewrite Hsame. exact Hrec.
  - reflexivity.
Qed.

(** C10.  Each of [add], [addHead], [addTail], [remove], [removeHead] and
    [removeTail] returns the message it was called on and changes the array
    that message refers to in place: no message and no array is created,
    the change shows through every reference to the array, and the new
    contents are the old ones with the record appended ([add], [addTail]),
    prepended ([addHead]), or with the last ([remove], [removeTail]) or
    first ([removeHead]) record dropped; removing from an empty message
    leaves it empty. *)
Theorem mutators_update_in_place (this : loc) (l : list BaseNDEFRecord) (h : Heap)
  (r : BaseNDEFRecord) :
  records h this = Some l →
  updatedInPlace (fun l => l ++ [r]) this l h (add this r h)
  ∧ updatedInPlace (fun l => r :: l) this l h (addHead this r h)
  ∧ updatedInPlace (fun l => l ++ [r]) this l h (addTail this r h)
  ∧ updatedInPlace (fun l => removelast l) this l h (remove this h)
  ∧ updatedInPlace (drop 1) this l h (removeHead this h)
  ∧ updatedInPlace (fun l => removelast l) this l h (removeTail this h)
  ∧ (l = [] → removeHead this h = Some (this, h) ∧ removeTail this h = Some (this, h)).
Proof.
  intros Hrec.
  assert (Htail : updatedInPlace (fun l => removelast l) this l h (removeTail this h)).
  { unfold removeTail. rewrite Hrec. simpl. destruct l as [|x l'].
    - apply unchanged_inPlace; [exact Hrec | reflexivity].
    - apply updateRecords_inPlace. exact Hrec. }
  repeat split.
  - apply updateRecords_inPlace. exact Hrec.
  - apply updateRecords_inPlace. exact Hrec.
  - apply updateRecords_inPlace. exact Hrec.
  - exact Htail.
  - unfold removeHead. rewrite Hrec. simpl. destruct l as [|x l'].
    + apply unchanged_inPlace; [exact Hrec | reflexivity].
    + apply updateRecords_inPlace. exact Hrec.
  - exact Htail.
  - subst l. unfold removeHead. rewrite Hrec. reflexivity.
  - subst l. unfold removeTail. rewrite Hrec. reflexivity.
Qed.

End MessageMutators.

Lemma mutators_update_in_place_witness :
  let r0 := @createNDEFRecordMediaTextPlain example_platform
              (BaseNDEFRecordOptions.mk "first" None) in
  let r1 := @createNDEFRecordMediaTextPlain example_platform
              (BaseNDEFRecordOptions.mk "second" None) in
  let h := {| messages := {[ 1%positive := 2%positive ]};
              arrays := {[ 2%positive := [r0] ]} |} in
  ∃ h', addTail 1%positive r1 h = Some (1%positive, h')
        ∧ records h' 1%positive = Some [r0; r1].
Proof.
  intros r0 r1 h.
  destruct (@mutators_update_in_place example_platform 1%positive [r0] h r1 eq_refl)
    as (_ & _ & (h' & Hout & _ & _ & Hrec & _) & _).
  exists h'. split; [exact Hout | exact Hrec].
Defined.

(** ** Four-byte lengths *)

Lemma js_and_255 (x : Z) : - 2 ^ 31 <= x < 2 ^ 31 → js_and (Num x) (Num 255) = x mod 256.
Proof.
  intros Hx. unfold js_and, ToInt32.
  rewrite (wrap32_small x) by assumption. rewrite (wrap32_small 255) by lia.
  change 255 with (Z.ones 8). rewrite Z.land_ones by lia. change (2 ^ 8) with 256.
  apply wrap32_small. pose proof (Z.mod_pos_bound x 256). lia.
Qed.

Lemma js_shr_small (n k : Z) :
  0 <= n < 2 ^ 31 → 0 <= k < 32 → js_shr (Num n) (Num k) = n / 2 ^ k.
Proof.
  intros Hn Hk. unfold js_shr, ToInt32.
  rewrite (wrap32_small n) by lia. rewrite (wrap32_small k) by lia.
  rewrite (Z.mod_small k 32) by lia. apply Z.shiftr_div_pow2. lia.
Qed.

Lemma js_shl_small (a k : Z) :
  0 <= k < 32 → 0 <= a → a * 2 ^ k < 2 ^ 31 → js_shl (Num a) (Num k) = a * 2 ^ k.
Proof.
  intros Hk Ha Hlt. unfold js_shl, ToInt32.
  assert (a < 2 ^ 31).
  { assert (1 <= 2 ^ k) by (apply (Z.pow_le_mono_r 2 0 k); lia). nia. }
  rewrite (wrap32_small a) by lia. rewrite (wrap32_small k) by lia.
  rewrite (Z.mod_small k 32) by lia. rewrite Z.shiftl_mul_pow2 by lia.
  apply wrap32_small. assert (0 <= 2 ^ k) by (apply Z.pow_nonneg; lia). nia.
Qed.

Lemma js_or_disjoint (x y n : Z) :
  0 <= n → 0 <= y < 2 ^ n → x mod 2 ^ n = 0 → 0 <= x → x + y < 2 ^ 31 →
  js_or (Num x) (Num y) = x + y.
Proof.
  intros Hn Hy Hmod Hx Hlt. unfold js_or, ToInt32.
  rewrite (wrap32_small x) by lia. rewrite (wrap32_small y) by lia.
  assert (Hsh : x = Z.shiftl (x / 2 ^ n) n).
  { rewrite Z.shiftl_mul_pow2 by lia.
    pose proof (Z.div_mod x (2 ^ n)) as Hdm.
    assert (2 ^ n ≠ 0) by (apply Z.pow_nonzero; lia). specialize (Hdm ltac:(assumption)).
    lia. }
  rewrite Hsh at 1. rewrite lor_shiftl_add by assumption.
  rewrite <- Z.shiftl_mul_pow2 by lia. rewrite <- Hsh.
  apply wrap32_small. lia.
Qed.

(** The byte [(n >> k) & 0xFF] of a length, as stored in the array. *)
Lemma length_byte (n k : Z) :
  0 <= n < 2 ^ 31 → 0 <= k < 32 →
  byte_to_Z (to_uint8 (js_and (Num (js_shr (Num n) (Num k))) (Num 0xFF)))
  = (n / 2 ^ k) mod 256.
Proof.
  intros Hn Hk. rewrite js_shr_small by assumption.
  assert (0 < 2 ^ k) by (apply Z.pow_pos_nonneg; lia).
  assert (0 <= n / 2 ^ k <= n).
  { split; [apply Z.div_pos; lia|]. apply Z.div_le_upper_bound; nia. }
  rewrite js_and_255 by lia.
  apply byte_to_Z_to_uint8. apply Z.mod_pos_bound. lia.
Qed.

Lemma length_byte_low (n : Z) :
  0 <= n < 2 ^ 31 →
  byte_to_Z (to_uint8 (js_and (Num n) (Num 0xFF))) = n mod 256.
Proof.
  intros Hn. rewrite js_and_255 by lia.
  apply byte_to_Z_to_uint8. apply Z.mod_pos_bound. lia.
Qed.

(** Reading back the four bytes the encoder writes for a length. *)
Lemma js_be32 (n : Z) :
  0 <= n < 2 ^ 31 →
  js_or (Num (js_or (Num (js_or
    (Num (js_shl (Num ((n / 2 ^ 24) mod 256)) (Num 24)))
    (Num (js_shl (Num ((n / 2 ^ 16) mod 256)) (Num 16)))))
    (Num (js_shl (Num ((n / 2 ^ 8) mod 256)) (Num 8)))))
    (Num (n mod 256))
  = n.
Proof.
  intros Hn.
  change (2 ^ 31) with 2147483648 in Hn.
  change (2 ^ 24) with 16777216. change (2 ^ 16) with 65536. change (2 ^ 8) with 256.
  set (a := (n / 16777216) mod 256). set (b := (n / 65536) mod 256).
  set (c := (n / 256) mod 256). set (d := n mod 256).
  assert (Ha : 0 <= a < 128) by (subst a; Z.to_euclidean_division_equations; lia).
  assert (Hb : 0 <= b < 256) by (subst b; apply Z.mod_pos_bound; lia).
  assert (Hc : 0 <= c < 256) by (subst c; apply Z.mod_pos_bound; lia).
  assert (Hd : 0 <= d < 256) by (subst d; apply Z.mod_pos_bound; lia).
  assert (Hsum : a * 16777216 + b * 65536 + c * 256 + d = n)
    by (subst a b c d; Z.to_euclidean_division_equations; lia).
  rewrite (js_shl_small a 24) by (change (2 ^ 24) with 16777216; change (2 ^ 31) with 2147483648; lia).
  rewrite (js_shl_small b 16) by (change (2 ^ 16) with 65536; change (2 ^ 31) with 2147483648; lia).
  rewrite (js_shl_small c 8) by (change (2 ^ 8) with 256; change (2 ^ 31) with 2147483648; lia).
  change (2 ^ 24) with 16777216. change (2 ^ 16) with 65536. change (2 ^ 8) with 256.
  rewrite (js_or_disjoint (a * 16777216) (b * 65536) 24);
    [| lia | change (2 ^ 24) with 16777216; lia
     | change (2 ^ 24) with 16777216; apply Z.mod_mul; lia | lia
     | change (2 ^ 31) with 2147483648; lia ].
  rewrite (js_or_disjoint (a * 16777216 + b * 65536) (c * 256) 16);
    [| lia | change (2 ^ 16) with 65536; lia
     | change (2 ^ 16) with 65536;
       replace (a * 16777216 + b * 65536) with ((a * 256 + b) * 65536) by lia;
       apply Z.mod_mul; lia
     | lia | change (2 ^ 31) with 2147483648; lia ].
  rewrite (js_or_disjoint (a * 16777216 + b * 65536 + c * 256) d 8);
    [| lia | change (2 ^ 8) with 256; lia
     | change (2 ^ 8) with 256;
       replace (a * 16777216 + b * 65536 + c * 256) with ((a * 65536 + b * 256 + c) * 256) by lia;
       apply Z.mod_mul; lia
     | lia | change (2 ^ 31) with 2147483648; lia ].
  exact Hsum.
Qed.

(** ** The record parser on the bytes of the record encoder *)

Lemma index_at (data l1 l2 : list byte) (b : byte) (z : Z) :
  data = l1 ++ b :: l2 → z = Z.of_nat (length l1) →
  index data (Num z) = Num (byte_to_Z b).
Proof.
  intros -> ->. unfold index.
  rewrite length_app. simpl length.
  destruct (Z.leb_spec 0 (Z.of_nat (length l1))); [|lia].
  destruct (Z.ltb_spec (Z.of_nat (length l1))
              (Z.of_nat (length l1 + S (length l2)))); [|lia].
  simpl. rewrite Nat2Z.id.
  rewrite lookup_app_r by lia. rewrite Nat.sub_diag. reflexivity.
Qed.

Lemma slice_at (data l1 m l2 : list byte) (s e : Z) :
  data = l1 ++ m ++ l2 → s = Z.of_nat (length l1) → e = s + Z.of_nat (length m) →
  slice data (Num s) (Num e) = m.
Proof.
  intros -> -> ->. rewrite slice_inside.
  - rewrite Nat2Z.id. rewrite drop_app_length.
    replace (Z.to_nat (Z.of_nat (length l1) + Z.of_nat (length m) - Z.of_nat (length l1)))
      with (length m) by lia.
    apply take_app_length.
  - lia.
  - rewrite !length_app. lia.
Qed.

Lemma num_geb_inside (a n : Z) : a < n → num_geb (Num a) (Num n) = false.
Proof. intros Ha. unfold num_geb. destruct (Z.geb_spec a n); [lia | reflexivity]. Qed.

Lemma num_gtb_inside (a n : Z) : a <= n → num_gtb (Num a) (Num n) = false.
Proof. intros Ha. unfold num_gtb. destruct (Z.gtb_spec a n); [lia | reflexivity]. Qed.

Section ParseConstructed.
Context `{Platform}.

Lemma parseNDEFRecord_stages (data : list byte) (offset : num) :
  parseNDEFRecord data offset = parseNDEFRecord_staged data offset.
Proof. reflexivity. Qed.

Lemma readPayloadLength_constructed (data l1 l2 : list byte) (n off : Z) :
  0 <= n < 2 ^ 31 →
  data = l1 ++ payloadLengthBytes n ++ l2 → off = Z.of_nat (length l1) →
  readPayloadLength data (num_ltb (Num n) (Num 256)) (Num off)
  = OK (Num n, Num (off + Z.of_nat (length (payloadLengthBytes n)))).
Proof.
  intros Hn Hdata Hoff. unfold readPayloadLength, payloadLengthBytes in *.
  assert (Hlen : Z.of_nat (length data)
                 = off + Z.of_nat (length (payloadLengthBytes n)) + Z.of_nat (length l2)).
  { rewrite Hdata. unfold payloadLengthBytes. rewrite !length_app. lia. }
  unfold payloadLengthBytes in Hlen.
  unfold num_ltb in *. destruct (Z.ltb_spec n 256) as [Hs|Hl].
  - simpl length in *. unfold len. rewrite num_geb_inside by lia.
    rewrite (index_at data l1 l2 (to_uint8 n) off Hdata Hoff).
    rewrite byte_to_Z_to_uint8 by lia. reflexivity.
  - set (b3 := to_uint8 (js_and (Num (js_shr (Num n) (Num 24))) (Num 255))) in *.
    set (b2 := to_uint8 (js_and (Num (js_shr (Num n) (Num 16))) (Num 255))) in *.
    set (b1 := to_uint8 (js_and (Num (js_shr (Num n) (Num 8))) (Num 255))) in *.
    set (b0 := to_uint8 (js_and (Num n) (Num 255))) in *.
    simpl length in *. unfold len. simpl num_add.
    rewrite num_gtb_inside by lia.
    rewrite (index_at data l1 ([b2; b1; b0] ++ l2) b3 off Hdata Hoff).
    rewrite (index_at data (l1 ++ [b3]) ([b1; b0] ++ l2) b2 (off + 1));
      [| rewrite Hdata, <- app_assoc; reflexivity | rewrite length_app; simpl; lia].
    rewrite (index_at data (l1 ++ [b3; b2]) ([b0] ++ l2) b1 (off + 2));
      [| rewrite Hdata, <- app_assoc; reflexivity | rewrite length_app; simpl; lia].
    rewrite (index_at data (l1 ++ [b3; b2; b1]) l2 b0 (off + 3));
      [| rewrite Hdata, <- app_assoc; reflexivity | rewrite length_app; simpl; lia].
    subst b3 b2 b1 b0.
    rewrite !length_byte by lia. rewrite length_byte_low by lia.
    rewrite js_be32 by lia. reflexivity.
Qed.

(** The shape of a record on the wire. *)
Lemma constructBytesFromRecordInfo_OK (info : RecordInfo) (bytes : list byte) :
  constructBytesFromRecordInfo info = OK bytes →
  Z.of_nat (length (rawPayload (record info) ())) <= 2 ^ 32 - 1
  ∧ Z.of_nat (length (rawType (record info) ())) <= 255
  ∧ (∀ i, rawId (record info) () = Some i → Z.of_nat (length i) <= 255)
  ∧ bytes
    = constructHeaderByte
        (HeaderBytesInfo.mk (TNFLookup (tnf (record info))) (isBeginning info) (isEnd info)
           (match rawId (record info) () with Some _ => true | None => false end)
           (num_ltb (len (rawPayload (record info) ())) (Num 256)) false)
      ++ [to_uint8 (Z.of_nat (length (rawType (record info) ())))]
      ++ payloadLengthBytes (Z.of_nat (length (rawPayload (record info) ())))
      ++ match rawId (record info) () with
         | None => []
         | Some i => [to_uint8 (Z.of_nat (length i))]
         end
      ++ rawType (record info) ()
      ++ match rawId (record info) () with Some i => i | None => [] end
      ++ rawPayload (record info) ().
Proof.
  unfold constructBytesFromRecordInfo, len, num_gtb.
  destruct (Z.gtb_spec (Z.of_nat (length (rawPayload (record info) ()))) (2 ^ 32 - 1));
    [discriminate|].
  destruct (Z.gtb_spec (Z.of_nat (length (rawType (record info) ()))) 255);
    [discriminate|].
  destruct (rawId (record info) ()) as [i|] eqn:Hid.
  - destruct (Z.gtb_spec (Z.of_nat (length i)) 255); [discriminate|].
    intros [= <-]. repeat split; try lia.
    intros i' [= <-]. lia.
  - intros [= <-]. repeat split; try lia. discriminate.
Qed.

(** On the bytes [constructBytesFromRecordInfo] wrote for a record,
    wherever they stand in the buffer, [parseNDEFRecord] reads the fields
    back, builds the record from them and leaves the cursor behind them. *)
Lemma parseNDEFRecord_constructed (pre post : list byte) (info : RecordInfo)
  (bytes : list byte) :
  constructBytesFromRecordInfo info = OK bytes →
  Z.of_nat (length (rawPayload (record info) ())) < 2 ^ 31 →
  parseNDEFRecord (pre ++ bytes ++ post) (len pre)
  = (r ← createNDEFRecordFromRawData (tnf (record info))
          (rawType (record info) ()) (rawPayload (record info) ())
          (rawId (record info) ());
     OK {| parsed_record := r;
           nextOffset := len (pre ++ bytes);
           isMessageEnd := isEnd info |}).
Proof.
  intros Henc Hpay.
  apply constructBytesFromRecordInfo_OK in Henc as (_ & Hty & Hid & ->).
  set (pay := rawPayload (record info) ()) in *.
  set (ty := rawType (record info) ()) in *.
  set (oid := rawId (record info) ()) in *.
  set (il := match oid with Some _ => true | None => false end).
  set (ilb := match oid with None => [] | Some i => [to_uint8 (Z.of_nat (length i))] end).
  set (idb := match oid with Some i => i | None => [] end).
  set (n := Z.of_nat (length pay)) in *.
  change (len pay) with (Num n).
  destruct (constructHeaderByte_layout (isBeginning info) (isEnd info)
              (num_ltb (Num n) (Num 256)) il (tnf (record info)))
    as (b & -> & _ & _ & _ & _ & _ & _ & Hparse).
  set (tlb := to_uint8 (Z.of_nat (length ty))).
  set (p := Z.of_nat (length pre)).
  assert (Hil : Z.of_nat (length ilb) = if il then 1 else 0)
    by (subst ilb il; destruct oid; reflexivity).
  assert (Hidb : ∀ i, oid = Some i → idb = i) by (intros i Hi; subst idb; rewrite Hi; reflexivity).
  remember (pre ++ ([b] ++ [tlb] ++ payloadLengthBytes n ++ ilb ++ ty ++ idb ++ pay) ++ post)
    as data eqn:Hdata.
  assert (Hlen : Z.of_nat (length data)
                 = p + 2 + Z.of_nat (length (payloadLengthBytes n)) + Z.of_nat (length ilb)
                   + Z.of_nat (length ty) + Z.of_nat (length idb) + n
                   + Z.of_nat (length post)).
  { rewrite Hdata. rewrite !length_app. simpl length. subst p n. lia. }
  assert (Hnext : len (pre ++ [b] ++ [tlb] ++ payloadLengthBytes n ++ ilb ++ ty ++ idb ++ pay)
                  = Num (p + 2 + Z.of_nat (length (payloadLengthBytes n))
                         + Z.of_nat (length ilb) + Z.of_nat (length ty)
                         + Z.of_nat (length idb) + n)).
  { unfold len. f_equal. rewrite !length_app. simpl length. subst p n. lia. }
  rewrite Hnext. clear Hnext.
  rewrite parseNDEFRecord_stages. unfold parseNDEFRecord_staged, len. fold p.
  rewrite num_geb_inside by lia.
  rewrite (index_at data pre
             (([tlb] ++ payloadLengthBytes n ++ ilb ++ ty ++ idb ++ pay) ++ post) b p);
    [| rewrite Hdata; reflexivity | reflexivity].
  rewrite Hparse, bind_OK. cbn [num_add].
  unfold NDEFRecordHeader.shortRecordFlag, NDEFRecordHeader.idLengthFlag,
    NDEFRecordHeader.tnf, NDEFRecordHeader.messageEndFlag.
  rewrite num_geb_inside by lia.
  rewrite (index_at data (pre ++ [b])
             ((payloadLengthBytes n ++ ilb ++ ty ++ idb ++ pay) ++ post) tlb (p + 1));
    [| rewrite Hdata, <- !app_assoc; reflexivity | rewrite length_app; simpl; lia].
  subst tlb. rewrite byte_to_Z_to_uint8 by lia.
  rewrite (readPayloadLength_constructed data (pre ++ [b; to_uint8 (Z.of_nat (length ty))])
             ((ilb ++ ty ++ idb ++ pay) ++ post) n (p + 1 + 1));
    [| lia | rewrite Hdata, <- !app_assoc; reflexivity | rewrite length_app; simpl; lia].
  rewrite bind_OK. cbv beta iota.
  assert (Hidlen : readIdLength data il
                     (Num (p + 1 + 1 + Z.of_nat (length (payloadLengthBytes n))))
                   = OK (Num (Z.of_nat (length idb)),
                         Num (p + 2 + Z.of_nat (length (payloadLengthBytes n))
                              + Z.of_nat (length ilb)))).
  { unfold readIdLength, len. subst il ilb idb. destruct oid as [i|].
    - rewrite num_geb_inside by (simpl length in Hlen; lia).
      rewrite (index_at data
                 (pre ++ [b; to_uint8 (Z.of_nat (length ty))] ++ payloadLengthBytes n)
                 ((ty ++ i ++ pay) ++ post) (to_uint8 (Z.of_nat (length i)))).
      + rewrite byte_to_Z_to_uint8 by (specialize (Hid i eq_refl); lia).
        simpl. do 2 f_equal. f_equal. lia.
      + rewrite Hdata, <- !app_assoc. reflexivity.
      + rewrite !length_app. simpl. lia.
    - simpl. do 2 f_equal. f_equal. lia. }
  rewrite Hidlen, bind_OK. cbv beta iota. cbn [num_add].
  rewrite num_gtb_inside by lia.
  rewrite (slice_at data
             (pre ++ [b; to_uint8 (Z.of_nat (length ty))] ++ payloadLengthBytes n ++ ilb)
             ty ((idb ++ pay) ++ post));
    [| rewrite Hdata, <- !app_assoc; reflexivity
     | rewrite !length_app; simpl; lia | reflexivity].
  assert (Hrid : readId data il (Num (Z.of_nat (length idb)))
                   (Num (p + 2 + Z.of_nat (length (payloadLengthBytes n))
                         + Z.of_nat (length ilb) + Z.of_nat (length ty)))
                 = OK (oid, Num (p + 2 + Z.of_nat (length (payloadLengthBytes n))
                                 + Z.of_nat (length ilb) + Z.of_nat (length ty)
                                 + Z.of_nat (length idb)))).
  { unfold readId, len. subst il. destruct oid as [i|].
    - cbn [num_add]. rewrite num_gtb_inside by lia.
      rewrite (slice_at data
                 (pre ++ [b; to_uint8 (Z.of_nat (length ty))] ++ payloadLengthBytes n
                    ++ ilb ++ ty)
                 idb (pay ++ post));
        [| rewrite Hdata, <- !app_assoc; reflexivity
         | rewrite !length_app; simpl; lia | reflexivity].
      rewrite (Hidb i eq_refl). reflexivity.
    - subst idb. simpl. do 2 f_equal. f_equal. lia. }
  rewrite Hrid, bind_OK. cbv beta iota. cbn [num_add].
  rewrite num_gtb_inside by lia.
  rewrite (slice_at data
             (pre ++ [b; to_uint8 (Z.of_nat (length ty))] ++ payloadLengthBytes n
                ++ ilb ++ ty ++ idb)
             pay post);
    [| rewrite Hdata, <- !app_assoc; reflexivity
     | rewrite !length_app; simpl; lia | reflexivity].
  reflexivity.
Qed.

End ParseConstructed.

(** ** The decoder loop on encoded records *)

Section DecoderLoop.
Context `{Platform}.

Lemma parseRecords_end (fuel : nat) (data : list byte) (offset : num)
  (acc : list BaseNDEFRecord) :
  num_ltb offset (len data) = false → parseRecords fuel data offset acc = Some (OK acc).
Proof. intros Hend. destruct fuel; simpl; rewrite Hend; reflexivity. Qed.

Lemma parseRecords_step (fuel : nat) (data : list byte) (offset : num)
  (acc : list BaseNDEFRecord) :
  num_ltb offset (len data) = true →
  parseRecords (S fuel) data offset acc
  = match parseNDEFRecord data offset with
    | Err e => Some (Err e)
    | OK recordResult =>
        if isMessageEnd recordResult
        then Some (OK (acc ++ [parsed_record recordResult]))
        else parseRecords fuel data (nextOffset recordResult)
               (acc ++ [parsed_record recordResult])
    end.
Proof. intros Hlt. simpl. rewrite Hlt. reflexivity. Qed.

(** A record takes at least three bytes: header, type length, payload
    length. *)
Lemma constructBytesFromRecordInfo_nonempty (info : RecordInfo) (bytes : list byte) :
  constructBytesFromRecordInfo info = OK bytes → (3 <= length bytes)%nat.
Proof.
  intros Henc. apply constructBytesFromRecordInfo_OK in Henc as (_ & _ & _ & ->).
  unfold constructHeaderByte, payloadLengthBytes.
  destruct (num_ltb _ (Num 256)); simpl; rewrite ?length_app; simpl; lia.
Qed.

(** The loop, started in front of the encodings of [infos], rebuilds
    record after record; it returns at the first failure or behind the
    first record whose end flag is set, and otherwise goes on behind the
    last encoding. *)
Lemma parseRecords_constructed (infos : list RecordInfo) :
  ∀ (bs : list (list byte)) (pre post : list byte) (acc : list BaseNDEFRecord) (fuel : nat),
    mapM constructBytesFromRecordInfo infos = OK bs →
    payloadsFit infos →
    parseRecords (length infos + fuel) (pre ++ concat bs ++ post) (len pre) acc
    = match decodedUntilEnd infos with
      | Err e => Some (Err e)
      | OK (rs, true) => Some (OK (acc ++ rs))
      | OK (rs, false) =>
          parseRecords fuel (pre ++ concat bs ++ post) (len (pre ++ concat bs)) (acc ++ rs)
      end.
Proof.
  induction infos as [|info infos IH]; intros bs pre post acc fuel Hbs Hfit.
  - injection Hbs as <-. simpl. rewrite !app_nil_r. reflexivity.
  - simpl in Hbs.
    destruct (constructBytesFromRecordInfo info) as [b|e] eqn:Hb; [|discriminate].
    destruct (mapM constructBytesFromRecordInfo infos) as [bs'|e] eqn:Hbs'; [|discriminate].
    injection Hbs as <-. inversion Hfit as [|? ? Hfit1 Hfit2]; subst.
    pose proof (constructBytesFromRecordInfo_nonempty info b Hb) as Hne.
    simpl concat.
    change (length (info :: infos) + fuel)%nat with (S (length infos + fuel)).
    rewrite parseRecords_step
      by (unfold num_ltb, len; rewrite !length_app; apply Z.ltb_lt; lia).
    replace (pre ++ (b ++ concat bs') ++ post) with (pre ++ b ++ (concat bs' ++ post))
      by (rewrite <- !app_assoc; reflexivity).
    rewrite (parseNDEFRecord_constructed pre (concat bs' ++ post) info b Hb Hfit1).
    simpl decodedUntilEnd. fold (reparse (record info)).
    destruct (reparse (record info)) as [r|e]; [|reflexivity].
    rewrite !bind_OK. cbn [isMessageEnd parsed_record nextOffset].
    destruct (isEnd info); [reflexivity|].
    replace (pre ++ b ++ (concat bs' ++ post)) with ((pre ++ b) ++ concat bs' ++ post)
      by (rewrite <- !app_assoc; reflexivity).
    rewrite (IH bs' (pre ++ b) post (acc ++ [r]) fuel eq_refl Hfit2).
    destruct (decodedUntilEnd infos) as [[rs stopped]|e]; [|reflexivity].
    rewrite bind_OK. cbv beta iota. rewrite <- !app_assoc. simpl.
    destruct stopped; reflexivity.
Qed.

Lemma payloadsFit_of_length (infos : list RecordInfo) (bs : list (list byte)) :
  mapM constructBytesFromRecordInfo infos = OK bs →
  Z.of_nat (length (concat bs)) < 2 ^ 31 → payloadsFit infos.
Proof.
  revert bs. induction infos as [|info infos IH]; intros bs Hbs Hlen.
  - constructor.
  - simpl in Hbs.
    destruct (constructBytesFromRecordInfo info) as [b|e] eqn:Hb; [|discriminate].
    destruct (mapM constructBytesFromRecordInfo infos) as [bs'|e] eqn:Hbs'; [|discriminate].
    injection Hbs as <-. simpl in Hlen. rewrite length_app in Hlen.
    constructor.
    + apply constructBytesFromRecordInfo_OK in Hb as (_ & _ & _ & ->).
      rewrite !length_app in Hlen. lia.
    + apply (IH bs' eq_refl). lia.
Qed.

Lemma decodedUntilEnd_not_stopped (infos : list RecordInfo) (rs : list BaseNDEFRecord) :
  decodedUntilEnd infos = OK (rs, false) → Forall (fun info => isEnd info = false) infos.
Proof.
  revert rs. induction infos as [|info infos IH]; intros rs Hd; [constructor|].
  simpl in Hd. destruct (reparse (record info)) as [r|e]; [|discriminate].
  rewrite bind_OK in Hd. destruct (isEnd info) eqn:He; [discriminate|].
  destruct (decodedUntilEnd infos) as [[rs' st]|e]; [|discriminate].
  rewrite bind_OK in Hd. injection Hd as <- ->.
  constructor; [exact He | apply (IH rs' eq_refl)].
Qed.

(** [parseNDEFMessage] on a buffer whose TLV value starts with the
    encodings of [infos]. *)
Lemma parseNDEFMessage_constructed (data junk : list byte) (infos : list RecordInfo)
  (bs : list (list byte)) (fuel : nat) :
  validateAndStripTLV (stripLeadingTrailingZeros data) = OK (concat bs ++ junk) →
  mapM constructBytesFromRecordInfo infos = OK bs →
  infos ≠ [] →
  parseNDEFMessage (length infos + fuel) data
  = match decodedUntilEnd infos with
    | Err e => Some (Err e)
    | OK (rs, true) => Some (OK rs)
    | OK (rs, false) => parseRecords fuel (concat bs ++ junk) (len (concat bs)) rs
    end.
Proof.
  intros Htlv Hbs Hne. unfold parseNDEFMessage.
  destruct (stripLeadingTrailingZeros data) as [|d0 stripped] eqn:Hstrip.
  { rewrite validateAndStripTLV_nil in Htlv. discriminate. }
  change (num_eqb (len (d0 :: stripped)) (Num 0)) with false. cbv iota.
  rewrite Htlv.
  assert (Hfit : payloadsFit infos).
  { apply (payloadsFit_of_length infos bs Hbs).
    apply validateAndStripTLV_length in Htlv. rewrite length_app in Htlv.
    change (2 ^ 31) with 2147483648. lia. }
  assert (Hnonempty : num_eqb (len (concat bs ++ junk)) (Num 0) = false).
  { destruct infos as [|info infos']; [congruence|]. simpl in Hbs.
    destruct (constructBytesFromRecordInfo info) as [b|e] eqn:Hb; [|discriminate].
    destruct (mapM constructBytesFromRecordInfo infos') as [bs'|e]; [|discriminate].
    injection Hbs as <-. apply constructBytesFromRecordInfo_nonempty in Hb.
    unfold num_eqb, len. simpl concat. rewrite !length_app. apply Z.eqb_neq. lia. }
  rewrite Hnonempty.
  exact (parseRecords_constructed infos bs [] junk [] fuel Hbs Hfit).
Qed.

(** Behind the first end flag nothing is read; without one, the loop ends
    with the value. *)
Lemma parseNDEFMessage_untilMessageEnd (data junk : list byte)
  (infos : list RecordInfo) (bs : list (list byte)) (fuel : nat) :
  validateAndStripTLV (stripLeadingTrailingZeros data) = OK (concat bs ++ junk) →
  mapM constructBytesFromRecordInfo infos = OK bs →
  infos ≠ [] →
  Exists (fun info => isEnd info = true) infos ∨ junk = [] →
  parseNDEFMessage (length infos + fuel) data = Some (untilMessageEnd infos).
Proof.
  intros Htlv Hbs Hne Hstop.
  rewrite (parseNDEFMessage_constructed data junk infos bs fuel Htlv Hbs Hne).
  unfold untilMessageEnd.
  destruct (decodedUntilEnd infos) as [[rs stopped]|e] eqn:Hd; [|reflexivity].
  destruct stopped; [reflexivity|].
  apply decodedUntilEnd_not_stopped in Hd.
  destruct Hstop as [Hex | ->].
  - apply Exists_exists in Hex as (info & Hin & Hend).
    rewrite Forall_forall in Hd. specialize (Hd info Hin). congruence.
  - rewrite app_nil_r. apply parseRecords_end.
    unfold num_ltb, len. apply Z.ltb_irrefl.
Qed.

Lemma prefixMappings_above (c : byte) :
  (0x23 <? byte_to_Z c) = true → prefixMappings (byte_to_Z c) = None.
Proof. destruct c; intros Hc; try (vm_compute in Hc; discriminate Hc); reflexivity. Qed.

End DecoderLoop.

(** ** Records of the factories through the record parser *)

Section FactoryRecords.
Context `{Platform}.

(** One case of the [switch]: taken, it splits the URI at the prefix. *)
Lemma prefix_case (URI p : string) (code : Z) (m : PrefixMapping) :
  startsWith URI p = true →
  OK (mkPrefix code (replace_with_empty URI p)) = OK m →
  prefixMappings code = Some p →
  0 <= code <= 0x23 →
  ∃ prefix, prefixMappings (URIIdentifierPrefix m) = Some prefix
            ∧ URI = prefix +:+ URISuffix m
            ∧ 0 <= URIIdentifierPrefix m <= 0x23.
Proof.
  intros Hs Hm Hcode Hrange. apply startsWith_split in Hs as [rest ->].
  rewrite replace_with_empty_prefix in Hm. injection Hm as <-.
  exists p. simpl. repeat split; try assumption; lia.
Qed.

(** The code and the suffix [getWellKnownURIPrefixMapping] returns name
    the URI: the table entry of the code, followed by the suffix. *)
Lemma getWellKnownURIPrefixMapping_sound (URI : string) (m : PrefixMapping) :
  getWellKnownURIPrefixMapping URI = OK m →
  ∃ prefix, prefixMappings (URIIdentifierPrefix m) = Some prefix
            ∧ URI = prefix +:+ URISuffix m
            ∧ 0 <= URIIdentifierPrefix m <= 0x23.
Proof.
  unfold getWellKnownURIPrefixMapping.
  destruct (URL_canParse URI); [|discriminate]. cbv beta iota delta [negb].
  repeat
    match goal with
    | |- (if startsWith ?u ?p then OK (mkPrefix ?c _) else _) = OK m → _ =>
        destruct (startsWith u p) eqn:Hs;
        [ intros Hm; apply (prefix_case u p c m Hs Hm); [reflexivity | lia] | clear Hs ]
    end.
  intros [= <-]. exists "". simpl. repeat split; try reflexivity; lia.
Qed.

(** The id a factory stores comes back from its bytes. *)
Lemma prepareIdForRecord_decoded (i : option string) :
  match i with Some s => textOK s | None => True end →
  fst (prepareIdForRecord i) = i
  ∧ TextDecoder_decode <$> snd (prepareIdForRecord i) () = i.
Proof.
  destruct i as [s|]; simpl; intros Hs; split; try reflexivity.
  unfold textOK in Hs. rewrite Hs. reflexivity.
Qed.

(** The URI record through the parser. *)
Lemma reparse_uri (o : BaseNDEFRecordOptions.t string) (r : BaseNDEFRecord) :
  createNDEFRecordWellKnownURI o = OK r →
  wellFormed (WellKnownURI o) →
  ∃ r', reparse r = OK r' ∧ sameRecord r r'.
Proof.
  unfold createNDEFRecordWellKnownURI, wellFormed. simpl descriptorType. simpl descriptorId.
  intros Hr (Htype & Hid & Hsuffix).
  destruct (getWellKnownURIPrefixMapping (BaseNDEFRecordOptions.payload o)) as [m|e] eqn:Hm;
    [|discriminate].
  rewrite bind_OK in Hr.
  destruct (getWellKnownURIPrefixMapping_sound _ m Hm) as (prefix & Hprefix & Huri & Hcode).
  specialize (Hsuffix m eq_refl).
  destruct (prepareIdForRecord_decoded (BaseNDEFRecordOptions.id o) Hid) as [Hid1 Hid2].
  destruct (prepareIdForRecord (BaseNDEFRecordOptions.id o)) as [i rawI] eqn:Hprep.
  simpl in Hid1, Hid2, Hr. injection Hr as <-.
  unfold reparse, createNDEFRecordFromRawData. cbn [tnf rawType rawPayload rawId].
  unfold textOK in Htype. rewrite Htype. unfold createWellKnownRecord.
  change (String.eqb "U" "U") with true. cbv iota.
  unfold createNDEFRecordWellKnownURIFromBytes.
  set (c := to_uint8 (URIIdentifierPrefix m)).
  set (rest := TextEncoder_encode (URISuffix m)).
  change (num_eqb (len (c :: rest)) (Num 0)) with false. cbv iota.
  rewrite (index_at (c :: rest) [] rest c 0 eq_refl eq_refl).
  unfold len.
  rewrite (slice_at (c :: rest) [c] rest [] 1 (Z.of_nat (length (c :: rest))));
    [| simpl; rewrite app_nil_r; reflexivity | reflexivity | simpl length; lia].
  subst c rest. rewrite byte_to_Z_to_uint8 by lia.
  unfold textOK in Hsuffix. rewrite Hsuffix.
  unfold reconstructURIFromPrefix. rewrite Hprefix, bind_OK.
  eexists. split; [reflexivity|].
  unfold sameRecord. cbn [tnf type id isIdentified rawPayload payload].
  rewrite Hid2, Hid1. repeat split.
  eexists _, _. split; [reflexivity|]. split; [reflexivity|]. simpl. exact Huri.
Qed.

(** The media records through the parser. *)
Lemma reparse_json_record (o : BaseNDEFRecordOptions.t JSONValue) :
  wellFormed (MediaApplicationJson o) →
  ∃ r', reparse (createNDEFRecordMediaApplicationJson o) = OK r'
        ∧ sameRecord (createNDEFRecordMediaApplicationJson o) r'.
Proof.
  unfold wellFormed. simpl descriptorType. simpl descriptorId.
  intros (Htype & Hid & Hjson).
  destruct (prepareIdForRecord_decoded (BaseNDEFRecordOptions.id o) Hid) as [Hid1 Hid2].
  unfold createNDEFRecordMediaApplicationJson.
  destruct (prepareIdForRecord (BaseNDEFRecordOptions.id o)) as [i rawI] eqn:Hprep.
  simpl in Hid1, Hid2 |- *.
  unfold reparse, createNDEFRecordFromRawData. cbn [tnf rawType rawPayload rawId].
  unfold textOK in Htype. rewrite Htype. unfold createMediaRecord.
  change (String.eqb "application/json" "application/json") with true. cbv iota.
  eexists. split; [reflexivity|].
  unfold sameRecord. cbn [tnf type id isIdentified rawPayload payload
                          createNDEFRecordMediaApplicationJsonFromBytes].
  rewrite Hid2, Hid1, Hjson. repeat split.
  eexists _, _. split; [reflexivity|]. split; [reflexivity|]. reflexivity.
Qed.

Lemma reparse_text_record (mediaType : string) (o : BaseNDEFRecordOptions.t string) :
  mediaType = "text/plain" ∨ mediaType = "text/html" →
  textOK mediaType →
  match BaseNDEFRecordOptions.id o with Some s => textOK s | None => True end →
  textOK (BaseNDEFRecordOptions.payload o) →
  ∃ r', reparse (createNDEFRecordMediaText mediaType o) = OK r'
        ∧ sameRecord (createNDEFRecordMediaText mediaType o) r'.
Proof.
  intros Hmt Htype Hid Hpay.
  destruct (prepareIdForRecord_decoded (BaseNDEFRecordOptions.id o) Hid) as [Hid1 Hid2].
  unfold createNDEFRecordMediaText.
  destruct (prepareIdForRecord (BaseNDEFRecordOptions.id o)) as [i rawI] eqn:Hprep.
  simpl in Hid1, Hid2 |- *.
  unfold reparse, createNDEFRecordFromRawData. cbn [tnf rawType rawPayload rawId].
  unfold textOK in Htype, Hpay. rewrite Htype.
  destruct Hmt as [-> | ->]; (eexists; split; [reflexivity|]);
    unfold sameRecord; simpl; rewrite Hid2, Hid1, Hpay; repeat split;
    eexists _, _; (split; [reflexivity|]); split; reflexivity.
Qed.

Lemma reparse_binary_record (mediaType : string) (o : BaseNDEFRecordOptions.t BinaryLike) :
  mediaType = "image/png" ∨ mediaType = "image/jpeg"
  ∨ mediaType = "video/mp4" ∨ mediaType = "audio/mpeg" →
  textOK mediaType →
  match BaseNDEFRecordOptions.id o with Some s => textOK s | None => True end →
  ∃ r', reparse (createNDEFRecordMediaBinary mediaType o) = OK r'
        ∧ sameRecord (createNDEFRecordMediaBinary mediaType o) r'.
Proof.
  intros Hmt Htype Hid.
  destruct (prepareIdForRecord_decoded (BaseNDEFRecordOptions.id o) Hid) as [Hid1 Hid2].
  unfold createNDEFRecordMediaBinary.
  destruct (prepareIdForRecord (BaseNDEFRecordOptions.id o)) as [i rawI] eqn:Hprep.
  simpl in Hid1, Hid2 |- *.
  unfold reparse, createNDEFRecordFromRawData. cbn [tnf rawType rawPayload rawId].
  unfold textOK in Htype. rewrite Htype.
  destruct Hmt as [-> | [-> | [-> | ->]]]; (eexists; split; [reflexivity|]);
    unfold sameRecord; simpl; rewrite Hid2, Hid1; repeat split;
    eexists _, _; (split; [reflexivity|]); split; reflexivity.
Qed.

(** Every record of a factory, built from a well-formed descriptor, comes
    back from its wire fields with the same category, type, id and
    payload. *)
Lemma reparse_created (d : RecordDescriptor) (r : BaseNDEFRecord) :
  createRecord d = OK r → wellFormed d → ∃ r', reparse r = OK r' ∧ sameRecord r r'.
Proof.
  destruct d as [o|o|o|o|o|o|o|o]; simpl createRecord; intros Hr Hwf.
  - exact (reparse_uri o r Hr Hwf).
  - injection Hr as <-. exact (reparse_json_record o Hwf).
  - injection Hr as <-. destruct Hwf as (Ht & Hi & Hp).
    apply reparse_text_record; auto.
  - injection Hr as <-. destruct Hwf as (Ht & Hi & Hp).
    apply reparse_text_record; auto.
  - injection Hr as <-. destruct Hwf as (Ht & Hi & _).
    apply reparse_binary_record; auto.
  - injection Hr as <-. destruct Hwf as (Ht & Hi & _).
    apply reparse_binary_record; auto.
  - injection Hr as <-. destruct Hwf as (Ht & Hi & _).
    apply reparse_binary_record; auto 6.
  - injection Hr as <-. destruct Hwf as (Ht & Hi & _).
    apply reparse_binary_record; auto 6.
Qed.

End FactoryRecords.

(** ** C1: the round trip of a message *)

Section RoundTrip.
Context `{Platform}.

(** With the flags [toBytes] assigns, the walk runs through all records. *)
Lemma untilMessageEnd_infosFrom (rs : list BaseNDEFRecord) (k n : nat) :
  n = (k + length rs)%nat →
  untilMessageEnd (infosFrom k n rs) = mapM reparse rs.
Proof.
  unfold untilMessageEnd.
  revert k. induction rs as [|r rs IH]; intros k Hn; [reflexivity|].
  rewrite infosFrom_cons. simpl decodedUntilEnd. simpl mapM.
  destruct (reparse r) as [r'|e]; [|reflexivity]. rewrite !bind_OK.
  simpl length in Hn. destruct rs as [|r2 rs'].
  - rewrite bool_decide_eq_true_2 by (simpl in Hn; lia). reflexivity.
  - rewrite bool_decide_eq_false_2 by (simpl in Hn; lia).
    specialize (IH (S k) ltac:(simpl in *; lia)).
    destruct (decodedUntilEnd (infosFrom (S k) n (r2 :: rs'))) as [[rs'' st]|e];
      rewrite <- IH; reflexivity.
Qed.

Lemma infosFrom_has_end (rs : list BaseNDEFRecord) (k n : nat) :
  n = (k + length rs)%nat → rs ≠ [] →
  Exists (fun info => isEnd info = true) (infosFrom k n rs).
Proof.
  revert k. induction rs as [|r rs IH]; intros k Hn Hne; [congruence|].
  rewrite infosFrom_cons. simpl length in Hn. destruct rs as [|r2 rs'].
  - left. simpl. apply bool_decide_eq_true_2. simpl in Hn. lia.
  - right. apply IH; [simpl in *; lia | discriminate].
Qed.

Lemma length_infosFrom (rs : list BaseNDEFRecord) (k n : nat) :
  length (infosFrom k n rs) = length rs.
Proof. unfold infosFrom. apply length_imap. Qed.

(** The records of well-formed descriptors come back one by one. *)
Lemma mapM_reparse_created (ds : list RecordDescriptor) :
  ∀ records, mapM createRecord ds = OK records → Forall wellFormed ds →
             ∃ rs, mapM reparse records = OK rs ∧ Forall2 sameRecord records rs.
Proof.
  induction ds as [|d ds IH]; intros records Hrec Hwf.
  - injection Hrec as <-. exists []. split; [reflexivity | constructor].
  - simpl in Hrec. destruct (createRecord d) as [r|e] eqn:Hr; [|discriminate].
    destruct (mapM createRecord ds) as [rs0|e] eqn:Hrs; [|discriminate].
    injection Hrec as <-. inversion Hwf as [|? ? Hd Hds]; subst.
    destruct (reparse_created d r Hr Hd) as (r' & Hr' & Hsame).
    destruct (IH rs0 eq_refl Hds) as (rs & Hrs' & Hall).
    exists (r' :: rs). split.
    + simpl. rewrite Hr', Hrs'. reflexivity.
    + constructor; assumption.
Qed.

(** The envelope [constructBytes] writes has no zero at either end. *)
Lemma stripLeadingTrailingZeros_envelope (l : byte) (value : list byte) :
  stripLeadingTrailingZeros ([x03; l] ++ value ++ [xfe]) = [x03; l] ++ value ++ [xfe].
Proof.
  set (data := [x03; l] ++ value ++ [xfe]).
  assert (Hn : length data = S (S (S (length value))))
    by (subst data; simpl; rewrite length_app; simpl; lia).
  unfold stripLeadingTrailingZeros. rewrite Hn.
  assert (Hfirst : ∀ fuel stop, firstNonZero (S fuel) data 0 stop = 0).
  { intros fuel stop. cbn [firstNonZero].
    rewrite (index_at data [] (l :: value ++ [xfe]) x03 0 eq_refl eq_refl).
    rewrite andb_false_r. reflexivity. }
  rewrite Hfirst.
  assert (Hlast : ∀ fuel, lastNonZero (S fuel) data 0 (Z.of_nat (S (S (S (length value)))))
                          = Z.of_nat (S (S (S (length value))))).
  { intros fuel. cbn [lastNonZero].
    rewrite (index_at data ([x03; l] ++ value) [] xfe _);
      [ rewrite andb_false_r; reflexivity
      | subst data; rewrite <- app_assoc; reflexivity
      | rewrite length_app; simpl; lia ]. }
  rewrite Hlast. rewrite slice_inside by lia.
  rewrite Z.sub_0_r, Nat2Z.id. simpl drop. rewrite <- Hn. apply firstn_all.
Qed.

(** Unwrapping the one-byte-length envelope of a value of 2 to 254 bytes. *)
Lemma validateAndStripTLV_envelope (value : list byte) :
  2 <= Z.of_nat (length value) <= 254 →
  validateAndStripTLV ([x03; to_uint8 (Z.of_nat (length value))] ++ value ++ [xfe])
  = OK value.
Proof.
  intros Hlen.
  set (data := [x03; to_uint8 (Z.of_nat (length value))] ++ value ++ [xfe]).
  assert (Hn : length data = (length value + 3)%nat)
    by (subst data; simpl; rewrite length_app; simpl; lia).
  assert (H0 : byteAt data 0 = 3) by reflexivity.
  assert (H1 : byteAt data 1 = Z.of_nat (length value)).
  { unfold byteAt. simpl. apply byte_to_Z_to_uint8. lia. }
  assert (Hl : byteAt data (length data - 1) = 254).
  { unfold byteAt. rewrite Hn. subst data.
    replace (length value + 3 - 1)%nat with (length ([x03; to_uint8 (Z.of_nat (length value))] ++ value) + 0)%nat
      by (rewrite length_app; simpl; lia).
    rewrite app_assoc, lookup_app_r by lia.
    replace (_ + 0 - _)%nat with 0%nat by lia. reflexivity. }
  assert (Hlong : tlvLongForm data = false).
  { unfold tlvLongForm. rewrite H1. apply Z.eqb_neq. lia. }
  assert (Hrej : tlvRejected data || tlvFourByteGuard data = false).
  { unfold tlvRejected, tlvFourByteGuard, tlvHeaderSize, tlvDeclaredLength.
    rewrite Hlong, H0, H1, Hl, Hn. simpl andb.
    destruct (Z.ltb_spec (Z.of_nat (length value + 3)) 3); [lia|].
    destruct (Z.eqb_spec (Z.of_nat (length value + 3)) (2 + Z.of_nat (length value) + 1)); [|lia].
    destruct (Z.eqb_spec (Z.of_nat (length value + 3)) 4); [lia|]. reflexivity. }
  pose proof (validateAndStripTLV_cases data) as Hc.
  destruct (validateAndStripTLV data) as [v|e].
  - destruct Hc as [_ ->]. f_equal. unfold tlvValue, tlvHeaderSize, tlvDeclaredLength.
    rewrite Hlong, H1. subst data. simpl drop. rewrite Nat2Z.id. apply take_app_length.
  - congruence.
Qed.

(** C1.  For records built by the factories from well-formed payloads:
    while their encodings take at most 254 bytes, [toBytes] followed by
    [parseNDEFMessage] returns as many records, each with the category,
    type, id and payload of the record it was made from (the same text,
    the same JSON value, the same bytes); when the encodings take more
    than 254 bytes, [toBytes] throws and there is nothing to parse. *)
Theorem message_round_trip (ds : list RecordDescriptor) (records : list BaseNDEFRecord)
  (bs : list (list byte)) (fuel : nat) :
  mapM createRecord ds = OK records →
  Forall wellFormed ds →
  mapM constructBytesFromRecordInfo (recordInfos records) = OK bs →
  if Z.of_nat (length (concat bs)) <=? 254
  then ∃ bytes rs,
         toBytes records = OK bytes
         ∧ parseNDEFMessage (length records + fuel) bytes = Some (OK rs)
         ∧ Forall2 sameRecord records rs
  else ∃ e, toBytes records = Err e.
Proof.
  intros Hrec Hwf Hbs.
  destruct (mapM_reparse_created ds records Hrec Hwf) as (rs & Hrs & Hsame).
  assert (Hcases : records = [] ∨ records ≠ [])
    by (destruct records; [left; reflexivity | right; discriminate]).
  destruct Hcases as [-> | Hne].
  - injection Hbs as <-. inversion Hsame; subst.
    simpl. exists [], []. repeat split. constructor.
  - unfold toBytes at 1 2.
    rewrite (constructBytes_cases (recordInfos records) bs
               (fun Hnil => Hne (recordInfos_nil records Hnil)) Hbs
               (markers_recordInfos records Hne)).
    destruct (Z.leb_spec (Z.of_nat (length (concat bs))) 254) as [Hle|Hgt];
      [|eexists; reflexivity].
    eexists _, rs. split; [reflexivity|]. split; [|exact Hsame].
    assert (Hlen : 2 <= Z.of_nat (length (concat bs))).
    { destruct records as [|r records']; [congruence|].
      rewrite recordInfos_infosFrom, infosFrom_cons in Hbs. simpl in Hbs.
      destruct (constructBytesFromRecordInfo _) as [b|e] eqn:Hb; [|discriminate].
      destruct (mapM constructBytesFromRecordInfo _) as [bs'|e]; [|discriminate].
      injection Hbs as <-. apply constructBytesFromRecordInfo_nonempty in Hb.
      simpl. rewrite length_app. lia. }
    rewrite <- (length_infosFrom records 0 (length records)).
    rewrite <- recordInfos_infosFrom.
    rewrite (parseNDEFMessage_untilMessageEnd _ [] (recordInfos records) bs fuel).
    + rewrite recordInfos_infosFrom, untilMessageEnd_infosFrom by reflexivity.
      rewrite Hrs. reflexivity.
    + rewrite stripLeadingTrailingZeros_envelope, app_nil_r.
      apply validateAndStripTLV_envelope. lia.
    + exact Hbs.
    + intros Hnil. apply Hne. destruct records; [reflexivity|].
      rewrite recordInfos_infosFrom, infosFrom_cons in Hnil. discriminate.
    + left. rewrite recordInfos_infosFrom. apply infosFrom_has_end; [reflexivity | exact Hne].
Qed.

End RoundTrip.

Lemma message_round_trip_witness :
  (∃ bytes rs,
      @toBytes example_platform
        [createNDEFRecordMediaTextPlain (BaseNDEFRecordOptions.mk "hi" (Some "a"));
         createNDEFRecordMediaImagePNG
           (BaseNDEFRecordOptions.mk (Uint8Array [x01; x02]) None)]
      = OK bytes
      ∧ @parseNDEFMessage example_platform 2 bytes = Some (OK rs)
      ∧ Forall2 (@sameRecord example_platform)
          [createNDEFRecordMediaTextPlain (BaseNDEFRecordOptions.mk "hi" (Some "a"));
           createNDEFRecordMediaImagePNG
             (BaseNDEFRecordOptions.mk (Uint8Array [x01; x02]) None)]
          rs)
  ∧ (∃ e, @toBytes example_platform
            [createNDEFRecordMediaImagePNG
               (BaseNDEFRecordOptions.mk (Uint8Array (replicate 250 x00)) None)]
          = Err e).
Proof.
  split.
  - refine (@message_round_trip example_platform
              [MediaTextPlain (BaseNDEFRecordOptions.mk "hi" (Some "a"));
               MediaImagePNG (BaseNDEFRecordOptions.mk (Uint8Array [x01; x02]) None)]
              [createNDEFRecordMediaTextPlain (BaseNDEFRecordOptions.mk "hi" (Some "a"));
               createNDEFRecordMediaImagePNG
                 (BaseNDEFRecordOptions.mk (Uint8Array [x01; x02]) None)]
              [[x9a; x0a; x02; x01] ++ TextEncoder_encode "text/plain"
                 ++ TextEncoder_encode "a" ++ TextEncoder_encode "hi";
               [x52; x09; x02] ++ TextEncoder_encode "image/png" ++ [x01; x02]]
              0%nat _ _ _).
    + reflexivity.
    + constructor; [|constructor; [|constructor]]; repeat split.
    + vm_compute. reflexivity.
  - refine (@message_round_trip example_platform
              [MediaImagePNG (BaseNDEFRecordOptions.mk (Uint8Array (replicate 250 x00)) None)]
              [createNDEFRecordMediaImagePNG
                 (BaseNDEFRecordOptions.mk (Uint8Array (replicate 250 x00)) None)]
              [[xd2; x09; xfa] ++ TextEncoder_encode "image/png" ++ replicate 250 x00]
              0%nat _ _ _).
    + reflexivity.
    + constructor; [|constructor]. repeat split.
    + vm_compute. reflexivity.
Defined.

(** ** Test vectors of the repository and two remarks *)

(** [toBytes] on the URI record of the repository's message test. *)
Example toBytes_github_uri :
  (r ← @createNDEFRecordWellKnownURI example_platform
         (BaseNDEFRecordOptions.mk "https://github.com/schplitt/tsndef" None);
   toBytes [r])
  = OK ([x03; x1f; xd1; x01; x1b; x55; x04]
          ++ TextEncoder_encode "github.com/schplitt/tsndef" ++ [xfe]).
Proof. vm_compute. reflexivity. Qed.

(** The failures of [validateAndStripTLV] in [src/__tests__/parse.test.ts]. *)
Example validateAndStripTLV_test_vectors :
  validateAndStripTLV [x03; x05]
  = Err (Error "TLV structure is malformed: not enough data")
  ∧ validateAndStripTLV [x04; x05; x01; x02; x03; x04; x05; xfe]
    = Err (Error "TLV structure is malformed: first byte is not 0x03")
  ∧ validateAndStripTLV [x03; x05; x01; x02; x03; x04; x05; xff]
    = Err (Error "TLV structure is malformed: last byte is not 0xFE")
  ∧ validateAndStripTLV [x03; x0a; x01; x02; x03; x04; x05; xfe]
    = Err (Error "TLV structure is malformed: expected total length 13, got 8")
  ∧ validateAndStripTLV [x03; xff; x00; x05; x01; x02; x03; x04; x05; x06; x07; xfe]
    = Err (Error "TLV structure is malformed: expected total length 10, got 12")
  ∧ validateAndStripTLV [x03; xff; x01; xfe]
    = Err (Error "TLV structure is malformed: long length format requires at least 5 bytes")
  ∧ validateAndStripTLV [x03; x05; x01; x02; x03; x04; x05; xfe]
    = OK [x01; x02; x03; x04; x05]
  ∧ validateAndStripTLV [x03; x00; xfe] = OK []
  ∧ validateAndStripTLV
      (stripLeadingTrailingZeros [x00; x00; x03; x03; xaa; xbb; xcc; xfe; x00; x00])
    = OK [xaa; xbb; xcc].
Proof. repeat split; vm_compute; reflexivity. Qed.

Section Remarks.
Context `{Platform}.



(** The constructors of the parsing side give an empty id no bytes, where
    the factories give it the empty byte array: a parsed record whose id is
    the empty string is written back without an id. *)
Lemma parsed_empty_id_is_dropped (t : TNF) (type : string) (rawPayload : list byte) :
  id (createUnidentifiedRecord t type rawPayload (Some "")) = Some ""
  ∧ rawId (createUnidentifiedRecord t type rawPayload (Some "")) () = None
  ∧ snd (prepareIdForRecord (Some "")) () = Some [].
Proof. repeat split. Qed.

End Remarks.

(** * Further properties of the code *)

(** ** Zero padding and the empty message *)

Lemma byte_to_Z_zero (b : byte) : byte_to_Z b = 0 → b = x00.
Proof. destruct b; intros Hb; try (vm_compute in Hb; discriminate Hb); reflexivity. Qed.

(** A read gives 0 exactly at the positions that hold the zero byte. *)
Lemma index_zero (data : list byte) (i : Z) :
  num_eqb (index data (Num i)) (Num 0) = true
  ↔ 0 <= i ∧ data !! Z.to_nat i = Some x00.
Proof.
  unfold index, num_eqb.
  destruct (Z.leb_spec 0 i) as [Hi|Hi]; simpl.
  - destruct (Z.ltb_spec i (Z.of_nat (length data))) as [Hlt|Hge].
    + destruct (data !! Z.to_nat i) as [b|] eqn:Hb.
      * split.
        -- intros Hz. apply Z.eqb_eq, byte_to_Z_zero in Hz. subst b. auto.
        -- intros [_ [= ->]]. reflexivity.
      * split; [discriminate | intros [_ ?]; discriminate].
    + split; [discriminate|]. intros [_ Hl].
      apply lookup_lt_Some in Hl. lia.
  - split; [discriminate | lia].
Qed.

Lemma firstNonZero_spec (data : list byte) (fuel : nat) (s : Z) :
  0 <= s <= Z.of_nat (length data) →
  Z.of_nat (length data) - s <= Z.of_nat fuel →
  s <= firstNonZero fuel data s (Z.of_nat (length data)) <= Z.of_nat (length data)
  ∧ (∀ i, s <= i < firstNonZero fuel data s (Z.of_nat (length data)) →
          data !! Z.to_nat i = Some x00)
  ∧ (firstNonZero fuel data s (Z.of_nat (length data)) < Z.of_nat (length data) →
     data !! Z.to_nat (firstNonZero fuel data s (Z.of_nat (length data))) ≠ Some x00).
Proof.
  revert s. induction fuel as [|fuel IH]; intros s Hs Hfuel.
  - simpl. repeat split; try lia.
  - cbn [firstNonZero].
    destruct (Z.ltb_spec s (Z.of_nat (length data))) as [Hlt|Hge]; cbn [andb].
    + destruct (num_eqb (index data (Num s)) (Num 0)) eqn:Hz.
      * cbv iota. apply index_zero in Hz as [_ Hz].
        destruct (IH (s + 1)) as (Hr & Hzeros & Hstop); [lia | lia |].
        split; [lia|]. split; [|exact Hstop].
        intros i Hi. destruct (Z.eq_dec i s) as [->|Hne]; [exact Hz|].
        apply Hzeros. lia.
      * cbv iota. split; [lia|]. split; [intros i Hi; lia|].
        intros _ Hz'. assert (num_eqb (index data (Num s)) (Num 0) = true)
          by (apply index_zero; split; [lia | exact Hz']). congruence.
    + cbv iota. repeat split; try lia.
Qed.

Lemma lastNonZero_spec (data : list byte) (fuel : nat) (s e : Z) :
  0 <= s <= e → e <= Z.of_nat (length data) →
  e - s <= Z.of_nat fuel →
  s <= lastNonZero fuel data s e <= e
  ∧ (∀ i, lastNonZero fuel data s e <= i < e → data !! Z.to_nat i = Some x00)
  ∧ (s < lastNonZero fuel data s e →
     data !! Z.to_nat (lastNonZero fuel data s e - 1) ≠ Some x00).
Proof.
  revert e. induction fuel as [|fuel IH]; intros e Hs He Hfuel.
  - simpl. repeat split; try lia.
  - cbn [lastNonZero].
    destruct (Z.gtb_spec e s) as [Hgt|Hle]; cbn [andb].
    + destruct (num_eqb (index data (Num (e - 1))) (Num 0)) eqn:Hz.
      * cbv iota. apply index_zero in Hz as [_ Hz].
        destruct (IH (e - 1)) as (Hr & Hzeros & Hstop); [lia | lia | lia |].
        split; [lia|]. split; [|exact Hstop].
        intros i Hi. destruct (Z.eq_dec i (e - 1)) as [->|Hne]; [exact Hz|].
        apply Hzeros. lia.
      * cbv iota. split; [lia|]. split; [intros i Hi; lia|].
        intros _ Hz'. assert (num_eqb (index data (Num (e - 1))) (Num 0) = true)
          by (apply index_zero; split; [lia | exact Hz']). congruence.
    + cbv iota. repeat split; try lia.
Qed.

Lemma take_zeros (data : list byte) (a : nat) :
  (a <= length data)%nat →
  (∀ i, 0 <= i < Z.of_nat a → data !! Z.to_nat i = Some x00) →
  take a data = replicate a x00.
Proof.
  intros Ha Hz. apply list_eq. intros i.
  destruct (decide (i < a)%nat) as [Hi|Hi].
  - rewrite lookup_take_lt by assumption. rewrite lookup_replicate_2 by assumption.
    specialize (Hz (Z.of_nat i) ltac:(lia)). rewrite Nat2Z.id in Hz. exact Hz.
  - rewrite lookup_take_ge by lia. symmetry. apply lookup_replicate_None. lia.
Qed.

Lemma drop_zeros (data : list byte) (b : nat) :
  (b <= length data)%nat →
  (∀ i, Z.of_nat b <= i < Z.of_nat (length data) → data !! Z.to_nat i = Some x00) →
  drop b data = replicate (length data - b) x00.
Proof.
  intros Hb Hz. apply list_eq. intros i.
  rewrite lookup_drop.
  destruct (decide (b + i < length data)%nat) as [Hi|Hi].
  - rewrite lookup_replicate_2 by lia.
    specialize (Hz (Z.of_nat (b + i)) ltac:(lia)). rewrite Nat2Z.id in Hz. exact Hz.
  - rewrite lookup_ge_None_2 by lia. symmetry. apply lookup_replicate_None. lia.
Qed.

(** What [stripLeadingTrailingZeros] returns is the buffer without a run
    of zero bytes in front and a run of zero bytes behind, and has no zero
    byte at either end. *)
Lemma stripLeadingTrailingZeros_ends (data : list byte) :
  ∃ a b : nat,
    data = replicate a x00 ++ stripLeadingTrailingZeros data ++ replicate b x00
    ∧ head (stripLeadingTrailingZeros data) ≠ Some x00
    ∧ last (stripLeadingTrailingZeros data) ≠ Some x00.
Proof.
  unfold stripLeadingTrailingZeros.
  set (n := Z.of_nat (length data)).
  destruct (firstNonZero_spec data (length data) 0) as (Ha & Hza & Hsa); [lia | lia |].
  fold n in Ha, Hza, Hsa.
  set (a := firstNonZero (length data) data 0 n) in *.
  destruct (lastNonZero_spec data (length data) a n) as (Hb & Hzb & Hsb); [lia | lia | lia |].
  set (b := lastNonZero (length data) data a n) in *.
  rewrite slice_inside by lia.
  exists (Z.to_nat a), (length data - Z.to_nat b)%nat.
  split; [|split].
  - rewrite <- (take_zeros data (Z.to_nat a)) by (try lia; intros i Hi; apply Hza; lia).
    rewrite <- (drop_zeros data (Z.to_nat b)) by (try lia; intros i Hi; apply Hzb; lia).
    rewrite <- (take_drop (Z.to_nat a) data) at 1. f_equal.
    rewrite <- (take_drop (Z.to_nat (b - a)) (drop (Z.to_nat a) data)) at 1. f_equal.
    rewrite drop_drop. f_equal. lia.
  - destruct (Z.eq_dec a b) as [Hab|Hab].
    + rewrite Hab, Z.sub_diag. simpl. discriminate.
    + rewrite head_lookup, lookup_take_lt by lia. rewrite lookup_drop, Nat.add_0_r.
      apply Hsa. lia.
  - destruct (Z.eq_dec a b) as [Hab|Hab].
    + rewrite Hab, Z.sub_diag. simpl. discriminate.
    + rewrite last_lookup. rewrite length_take, length_drop.
      rewrite lookup_take_lt by lia. rewrite lookup_drop.
      replace (Z.to_nat a + Init.Nat.pred (Z.to_nat (b - a) `min` (length data - Z.to_nat a)))%nat
        with (Z.to_nat (b - 1)) by lia.
      apply Hsb. lia.
Qed.

Lemma first_nonzero_le (a a' : nat) (x : byte) (m t m' t' : list byte) :
  replicate a x00 ++ (x :: m) ++ t = replicate a' x00 ++ m' ++ t' →
  x ≠ x00 → (a' <= a)%nat.
Proof.
  intros Heq Hx. destruct (decide (a' <= a)%nat) as [|Hlt]; [assumption|].
  exfalso. apply Hx.
  assert (Hl : (replicate a x00 ++ (x :: m) ++ t) !! a = Some x).
  { rewrite lookup_app_r by (rewrite length_replicate; lia).
    rewrite length_replicate, Nat.sub_diag. reflexivity. }
  rewrite Heq in Hl. rewrite lookup_app_l in Hl by (rewrite length_replicate; lia).
  apply lookup_replicate in Hl as [Hl _]. congruence.
Qed.

Lemma zero_ends_unique (a b a' b' : nat) (m m' : list byte) :
  replicate a x00 ++ m ++ replicate b x00 = replicate a' x00 ++ m' ++ replicate b' x00 →
  head m ≠ Some x00 → last m ≠ Some x00 →
  head m' ≠ Some x00 → last m' ≠ Some x00 →
  m = m'.
Proof.
  intros Heq Hh Hl Hh' Hl'.
  assert (Hzero : ∀ (k k' : nat) (x : byte) (l : list byte),
            replicate k x00 ++ [] ++ replicate k' x00 = l → x ∈ l → x = x00).
  { intros k k' x l <- Hin. simpl in Hin. apply elem_of_app in Hin as [Hin|Hin];
      apply elem_of_replicate in Hin as [? _]; assumption. }
  destruct m as [|x m], m' as [|x' m'].
  - reflexivity.
  - exfalso. apply Hh'. simpl. f_equal.
    apply (Hzero a b x' _ Heq). apply elem_of_app; right. apply elem_of_app; left. left.
  - exfalso. apply Hh. simpl. f_equal.
    apply (Hzero a' b' x _ (eq_sym Heq)). apply elem_of_app; right. apply elem_of_app; left. left.
  - assert (Hx : x ≠ x00) by (intros ->; apply Hh; reflexivity).
    assert (Hx' : x' ≠ x00) by (intros ->; apply Hh'; reflexivity).
    assert (Ha : a = a').
    { pose proof (first_nonzero_le a a' x m _ _ _ Heq Hx).
      pose proof (first_nonzero_le a' a x' m' _ _ _ (eq_sym Heq) Hx'). lia. }
    subst a'. apply app_inv_head in Heq.
    assert (Hrev : replicate b x00 ++ reverse (x :: m) ++ []
                   = replicate b' x00 ++ reverse (x' :: m') ++ []).
    { rewrite !app_nil_r. apply (f_equal reverse) in Heq.
      rewrite !reverse_app, !reverse_replicate in Heq. exact Heq. }
    assert (Hlast : ∀ (y : byte) (l : list byte), last (y :: l) ≠ Some x00 →
                      ∃ z l', reverse (y :: l) = z :: l' ∧ z ≠ x00).
    { intros y l Hne. destruct (reverse (y :: l)) as [|z l'] eqn:Hr.
      - apply (f_equal length) in Hr. rewrite length_reverse in Hr. discriminate.
      - exists z, l'. split; [reflexivity|]. intros ->. apply Hne.
        rewrite <- (reverse_involutive (y :: l)), Hr. rewrite reverse_cons.
        apply last_snoc. }
    destruct (Hlast x m Hl) as (z & l & Hz & Hzne).
    destruct (Hlast x' m' Hl') as (z' & l' & Hz' & Hzne').
    rewrite Hz, Hz' in Hrev.
    assert (Hb : b = b').
    { pose proof (first_nonzero_le b b' z l _ _ _ Hrev Hzne).
      pose proof (first_nonzero_le b' b z' l' _ _ _ (eq_sym Hrev) Hzne'). lia. }
    subst b'. apply app_inv_tail in Heq. exact Heq.
Qed.

(** Dropping the zeros around a block that has none at its ends. *)
Lemma stripLeadingTrailingZeros_padded (a b : nat) (m : list byte) :
  head m ≠ Some x00 → last m ≠ Some x00 →
  stripLeadingTrailingZeros (replicate a x00 ++ m ++ replicate b x00) = m.
Proof.
  intros Hh Hl.
  destruct (stripLeadingTrailingZeros_ends (replicate a x00 ++ m ++ replicate b x00))
    as (a' & b' & Heq & Hh' & Hl').
  symmetry. exact (zero_ends_unique a b a' b' m _ Heq Hh Hl Hh' Hl').
Qed.

(** A buffer with no zero byte at either end is left as it is. *)
Lemma stripLeadingTrailingZeros_fixed (m : list byte) :
  head m ≠ Some x00 → last m ≠ Some x00 → stripLeadingTrailingZeros m = m.
Proof.
  intros Hh Hl. pose proof (stripLeadingTrailingZeros_padded 0 0 m Hh Hl) as Hm.
  simpl in Hm. rewrite app_nil_r in Hm. exact Hm.
Qed.

Section ZeroPadding.
Context `{Platform}.

(** X1.  [stripLeadingTrailingZeros] removes the zero bytes in front of
    and behind the data and nothing else: the buffer is a run of zeros,
    the result, and a run of zeros; the result neither starts nor ends
    with a zero byte; stripping it again changes nothing. *)
Theorem stripLeadingTrailingZeros_removes_zero_ends (data : list byte) :
  (∃ a b : nat,
      data = replicate a x00 ++ stripLeadingTrailingZeros data ++ replicate b x00)
  ∧ head (stripLeadingTrailingZeros data) ≠ Some x00
  ∧ last (stripLeadingTrailingZeros data) ≠ Some x00
  ∧ stripLeadingTrailingZeros (stripLeadingTrailingZeros data)
    = stripLeadingTrailingZeros data.
Proof.
  destruct (stripLeadingTrailingZeros_ends data) as (a & b & Heq & Hh & Hl).
  split; [exists a, b; exact Heq|]. split; [exact Hh|]. split; [exact Hl|].
  exact (stripLeadingTrailingZeros_fixed _ Hh Hl).
Qed.

Lemma stripLeadingTrailingZeros_padding (a b : nat) (data : list byte) :
  stripLeadingTrailingZeros (replicate a x00 ++ data ++ replicate b x00)
  = stripLeadingTrailingZeros data.
Proof.
  destruct (stripLeadingTrailingZeros_ends data) as (a' & b' & Heq & Hh & Hl).
  rewrite Heq at 1.
  replace (replicate a x00
             ++ (replicate a' x00 ++ stripLeadingTrailingZeros data ++ replicate b' x00)
             ++ replicate b x00)
    with (replicate (a + a') x00 ++ stripLeadingTrailingZeros data
            ++ replicate (b' + b) x00)
    by (rewrite !replicate_add, <- !app_assoc; reflexivity).
  apply stripLeadingTrailingZeros_padded; assumption.
Qed.

(** X2.  Zero bytes in front of and behind a buffer make no difference to
    [parseNDEFMessage] and [safeParseNDEFMessage]: with any padding they
    return what they return for the buffer itself. *)
Theorem parseNDEFMessage_ignores_zero_padding (fuel a b : nat) (data : list byte) :
  parseNDEFMessage fuel (replicate a x00 ++ data ++ replicate b x00)
  = parseNDEFMessage fuel data
  ∧ safeParseNDEFMessage fuel (replicate a x00 ++ data ++ replicate b x00)
    = safeParseNDEFMessage fuel data.
Proof.
  assert (Hparse : parseNDEFMessage fuel (replicate a x00 ++ data ++ replicate b x00)
                   = parseNDEFMessage fuel data).
  { unfold parseNDEFMessage. rewrite stripLeadingTrailingZeros_padding. reflexivity. }
  split; [exact Hparse|].
  unfold safeParseNDEFMessage. rewrite Hparse. reflexivity.
Qed.

(** X3.  The empty message: [toBytes] writes no byte at all for it (no
    TLV envelope), and [parseNDEFMessage] returns it for a buffer of
    zero bytes only, the empty buffer included, and for the empty TLV
    block 03 00 FE with any zero padding, without reading a record. *)
Theorem empty_message_codec (fuel a b : nat) :
  toBytes [] = OK []
  ∧ parseNDEFMessage fuel (replicate a x00) = Some (OK [])
  ∧ parseNDEFMessage fuel (replicate a x00 ++ [x03; x00; xfe] ++ replicate b x00)
    = Some (OK []).
Proof.
  split; [reflexivity|]. split.
  - unfold parseNDEFMessage.
    pose proof (stripLeadingTrailingZeros_padded a 0 [] ltac:(discriminate) ltac:(discriminate))
      as Hstrip.
    simpl in Hstrip. rewrite app_nil_r in Hstrip. rewrite Hstrip. reflexivity.
  - unfold parseNDEFMessage.
    rewrite (stripLeadingTrailingZeros_padded a b [x03; x00; xfe])
      by (simpl; discriminate).
    reflexivity.
Qed.

End ZeroPadding.

(** ** The checks of the encoder *)

Section Markers.
Context `{Platform}.

Lemma beginCount_cons (info : RecordInfo) (infos : list RecordInfo) :
  beginCount (info :: infos)
  = ((if isBeginning info then 1 else 0) + beginCount infos)%nat.
Proof.
  unfold beginCount. rewrite filter_cons.
  destruct (isBeginning info); simpl; reflexivity.
Qed.

Lemma endCount_cons (info : RecordInfo) (infos : list RecordInfo) :
  endCount (info :: infos) = ((if isEnd info then 1 else 0) + endCount infos)%nat.
Proof.
  unfold endCount. rewrite filter_cons.
  destruct (isEnd info); simpl; reflexivity.
Qed.

(** The four markers after the loop, from the number of flags seen. *)
Lemma fold_updateMarkers (infos : list RecordInfo) (nb ne : nat) :
  fold_left updateMarkers infos
    (mkMarkers (1 <=? nb)%nat (1 <=? ne)%nat (2 <=? nb)%nat (2 <=? ne)%nat)
  = mkMarkers (1 <=? nb + beginCount infos)%nat (1 <=? ne + endCount infos)%nat
      (2 <=? nb + beginCount infos)%nat (2 <=? ne + endCount infos)%nat.
Proof.
  revert nb ne. induction infos as [|info infos IH]; intros nb ne.
  - simpl. unfold beginCount, endCount. simpl. rewrite !Nat.add_0_r. reflexivity.
  - rewrite beginCount_cons, endCount_cons. simpl fold_left.
    replace (updateMarkers _ info)
      with (mkMarkers (1 <=? nb + if isBeginning info then 1 else 0)%nat
              (1 <=? ne + if isEnd info then 1 else 0)%nat
              (2 <=? nb + if isBeginning info then 1 else 0)%nat
              (2 <=? ne + if isEnd info then 1 else 0)%nat).
    + rewrite IH. rewrite !Nat.add_assoc. reflexivity.
    + unfold updateMarkers.
      destruct nb as [|[|nb]], ne as [|[|ne]], (isBeginning info), (isEnd info);
        reflexivity.
Qed.

(** X4.  For a non-empty list of record infos [constructBytes] encodes
    every record and passes on the first encoding error.  Then it throws
    if two or more infos carry the begin flag, else if two or more carry
    the end flag, else if none carries the begin flag, else if none
    carries the end flag.  Otherwise it wraps the record bytes in 03, the
    length byte and FE if they are 254 or fewer, and throws the TypeError
    of the long length form if they are more.  Only the numbers of flags
    count, not the records that carry them. *)
Theorem constructBytes_marker_checks (infos : list RecordInfo) :
  infos ≠ [] →
  constructBytes infos
  = match mapM constructBytesFromRecordInfo infos with
    | Err e => Err e
    | OK bs =>
        if (2 <=? beginCount infos)%nat
        then Err (Error "Multiple records with message begin flag found. Only one record can have the message begin flag.")
        else if (2 <=? endCount infos)%nat
        then Err (Error "Multiple records with message end flag found. Only one record can have the message end flag.")
        else if (beginCount infos =? 0)%nat
        then Err (Error "No record with message begin flag found. At least one record must have the message begin flag.")
        else if (endCount infos =? 0)%nat
        then Err (Error "No record with message end flag found. At least one record must have the message end flag.")
        else if Z.of_nat (length (concat bs)) <=? 254
        then OK ([x03; to_uint8 (Z.of_nat (length (concat bs)))] ++ concat bs ++ [xfe])
        else Err (TypeError "NDEFMessageLength is not iterable")
    end.
Proof.
  intros Hne. unfold constructBytes.
  assert (Hlen : num_eqb (len infos) (Num 0) = false)
    by (destruct infos; [congruence | reflexivity]).
  rewrite Hlen, constructBytes_loop_spec.
  destruct (mapM constructBytesFromRecordInfo infos) as [bs|e]; [|reflexivity].
  rewrite !bind_OK.
  change (mkMarkers false false false false)
    with (mkMarkers (1 <=? 0)%nat (1 <=? 0)%nat (2 <=? 0)%nat (2 <=? 0)%nat).
  rewrite (fold_updateMarkers infos 0 0). simpl Nat.add.
  cbn [hasBeginning hasEnd hasMultipleBeginning hasMultipleEnd].
  destruct (Nat.leb_spec 2 (beginCount infos)) as [Hb2|Hb2]; [reflexivity|].
  destruct (Nat.leb_spec 2 (endCount infos)) as [He2|He2]; [reflexivity|].
  destruct (Nat.eqb_spec (beginCount infos) 0) as [Hb0|Hb0].
  { rewrite Hb0. reflexivity. }
  destruct (Nat.leb_spec 1 (beginCount infos)) as [Hb1|Hb1]; [|lia].
  destruct (Nat.eqb_spec (endCount infos) 0) as [He0|He0].
  { rewrite He0. reflexivity. }
  destruct (Nat.leb_spec 1 (endCount infos)) as [He1|He1]; [|lia].
  cbn [negb]. cbv iota. simpl app. unfold num_gtb, len.
  destruct (Z.leb_spec (Z.of_nat (length (concat bs))) 254) as [Hle|Hgt].
  - destruct (Z.gtb_spec (Z.of_nat (length (concat bs))) 254); [lia|]. reflexivity.
  - destruct (Z.gtb_spec (Z.of_nat (length (concat bs))) 254); [reflexivity|lia].
Qed.

End Markers.

Lemma constructBytes_marker_checks_witness :
  @constructBytes example_platform
    [mkInfo (createNDEFRecordMediaTextPlain (BaseNDEFRecordOptions.mk "a" None)) false true;
     mkInfo (createNDEFRecordMediaTextPlain (BaseNDEFRecordOptions.mk "b" None)) true false]
  = OK ([x03; x1c]
          ++ ([x52; x0a; x01] ++ TextEncoder_encode "text/plain" ++ [x61])
          ++ ([x92; x0a; x01] ++ TextEncoder_encode "text/plain" ++ [x62])
          ++ [xfe]).
Proof.
  refine (eq_trans (@constructBytes_marker_checks example_platform _ _) _).
  - discriminate.
  - vm_compute. reflexivity.
Defined.

Section RecordEncoding.
Context `{Platform}.

Lemma constructBytesFromRecordInfo_Err (info : RecordInfo) (e : JSError) :
  constructBytesFromRecordInfo info = Err e →
  recordEncodingError e
  ∧ (2 ^ 32 - 1 < Z.of_nat (length (rawPayload (record info) ()))
     ∨ 255 < Z.of_nat (length (rawType (record info) ()))
     ∨ ∃ i, rawId (record info) () = Some i ∧ 255 < Z.of_nat (length i)).
Proof.
  unfold constructBytesFromRecordInfo, recordEncodingError, len, num_gtb.
  destruct (Z.gtb_spec (Z.of_nat (length (rawPayload (record info) ()))) (2 ^ 32 - 1)).
  { intros [= <-]. auto. }
  destruct (Z.gtb_spec (Z.of_nat (length (rawType (record info) ()))) 255).
  { intros [= <-]. auto. }
  destruct (rawId (record info) ()) as [i|] eqn:Hid.
  - destruct (Z.gtb_spec (Z.of_nat (length i)) 255); [|discriminate].
    intros [= <-]. split; [auto|]. right. right. exists i. auto.
  - discriminate.
Qed.

(** X5.  [constructBytesFromRecordInfo] throws exactly when the payload has
    more than 2^32 - 1 bytes, the type more than 255 bytes or the id more
    than 255 bytes, and then one of its three TypeErrors.  Otherwise the
    encoding has three bytes (header, type length, payload length), three
    more when the payload has 256 bytes or more, one more when there is an
    id, and the bytes of the type, the id and the payload. *)
Theorem constructBytesFromRecordInfo_limits (info : RecordInfo) :
  ((∃ e, constructBytesFromRecordInfo info = Err e)
   ↔ 2 ^ 32 - 1 < Z.of_nat (length (rawPayload (record info) ()))
     ∨ 255 < Z.of_nat (length (rawType (record info) ()))
     ∨ ∃ i, rawId (record info) () = Some i ∧ 255 < Z.of_nat (length i))
  ∧ (∀ e, constructBytesFromRecordInfo info = Err e → recordEncodingError e)
  ∧ (∀ bytes, constructBytesFromRecordInfo info = OK bytes →
       Z.of_nat (length bytes)
       = 3 + (if Z.of_nat (length (rawPayload (record info) ())) <? 256 then 0 else 3)
         + Z.of_nat (length (rawType (record info) ()))
         + match rawId (record info) () with
           | Some i => 1 + Z.of_nat (length i)
           | None => 0
           end
         + Z.of_nat (length (rawPayload (record info) ()))).
Proof.
  split; [split|split].
  - intros [e He]. exact (proj2 (constructBytesFromRecordInfo_Err info e He)).
  - intros Hbig.
    destruct (constructBytesFromRecordInfo info) as [bytes|e] eqn:Henc;
      [|exists e; reflexivity].
    apply constructBytesFromRecordInfo_OK in Henc as (Hp & Ht & Hi & _).
    destruct Hbig as [Hbig | [Hbig | (i & Hid & Hbig)]]; try lia.
    specialize (Hi i Hid). lia.
  - intros e He. exact (proj1 (constructBytesFromRecordInfo_Err info e He)).
  - intros bytes Henc.
    apply constructBytesFromRecordInfo_OK in Henc as (_ & _ & _ & ->).
    unfold constructHeaderByte, payloadLengthBytes, num_ltb. rewrite !length_app.
    destruct (Z.of_nat (length (rawPayload (record info) ())) <? 256);
      destruct (rawId (record info) ()) as [i|]; simpl length; lia.
Qed.

Lemma mapM_constructBytesFromRecordInfo_Err (infos : list RecordInfo) (e : JSError) :
  mapM constructBytesFromRecordInfo infos = Err e → recordEncodingError e.
Proof.
  induction infos as [|info infos IH]; [discriminate|]. simpl.
  destruct (constructBytesFromRecordInfo info) as [b|e1] eqn:Hb.
  - destruct (mapM constructBytesFromRecordInfo infos) as [bs|e2]; [discriminate|].
    intros [= <-]. apply IH. reflexivity.
  - intros [= <-]. exact (proj1 (constructBytesFromRecordInfo_Err info e1 Hb)).
Qed.

(** X6.  For records whose [rawPayload], [rawType] and [rawId] accessors
    return their bytes, [toBytes] throws nothing but one of the three
    TypeErrors of the record encoder or the TypeError of the long length
    form: the four marker errors of [constructBytes] cannot occur with the
    flags [toBytes] assigns.  (The accessors of a record are total
    functions here; an accessor that throws, as the [rawPayload] of a JSON
    record does when [JSON.stringify] throws, passes its error on through
    [toBytes].) *)
Theorem toBytes_errors (records : list BaseNDEFRecord) (e : JSError) :
  toBytes records = Err e →
  recordEncodingError e ∨ e = TypeError "NDEFMessageLength is not iterable".
Proof.
  unfold toBytes. destruct records as [|r records]; [discriminate|].
  set (rs := r :: records).
  assert (Hne : rs ≠ []) by discriminate.
  destruct (mapM constructBytesFromRecordInfo (recordInfos rs)) as [bs|e1] eqn:Hbs.
  - rewrite (constructBytes_cases (recordInfos rs) bs
               (fun Hnil => Hne (recordInfos_nil rs Hnil)) Hbs
               (markers_recordInfos rs Hne)).
    destruct (Z.of_nat (length (concat bs)) <=? 254); [discriminate|].
    intros [= <-]. right. reflexivity.
  - unfold constructBytes.
    rewrite (recordInfos_nonempty rs Hne), constructBytes_loop_spec, Hbs.
    intros [= <-]. left. exact (mapM_constructBytesFromRecordInfo_Err _ _ Hbs).
Qed.

End RecordEncoding.

(** ** Errors and results of the parser *)

Section RawData.
Context `{Platform}.

Lemma prefixMappings_byte (c : byte) :
  (0x23 <? byte_to_Z c) = false → ∃ prefix, prefixMappings (byte_to_Z c) = Some prefix.
Proof.
  destruct c; intros Hc; try (vm_compute in Hc; discriminate Hc);
    eexists; reflexivity.
Qed.

(** What the URI constructor of the parsing side makes of a payload. *)
Lemma createNDEFRecordWellKnownURIFromBytes_cases (bytes : list byte) (i : option string) :
  match bytes with
  | [] =>
      createNDEFRecordWellKnownURIFromBytes bytes i
      = Err (Error "URI record payload cannot be empty")
  | c :: rest =>
      match prefixMappings (byte_to_Z c) with
      | None =>
          createNDEFRecordWellKnownURIFromBytes bytes i
          = Err (TypeError ("Invalid prefix code: " +:+ num_to_string (Num (byte_to_Z c))))
      | Some prefix =>
          ∃ r, createNDEFRecordWellKnownURIFromBytes bytes i = OK r
               ∧ tnf r = well_known ∧ type r = "U" ∧ id r = i ∧ isIdentified r = true
               ∧ rawPayload r () = bytes
               ∧ rawType r () = TextEncoder_encode "U"
               ∧ rawId r () = rawIdOfParsed i ()
               ∧ payload r () = OK (PString (prefix +:+ TextDecoder_decode rest))
      end
  end.
Proof.
  unfold createNDEFRecordWellKnownURIFromBytes.
  destruct bytes as [|c rest]; [reflexivity|].
  change (num_eqb (len (c :: rest)) (Num 0)) with false. cbv iota.
  rewrite (index_at (c :: rest) [] rest c 0 eq_refl eq_refl).
  unfold len.
  rewrite (slice_at (c :: rest) [c] rest [] 1 (Z.of_nat (length (c :: rest))));
    [| simpl; rewrite app_nil_r; reflexivity | reflexivity | simpl length; lia].
  unfold reconstructURIFromPrefix.
  destruct (prefixMappings (byte_to_Z c)) as [prefix|]; [|reflexivity].
  rewrite bind_OK. eexists. split; [reflexivity|]. repeat split.
Qed.

Lemma badURIPayload_cases (bytes : list byte) :
  badURIPayload bytes
  = match bytes with
    | [] => true
    | c :: _ => match prefixMappings (byte_to_Z c) with Some _ => false | None => true end
    end.
Proof.
  destruct bytes as [|c rest]; [reflexivity|]. simpl.
  destruct (0x23 <? byte_to_Z c) eqn:Hc.
  - rewrite (prefixMappings_above c Hc). reflexivity.
  - destruct (prefixMappings_byte c Hc) as [p ->]. reflexivity.
Qed.

Lemma knownType_media (ty : string) (bytes : list byte) (i : option string) :
  tnf (createMediaRecord ty bytes i) = media
  ∧ type (createMediaRecord ty bytes i) = ty
  ∧ id (createMediaRecord ty bytes i) = i
  ∧ rawPayload (createMediaRecord ty bytes i) () = bytes
  ∧ rawType (createMediaRecord ty bytes i) () = TextEncoder_encode ty
  ∧ rawId (createMediaRecord ty bytes i) () = rawIdOfParsed i ()
  ∧ isIdentified (createMediaRecord ty bytes i) = knownType media ty
  ∧ (knownType media ty = false →
     payload (createMediaRecord ty bytes i) () = OK (PBinary (Uint8Array bytes))
     ∧ safePayload (createMediaRecord ty bytes i) ()
       = SafeSuccess (PBinary (Uint8Array bytes))).
Proof.
  unfold createMediaRecord, knownType, existsb.
  repeat match goal with
         | |- context [String.eqb ty ?s] =>
             destruct (String.eqb_spec ty s) as [->|?]
         end; simpl; repeat split; try reflexivity; discriminate.
Qed.

(** Every record the parser builds carries the category it was given, the
    decoded type and id, and the payload bytes as they were read. *)
Lemma createNDEFRecordFromRawData_fields (t : TNF) (typeBytes payloadBytes : list byte)
  (idBytes : option (list byte)) (r : BaseNDEFRecord) :
  createNDEFRecordFromRawData t typeBytes payloadBytes idBytes = OK r →
  tnf r = t
  ∧ type r = TextDecoder_decode typeBytes
  ∧ id r = (TextDecoder_decode <$> idBytes)
  ∧ rawPayload r () = payloadBytes
  ∧ rawType r () = TextEncoder_encode (TextDecoder_decode typeBytes)
  ∧ rawId r () = rawIdOfParsed (TextDecoder_decode <$> idBytes) ()
  ∧ isIdentified r = knownType t (TextDecoder_decode typeBytes)
  ∧ (knownType t (TextDecoder_decode typeBytes) = false →
     payload r () = OK (PBinary (Uint8Array payloadBytes))
     ∧ safePayload r () = SafeSuccess (PBinary (Uint8Array payloadBytes))).
Proof.
  unfold createNDEFRecordFromRawData.
  set (ty := TextDecoder_decode typeBytes). set (i := TextDecoder_decode <$> idBytes).
  destruct t; try (intros [= <-]; simpl; repeat split; reflexivity).
  - (* well-known *)
    unfold createWellKnownRecord, knownType.
    destruct (String.eqb_spec ty "U") as [HU|HU].
    + intros Hr. pose proof (createNDEFRecordWellKnownURIFromBytes_cases payloadBytes i) as Hc.
      rewrite Hr in Hc. destruct payloadBytes as [|c rest]; [discriminate|].
      destruct (prefixMappings (byte_to_Z c)); [|discriminate].
      destruct Hc as (r' & [= <-] & Ht & Hty & Hi & Hid & Hp & Hrt & Hri & _).
      rewrite HU. repeat split; try assumption; discriminate.
    + intros [= <-]. simpl. repeat split; reflexivity.
  - (* media *)
    intros [= <-].
    exact (knownType_media ty payloadBytes i).
Qed.

(** The parser rejects the fields of a record only for a URI payload
    that is empty or starts with a byte above 0x23. *)
Lemma createNDEFRecordFromRawData_Err_inv (t : TNF) (typeBytes payloadBytes : list byte)
  (idBytes : option (list byte)) (e : JSError) :
  createNDEFRecordFromRawData t typeBytes payloadBytes idBytes = Err e →
  t = well_known ∧ TextDecoder_decode typeBytes = "U"
  ∧ badURIPayload payloadBytes = true
  ∧ match payloadBytes with
    | [] => e = Error "URI record payload cannot be empty"
    | c :: _ =>
        e = TypeError ("Invalid prefix code: " +:+ num_to_string (Num (byte_to_Z c)))
    end.
Proof.
  unfold createNDEFRecordFromRawData.
  set (ty := TextDecoder_decode typeBytes). set (i := TextDecoder_decode <$> idBytes).
  pose proof (createNDEFRecordWellKnownURIFromBytes_cases payloadBytes i) as Hc.
  rewrite badURIPayload_cases.
  destruct t; try discriminate.
  unfold createWellKnownRecord. destruct (String.eqb_spec ty "U") as [HU|HU]; [|discriminate].
  intros He. rewrite He in Hc. destruct payloadBytes as [|c rest].
  - injection Hc as ->. auto.
  - destruct (prefixMappings (byte_to_Z c)) as [prefix|].
    + destruct Hc as (r & Hr & _). discriminate Hr.
    + injection Hc as ->. auto.
Qed.

(** X7.  Building a record from the fields read off the wire fails exactly
    for a well-known record of type [U] whose payload is empty or starts
    with a byte above 0x23.  The error is [URI record payload cannot be
    empty] for the empty payload and [Invalid prefix code: n], with the
    first byte in decimal, otherwise.  Every other category, type and
    payload gives a record. *)
Theorem createNDEFRecordFromRawData_fails_iff (t : TNF) (typeBytes payloadBytes : list byte)
  (idBytes : option (list byte)) :
  ((∃ e, createNDEFRecordFromRawData t typeBytes payloadBytes idBytes = Err e)
   ↔ t = well_known ∧ TextDecoder_decode typeBytes = "U"
     ∧ badURIPayload payloadBytes = true)
  ∧ (∀ e, createNDEFRecordFromRawData t typeBytes payloadBytes idBytes = Err e →
       match payloadBytes with
       | [] => e = Error "URI record payload cannot be empty"
       | c :: _ =>
           e = TypeError ("Invalid prefix code: " +:+ num_to_string (Num (byte_to_Z c)))
       end).
Proof.
  split; [split|].
  - intros [e He].
    destruct (createNDEFRecordFromRawData_Err_inv _ _ _ _ _ He) as (Ht & Hty & Hbad & _).
    auto.
  - intros (-> & Hty & Hbad). unfold createNDEFRecordFromRawData, createWellKnownRecord.
    rewrite Hty. change (String.eqb "U" "U") with true. cbv iota.
    pose proof (createNDEFRecordWellKnownURIFromBytes_cases payloadBytes
                  (TextDecoder_decode <$> idBytes)) as Hc.
    rewrite badURIPayload_cases in Hbad.
    destruct payloadBytes as [|c rest]; [eexists; exact Hc|].
    destruct (prefixMappings (byte_to_Z c)); [discriminate | eexists; exact Hc].
  - intros e He.
    destruct (createNDEFRecordFromRawData_Err_inv _ _ _ _ _ He) as (_ & _ & _ & Hmsg).
    exact Hmsg.
Qed.

End RawData.

Section ParserErrors.
Context `{Platform}.

Lemma js_and_7 (h : num) : 0 <= js_and h (Num 7) <= 7.
Proof.
  unfold js_and. change (ToInt32 (Num 7)) with (Z.ones 3).
  rewrite Z.land_ones by lia. change (2 ^ 3) with 8.
  pose proof (Z.mod_pos_bound (ToInt32 h) 8 ltac:(lia)) as Hm.
  rewrite wrap32_small by lia. lia.
Qed.

(** The TNF lookup of the header parser cannot fail: the code is three
    bits wide. *)
Lemma parseNDEFRecordHeader_Err (h : num) (e : JSError) :
  parseNDEFRecordHeader h = Err e → e = Error "Chunked records are not supported yet".
Proof.
  unfold parseNDEFRecordHeader. destruct (flag h 32); [intros [= <-]; reflexivity|].
  pose proof (js_and_7 h) as Hc.
  assert (Hcases : js_and h (Num 7) = 0 ∨ js_and h (Num 7) = 1 ∨ js_and h (Num 7) = 2
                   ∨ js_and h (Num 7) = 3 ∨ js_and h (Num 7) = 4 ∨ js_and h (Num 7) = 5
                   ∨ js_and h (Num 7) = 6 ∨ js_and h (Num 7) = 7) by lia.
  destruct Hcases as [-> | [-> | [-> | [-> | [-> | [-> | [-> | ->]]]]]]]; discriminate.
Qed.

Lemma createNDEFRecordFromRawData_Err (t : TNF) (typeBytes payloadBytes : list byte)
  (idBytes : option (list byte)) (e : JSError) :
  createNDEFRecordFromRawData t typeBytes payloadBytes idBytes = Err e →
  e = Error "URI record payload cannot be empty"
  ∨ ∃ c : byte,
      e = TypeError ("Invalid prefix code: " +:+ num_to_string (Num (byte_to_Z c))).
Proof.
  unfold createNDEFRecordFromRawData.
  destruct t; try discriminate.
  unfold createWellKnownRecord. destruct (String.eqb _ "U"); [|discriminate].
  intros He.
  pose proof (createNDEFRecordWellKnownURIFromBytes_cases payloadBytes
                (TextDecoder_decode <$> idBytes)) as Hc.
  rewrite He in Hc. destruct payloadBytes as [|c rest].
  - injection Hc as ->. left. reflexivity.
  - destruct (prefixMappings (byte_to_Z c)).
    + destruct Hc as (r & Hr & _). discriminate Hr.
    + injection Hc as ->. right. exists c. reflexivity.
Qed.

Lemma parseNDEFRecord_Err (data : list byte) (offset : num) (e : JSError) :
  parseNDEFRecord data offset = Err e → recordParseError e.
Proof.
  rewrite parseNDEFRecord_stages.
  unfold parseNDEFRecord_staged, readPayloadLength, readIdLength, readId, recordParseError.
  destruct (num_geb offset (len data)); [intros [= <-]; left; reflexivity|].
  destruct (parseNDEFRecordHeader (index data offset)) as [header|e0] eqn:Hh.
  2:{ intros [= <-]. right. left. exact (parseNDEFRecordHeader_Err _ _ Hh). }
  rewrite bind_OK.
  destruct (num_geb (num_add offset (Num 1)) (len data)); [intros [= <-]; left; reflexivity|].
  destruct (NDEFRecordHeader.shortRecordFlag header).
  - destruct (num_geb _ (len data)); [intros [= <-]; left; reflexivity|].
    rewrite bind_OK. cbv beta iota.
    destruct (NDEFRecordHeader.idLengthFlag header).
    + destruct (num_geb _ (len data)); [intros [= <-]; left; reflexivity|].
      rewrite bind_OK. cbv beta iota.
      destruct (num_gtb _ (len data)); [intros [= <-]; left; reflexivity|].
      destruct (num_gtb _ (len data)); [intros [= <-]; left; reflexivity|].
      rewrite bind_OK. cbv beta iota.
      destruct (num_gtb _ (len data)); [intros [= <-]; left; reflexivity|].
      destruct (createNDEFRecordFromRawData _ _ _ _) as [r|e0] eqn:Hr; [discriminate|].
      intros [= <-]. right. right. exact (createNDEFRecordFromRawData_Err _ _ _ _ _ Hr).
    + rewrite bind_OK. cbv beta iota.
      destruct (num_gtb _ (len data)); [intros [= <-]; left; reflexivity|].
      rewrite bind_OK. cbv beta iota.
      destruct (num_gtb _ (len data)); [intros [= <-]; left; reflexivity|].
      destruct (createNDEFRecordFromRawData _ _ _ _) as [r|e0] eqn:Hr; [discriminate|].
      intros [= <-]. right. right. exact (createNDEFRecordFromRawData_Err _ _ _ _ _ Hr).
  - destruct (num_gtb _ (len data)); [intros [= <-]; left; reflexivity|].
    rewrite bind_OK. cbv beta iota.
    destruct (NDEFRecordHeader.idLengthFlag header).
    + destruct (num_geb _ (len data)); [intros [= <-]; left; reflexivity|].
      rewrite bind_OK. cbv beta iota.
      destruct (num_gtb _ (len data)); [intros [= <-]; left; reflexivity|].
      destruct (num_gtb _ (len data)); [intros [= <-]; left; reflexivity|].
      rewrite bind_OK. cbv beta iota.
      destruct (num_gtb _ (len data)); [intros [= <-]; left; reflexivity|].
      destruct (createNDEFRecordFromRawData _ _ _ _) as [r|e0] eqn:Hr; [discriminate|].
      intros [= <-]. right. right. exact (createNDEFRecordFromRawData_Err _ _ _ _ _ Hr).
    + rewrite bind_OK. cbv beta iota.
      destruct (num_gtb _ (len data)); [intros [= <-]; left; reflexivity|].
      rewrite bind_OK. cbv beta iota.
      destruct (num_gtb _ (len data)); [intros [= <-]; left; reflexivity|].
      destruct (createNDEFRecordFromRawData _ _ _ _) as [r|e0] eqn:Hr; [discriminate|].
      intros [= <-]. right. right. exact (createNDEFRecordFromRawData_Err _ _ _ _ _ Hr).
Qed.

End ParserErrors.

Section ParserResults.
Context `{Platform}.

(** The steps a successful call of [parseNDEFRecord] has gone through. *)
Lemma parseNDEFRecord_OK (data : list byte) (offset : num) (res : ParsedNDEFRecordResult) :
  parseNDEFRecord data offset = OK res →
  ∃ header payloadLength o1 idLength o2 idBytes o3,
    num_geb offset (len data) = false
    ∧ parseNDEFRecordHeader (index data offset) = OK header
    ∧ num_geb (num_add offset (Num 1)) (len data) = false
    ∧ readPayloadLength data (NDEFRecordHeader.shortRecordFlag header)
        (num_add (num_add offset (Num 1)) (Num 1)) = OK (payloadLength, o1)
    ∧ readIdLength data (NDEFRecordHeader.idLengthFlag header) o1 = OK (idLength, o2)
    ∧ num_gtb (num_add o2 (index data (num_add offset (Num 1)))) (len data) = false
    ∧ readId data (NDEFRecordHeader.idLengthFlag header) idLength
        (num_add o2 (index data (num_add offset (Num 1)))) = OK (idBytes, o3)
    ∧ num_gtb (num_add o3 payloadLength) (len data) = false
    ∧ createNDEFRecordFromRawData (NDEFRecordHeader.tnf header)
        (slice data o2 (num_add o2 (index data (num_add offset (Num 1)))))
        (slice data o3 (num_add o3 payloadLength)) idBytes
      = OK (parsed_record res)
    ∧ nextOffset res = num_add o3 payloadLength
    ∧ isMessageEnd res = NDEFRecordHeader.messageEndFlag header.
Proof.
  rewrite parseNDEFRecord_stages. unfold parseNDEFRecord_staged.
  destruct (num_geb offset (len data)) eqn:H1; [discriminate|].
  destruct (parseNDEFRecordHeader (index data offset)) as [header|e0] eqn:Hh; [|discriminate].
  rewrite bind_OK.
  destruct (num_geb (num_add offset (Num 1)) (len data)) eqn:H2; [discriminate|].
  destruct (readPayloadLength data _ _) as [[payloadLength o1]|e0] eqn:Hpl; [|discriminate].
  rewrite bind_OK. cbv beta iota.
  destruct (readIdLength data _ o1) as [[idLength o2]|e0] eqn:Hil; [|discriminate].
  rewrite bind_OK. cbv beta iota.
  destruct (num_gtb (num_add o2 _) (len data)) eqn:H3; [discriminate|].
  destruct (readId data _ idLength _) as [[idBytes o3]|e0] eqn:Hid; [|discriminate].
  rewrite bind_OK. cbv beta iota.
  destruct (num_gtb (num_add o3 payloadLength) (len data)) eqn:H4; [discriminate|].
  destruct (createNDEFRecordFromRawData _ _ _ _) as [r|e0] eqn:Hr; [|discriminate].
  rewrite bind_OK. intros [= <-].
  exists header, payloadLength, o1, idLength, o2, idBytes, o3.
  repeat split; assumption.
Qed.

End ParserResults.

Section ParserBounds.
Context `{Platform}.

Lemma index_inside (data : list byte) (z : Z) :
  0 <= z < Z.of_nat (length data) → ∃ b, index data (Num z) = Num b ∧ 0 <= b < 256.
Proof.
  intros Hz. exists (byteAt data (Z.to_nat z)).
  rewrite <- (Z2Nat.id z) at 1 by lia.
  split; [apply index_byteAt; lia | apply byteAt_range; lia].
Qed.

Lemma num_geb_false (a n : Z) : num_geb (Num a) (Num n) = false → a < n.
Proof. unfold num_geb. destruct (Z.geb_spec a n); [discriminate | lia]. Qed.

Lemma num_gtb_false (a n : Z) : num_gtb (Num a) (Num n) = false → a <= n.
Proof. unfold num_gtb. destruct (Z.gtb_spec a n); [discriminate | lia]. Qed.

Lemma parseNDEFRecordHeader_short (h : num) (header : NDEFRecordHeader.t) :
  parseNDEFRecordHeader h = OK header →
  NDEFRecordHeader.shortRecordFlag header = flag h 0x10
  ∧ NDEFRecordHeader.messageEndFlag header = flag h 0x40.
Proof.
  unfold parseNDEFRecordHeader. destruct (flag h 32); [discriminate|].
  destruct (TNFCodeLookup _); [|discriminate]. intros [= <-]. split; reflexivity.
Qed.

End ParserBounds.

Section MessageResults.
Context `{Platform}.

Lemma validateAndStripTLV_Err (data : list byte) (e : JSError) :
  validateAndStripTLV data = Err e →
  String.prefix "TLV structure is malformed" (message e) = true.
Proof.
  unfold validateAndStripTLV.
  destruct (num_ltb (len data) (Num 3)); [intros [= <-]; reflexivity|].
  destruct (negb (num_eqb (index data (Num 0)) (Num 3))); [intros [= <-]; reflexivity|].
  destruct (negb (num_eqb (index data (num_add (len data) (Num (-1)))) (Num 254)));
    [intros [= <-]; reflexivity|].
  destruct (num_ltb (index data (Num 1)) (Num 255)).
  - rewrite bind_OK. cbv beta iota.
    match goal with
    | |- context [Error (?a +:+ ?b)] => generalize b; intros expected
    end.
    destruct (negb (num_eqb (len data) _)); [intros [= <-]; reflexivity|].
    destruct (num_eqb (index data (Num 1)) (Num 0)); [discriminate|].
    destruct (num_eqb (len data) (Num 4)); [intros [= <-]; reflexivity | discriminate].
  - destruct (num_eqb (index data (Num 1)) (Num 255)); [|intros [= <-]; reflexivity].
    destruct (num_ltb (len data) (Num 5)); [intros [= <-]; reflexivity|].
    rewrite bind_OK. cbv beta iota.
    match goal with
    | |- context [Error (?a +:+ ?b)] => generalize b; intros expected
    end.
    destruct (negb (num_eqb (len data) _)); [intros [= <-]; reflexivity|].
    destruct (num_eqb _ (Num 0)); [discriminate|].
    destruct (num_eqb (len data) (Num 4)); [intros [= <-]; reflexivity | discriminate].
Qed.

Lemma parseRecords_Err (fuel : nat) (data : list byte) (offset : num)
  (acc : list BaseNDEFRecord) (e : JSError) :
  parseRecords fuel data offset acc = Some (Err e) → recordParseError e.
Proof.
  revert offset acc. induction fuel as [|fuel IH]; intros offset acc; simpl.
  - destruct (num_ltb offset (len data)); discriminate.
  - destruct (num_ltb offset (len data)); [|discriminate].
    destruct (parseNDEFRecord data offset) as [res|e0] eqn:Hres.
    + destruct (isMessageEnd res); [discriminate | apply IH].
    + intros [= <-]. exact (parseNDEFRecord_Err data offset e0 Hres).
Qed.

Lemma createMediaRecord_invariant (ty : string) (bytes : list byte) (i : option string) :
  parsedRecordInvariant (createMediaRecord ty bytes i).
Proof.
  unfold parsedRecordInvariant, createMediaRecord.
  destruct (String.eqb ty "application/json") eqn:E1.
  { cbn. split; [reflexivity|]. split; [reflexivity|].
    split; [destruct (JSON_parse (TextDecoder_decode bytes)); reflexivity | auto]. }
  destruct (String.eqb ty "text/plain") eqn:E2;
    [|destruct (String.eqb ty "text/html") eqn:E3;
      [|destruct (String.eqb ty "image/png") eqn:E4;
        [|destruct (String.eqb ty "image/jpeg") eqn:E5;
          [|destruct (String.eqb ty "video/mp4") eqn:E6;
            [|destruct (String.eqb ty "audio/mpeg") eqn:E7]]]]];
    cbn; unfold decodedPayload; cbn; rewrite ?E1, ?E2, ?E3, ?E4, ?E5, ?E6, ?E7; cbn;
    (split; [reflexivity|]); (split; [reflexivity|]);
    (split; [reflexivity|]); intros [e He]; discriminate He.
Qed.

Lemma createNDEFRecordFromRawData_invariant (t : TNF) (typeBytes payloadBytes : list byte)
  (idBytes : option (list byte)) (r : BaseNDEFRecord) :
  createNDEFRecordFromRawData t typeBytes payloadBytes idBytes = OK r →
  parsedRecordInvariant r.
Proof.
  assert (Hun : ∀ t ty bytes i,
            knownType t ty = false →
            parsedRecordInvariant (createUnidentifiedRecord t ty bytes i)).
  { intros t0 ty bytes i Hk. unfold parsedRecordInvariant, decodedPayload.
    cbn [tnf type isIdentified payload safePayload rawPayload createUnidentifiedRecord].
    rewrite Hk. split; [reflexivity|]. split; [reflexivity|]. split; [reflexivity|].
    intros [e He]. discriminate He. }
  unfold createNDEFRecordFromRawData.
  set (ty := TextDecoder_decode typeBytes). set (i := TextDecoder_decode <$> idBytes).
  destruct t; try (intros [= <-]; apply Hun; reflexivity).
  - unfold createWellKnownRecord. destruct (String.eqb_spec ty "U") as [HU|HU].
    + intros Hr. unfold createNDEFRecordWellKnownURIFromBytes in Hr.
      destruct payloadBytes as [|c rest]; [discriminate Hr|].
      change (num_eqb (len (c :: rest)) (Num 0)) with false in Hr. cbv iota in Hr.
      rewrite (index_at (c :: rest) [] rest c 0 eq_refl eq_refl) in Hr.
      unfold len in Hr.
      rewrite (slice_at (c :: rest) [c] rest [] 1 (Z.of_nat (length (c :: rest)))) in Hr;
        [| simpl; rewrite app_nil_r; reflexivity | reflexivity | simpl length; lia].
      destruct (reconstructURIFromPrefix (Num (byte_to_Z c)) (TextDecoder_decode rest))
        as [uri|e] eqn:Huri; [|discriminate Hr].
      rewrite bind_OK in Hr. injection Hr as <-.
      unfold parsedRecordInvariant, decodedPayload, knownType.
      cbn [tnf type isIdentified payload safePayload rawPayload].
      change (String.eqb "U" "U") with true. cbv iota. rewrite Huri.
      split; [reflexivity|]. split; [reflexivity|]. split; [reflexivity|].
      intros [e He]. discriminate He.
    + intros [= <-]. apply Hun. simpl. destruct (String.eqb_spec ty "U"); congruence.
  - intros [= <-]. apply createMediaRecord_invariant.
Qed.

Lemma parseRecords_Forall (fuel : nat) (data : list byte) (offset : num)
  (acc rs : list BaseNDEFRecord) :
  Forall parsedRecordInvariant acc →
  parseRecords fuel data offset acc = Some (OK rs) → Forall parsedRecordInvariant rs.
Proof.
  revert offset acc. induction fuel as [|fuel IH]; intros offset acc Hacc; simpl.
  - destruct (num_ltb offset (len data)); [discriminate|]. intros [= <-]. exact Hacc.
  - destruct (num_ltb offset (len data)); [|intros [= <-]; exact Hacc].
    destruct (parseNDEFRecord data offset) as [res|e0] eqn:Hres; [|discriminate].
    assert (Hacc' : Forall parsedRecordInvariant (acc ++ [parsed_record res])).
    { apply Forall_app. split; [exact Hacc|]. constructor; [|constructor].
      apply parseNDEFRecord_OK in Hres
        as (? & ? & ? & ? & ? & ? & ? & _ & _ & _ & _ & _ & _ & _ & _ & Hr & _).
      exact (createNDEFRecordFromRawData_invariant _ _ _ _ _ Hr). }
    destruct (isMessageEnd res); [intros [= <-]; exact Hacc' | apply IH; exact Hacc'].
Qed.

(** X8.  Every error [parseNDEFMessage] throws is an error of the TLV
    check, whose message starts with [TLV structure is malformed], a
    truncation error, whose message starts with [Unexpected end of data],
    the error of the chunk flag, or one of the two errors of a URI
    payload; the lookup of the category never fails.
    [safeParseNDEFMessage] reports a failure exactly when
    [parseNDEFMessage] throws, with the message of the error thrown. *)
Theorem parseNDEFMessage_errors (fuel : nat) (data : list byte) :
  (∀ e, parseNDEFMessage fuel data = Some (Err e) →
        String.prefix "TLV structure is malformed" (message e) = true
        ∨ recordParseError e)
  ∧ (∀ error, safeParseNDEFMessage fuel data = Some (ParseFailure error)
              ↔ ∃ e, parseNDEFMessage fuel data = Some (Err e) ∧ error = message e).
Proof.
  split.
  - intros e. unfold parseNDEFMessage.
    destruct (num_eqb (len (stripLeadingTrailingZeros data)) (Num 0)); [discriminate|].
    destruct (validateAndStripTLV (stripLeadingTrailingZeros data)) as [value|e0] eqn:Hv.
    + destruct (num_eqb (len value) (Num 0)); [discriminate|].
      intros Hp. right. exact (parseRecords_Err _ _ _ _ _ Hp).
    + intros [= <-]. left. exact (validateAndStripTLV_Err _ _ Hv).
  - intros error. unfold safeParseNDEFMessage.
    destruct (parseNDEFMessage fuel data) as [[rs|e]|].
    + split; [discriminate | intros (e & He & _); discriminate He].
    + split.
      * intros [= <-]. exists e. split; reflexivity.
      * intros (e' & [= <-] & ->). reflexivity.
    + split; [discriminate | intros (e & He & _); discriminate He].
Qed.

(** X9.  Every record of a message [parseNDEFMessage] returns is marked as
    identified exactly when the parser knows its category and type (the
    well-known type [U] and seven media types); its [payload()] is the
    value decoded from its payload bytes: the rebuilt URI, the parsed
    JSON, the decoded text, and the bytes themselves for the binary media
    types and for every record that is not identified; [safePayload()]
    reports success with that value, or failure with the message of the
    error [payload()] throws; and [payload()] can throw for a JSON record
    only. *)
Theorem parsed_records_invariant (fuel : nat) (data : list byte)
  (rs : list BaseNDEFRecord) :
  parseNDEFMessage fuel data = Some (OK rs) → Forall parsedRecordInvariant rs.
Proof.
  unfold parseNDEFMessage.
  destruct (num_eqb (len (stripLeadingTrailingZeros data)) (Num 0));
    [intros [= <-]; constructor|].
  destruct (validateAndStripTLV (stripLeadingTrailingZeros data)) as [value|e0];
    [|discriminate].
  destruct (num_eqb (len value) (Num 0)); [intros [= <-]; constructor|].
  apply parseRecords_Forall. constructor.
Qed.

End MessageResults.

(** ** Cursor and termination of the parser *)

(** Four bytes read as [(a << 24) | (b << 16) | (c << 8) | d]: the signed
    32-bit big-endian number. *)
Lemma js_be32_signed (a b c d : Z) :
  0 <= a < 256 → 0 <= b < 256 → 0 <= c < 256 → 0 <= d < 256 →
  js_or (Num (js_or (Num (js_or
    (Num (js_shl (Num a) (Num 24)))
    (Num (js_shl (Num b) (Num 16)))))
    (Num (js_shl (Num c) (Num 8)))))
    (Num d)
  = wrap32 (a * 2 ^ 24 + b * 2 ^ 16 + c * 2 ^ 8 + d).
Proof.
  intros Ha Hb Hc Hd.
  change (2 ^ 24) with 16777216. change (2 ^ 16) with 65536. change (2 ^ 8) with 256.
  set (a' := if a <? 128 then a else a - 256).
  assert (Ha' : -128 <= a' < 128) by (subst a'; destruct (Z.ltb_spec a 128); lia).
  assert (Hw : wrap32 (a * 16777216 + b * 65536 + c * 256 + d)
               = a' * 16777216 + b * 65536 + c * 256 + d).
  { unfold wrap32. change (2 ^ 31) with 2147483648. change (2 ^ 32) with 4294967296.
    subst a'. destruct (Z.ltb_spec a 128).
    - rewrite Z.mod_small by lia. lia.
    - replace (a * 16777216 + b * 65536 + c * 256 + d + 2147483648)
        with ((a - 256) * 16777216 + b * 65536 + c * 256 + d + 2147483648
              + 1 * 4294967296) by lia.
      rewrite Z.mod_add by lia. rewrite Z.mod_small by lia. lia. }
  rewrite Hw.
  assert (H3 : js_shl (Num a) (Num 24) = a' * 16777216).
  { unfold js_shl, ToInt32. rewrite (wrap32_small a) by lia.
    rewrite (wrap32_small 24) by lia. change (24 mod 32) with 24.
    rewrite Z.shiftl_mul_pow2 by lia. change (2 ^ 24) with 16777216.
    unfold wrap32. change (2 ^ 31) with 2147483648. change (2 ^ 32) with 4294967296.
    subst a'. destruct (Z.ltb_spec a 128).
    - rewrite Z.mod_small by lia. lia.
    - replace (a * 16777216 + 2147483648)
        with ((a - 256) * 16777216 + 2147483648 + 1 * 4294967296) by lia.
      rewrite Z.mod_add by lia. rewrite Z.mod_small by lia. lia. }
  rewrite H3.
  rewrite (js_shl_small b 16) by (change (2 ^ 16) with 65536; change (2 ^ 31) with 2147483648; lia).
  rewrite (js_shl_small c 8) by (change (2 ^ 8) with 256; change (2 ^ 31) with 2147483648; lia).
  change (2 ^ 16) with 65536. change (2 ^ 8) with 256.
  assert (Hor : ∀ x y n, 0 <= n <= 31 → 0 <= y < 2 ^ n →
                  - 2 ^ 31 <= x * 2 ^ n + y < 2 ^ 31 → - 2 ^ 31 <= x * 2 ^ n < 2 ^ 31 →
                  js_or (Num (x * 2 ^ n)) (Num y) = x * 2 ^ n + y).
  { intros x y n Hn Hy Hsum Hx. unfold js_or, ToInt32.
    assert (2 ^ n <= 2 ^ 31) by (apply Z.pow_le_mono_r; lia).
    rewrite (wrap32_small (x * 2 ^ n)) by lia.
    rewrite (wrap32_small y) by lia.
    assert (Hlor : Z.lor (x * 2 ^ n) y = x * 2 ^ n + y).
    { rewrite <- (Z.shiftl_mul_pow2 x n) by lia. rewrite lor_shiftl_add by lia.
      rewrite Z.shiftl_mul_pow2 by lia. reflexivity. }
    rewrite Hlor. apply wrap32_small. lia. }
  assert (E1 : js_or (Num (a' * 16777216)) (Num (b * 65536)) = (a' * 256 + b) * 65536).
  { pose proof (Hor a' (b * 65536) 24) as E. change (2 ^ 24) with 16777216 in E.
    change (2 ^ 31) with 2147483648 in E. rewrite E by lia. lia. }
  assert (E2 : js_or (Num ((a' * 256 + b) * 65536)) (Num (c * 256))
               = (a' * 65536 + b * 256 + c) * 256).
  { pose proof (Hor (a' * 256 + b) (c * 256) 16) as E. change (2 ^ 16) with 65536 in E.
    change (2 ^ 31) with 2147483648 in E. rewrite E by lia. lia. }
  assert (E3 : js_or (Num ((a' * 65536 + b * 256 + c) * 256)) (Num d)
               = (a' * 65536 + b * 256 + c) * 256 + d).
  { pose proof (Hor (a' * 65536 + b * 256 + c) d 8) as E. change (2 ^ 8) with 256 in E.
    change (2 ^ 31) with 2147483648 in E. rewrite E by lia. lia. }
  rewrite E1, E2, E3. lia.
Qed.

Section ParserBounds2.
Context `{Platform}.

(** The four length bytes of a record in the long form, as
    [parseNDEFRecord] reads them. *)
Lemma readPayloadLength_long (pre post : list byte) (a b c d : byte) :
  readPayloadLength (pre ++ [a; b; c; d] ++ post) false (len pre)
  = OK (Num (wrap32 (byte_to_Z a * 2 ^ 24 + byte_to_Z b * 2 ^ 16
                     + byte_to_Z c * 2 ^ 8 + byte_to_Z d)),
        Num (Z.of_nat (length pre) + 4)).
Proof.
  pose proof (byte_to_Z_range a) as Ha. pose proof (byte_to_Z_range b) as Hb.
  pose proof (byte_to_Z_range c) as Hc. pose proof (byte_to_Z_range d) as Hd.
  set (data := pre ++ [a; b; c; d] ++ post).
  set (p := Z.of_nat (length pre)).
  assert (Hlen : Z.of_nat (length data) = p + 4 + Z.of_nat (length post)).
  { subst data p. rewrite !length_app. simpl length. lia. }
  unfold readPayloadLength, len. fold p. cbn [num_add].
  rewrite num_gtb_inside by lia.
  rewrite (index_at data pre ([b; c; d] ++ post) a p eq_refl eq_refl).
  rewrite (index_at data (pre ++ [a]) ([c; d] ++ post) b (p + 1));
    [| subst data; rewrite <- !app_assoc; reflexivity
     | rewrite length_app; simpl; subst p; lia].
  rewrite (index_at data (pre ++ [a; b]) ([d] ++ post) c (p + 2));
    [| subst data; rewrite <- !app_assoc; reflexivity
     | rewrite length_app; simpl; subst p; lia].
  rewrite (index_at data (pre ++ [a; b; c]) post d (p + 3));
    [| subst data; rewrite <- !app_assoc; reflexivity
     | rewrite length_app; simpl; subst p; lia].
  rewrite js_be32_signed by assumption. reflexivity.
Qed.

(** X10.  The four PAYLOAD_LENGTH bytes of a record without the
    short-record flag are read as a signed 32-bit big-endian number, and
    the cursor moves four bytes on: the length read is negative exactly
    when the first of the four bytes is 0x80 or more. *)
Theorem long_payload_length_is_signed (pre post : list byte) (a b c d : byte) :
  readPayloadLength (pre ++ [a; b; c; d] ++ post) false (len pre)
  = OK (Num (wrap32 (byte_to_Z a * 2 ^ 24 + byte_to_Z b * 2 ^ 16
                     + byte_to_Z c * 2 ^ 8 + byte_to_Z d)),
        Num (Z.of_nat (length pre) + 4))
  ∧ (wrap32 (byte_to_Z a * 2 ^ 24 + byte_to_Z b * 2 ^ 16
             + byte_to_Z c * 2 ^ 8 + byte_to_Z d) < 0
     ↔ 128 <= byte_to_Z a).
Proof.
  pose proof (byte_to_Z_range a) as Ha. pose proof (byte_to_Z_range b) as Hb.
  pose proof (byte_to_Z_range c) as Hc. pose proof (byte_to_Z_range d) as Hd.
  split.
  - apply readPayloadLength_long.
  - unfold wrap32. change (2 ^ 31) with 2147483648. change (2 ^ 32) with 4294967296.
    change (2 ^ 24) with 16777216. change (2 ^ 16) with 65536. change (2 ^ 8) with 256.
    split; intros Hneg.
    + destruct (Z.lt_ge_cases (byte_to_Z a) 128) as [Hlt|Hge]; [|exact Hge].
      rewrite Z.mod_small in Hneg by lia. lia.
    + replace (byte_to_Z a * 16777216 + byte_to_Z b * 65536 + byte_to_Z c * 256
               + byte_to_Z d + 2147483648)
        with ((byte_to_Z a - 256) * 16777216 + byte_to_Z b * 65536 + byte_to_Z c * 256
              + byte_to_Z d + 2147483648 + 1 * 4294967296) by lia.
      rewrite Z.mod_add by lia. rewrite Z.mod_small by lia. lia.
Qed.

(** Where a successful call of [parseNDEFRecord] leaves the cursor. *)
Lemma parseNDEFRecord_advance (data : list byte) (off : Z) (res : ParsedNDEFRecordResult) :
  0 <= off →
  parseNDEFRecord data (Num off) = OK res →
  ∃ next,
    nextOffset res = Num next
    ∧ next <= Z.of_nat (length data)
    ∧ off + 3 <= Z.of_nat (length data)
    ∧ (flag (index data (Num off)) 0x10 = true
       ∨ num_ltb (index data (Num (off + 2))) (Num 0x80) = true →
       off + 3 + Z.of_nat (length (rawPayload (parsed_record res) ())) <= next).
Proof.
  intros Hoff Hparse.
  apply parseNDEFRecord_OK in Hparse
    as (header & pl & o1 & idl & o2 & idBytes & o3
        & H1 & Hh & H2 & Hpl & Hil & H3 & Hid & H4 & Hr & Hnext & _).
  unfold len in *. cbn [num_add] in *.
  apply num_geb_false in H1. apply num_geb_false in H2.
  destruct (index_inside data (off + 1) ltac:(lia)) as (tl & Htl & Htlr).
  rewrite Htl in *.
  apply parseNDEFRecordHeader_short in Hh as [Hsr _].
  assert (Hstage1 : ∃ p k, pl = Num p ∧ o1 = Num k ∧ off + 3 <= k <= Z.of_nat (length data)
                           ∧ (flag (index data (Num off)) 16 = true
                              ∨ num_ltb (index data (Num (off + 2))) (Num 128) = true
                              → 0 <= p)).
  { unfold readPayloadLength in Hpl. rewrite Hsr in Hpl.
    destruct (flag (index data (Num off)) 16).
    - destruct (num_geb _ _) eqn:Hg in Hpl; [discriminate|]. apply num_geb_false in Hg.
      destruct (index_inside data (off + 1 + 1) ltac:(lia)) as (p & Hp & Hpr).
      rewrite Hp in Hpl. injection Hpl as <- <-.
      exists p, (off + 1 + 1 + 1). repeat split; lia.
    - cbn [num_add] in Hpl.
      destruct (num_gtb _ _) eqn:Hg in Hpl; [discriminate|]. apply num_gtb_false in Hg.
      destruct (index_inside data (off + 1 + 1) ltac:(lia)) as (a & Ia & Ra).
      destruct (index_inside data (off + 1 + 1 + 1) ltac:(lia)) as (b & Ib & Rb).
      destruct (index_inside data (off + 1 + 1 + 2) ltac:(lia)) as (c & Ic & Rc).
      destruct (index_inside data (off + 1 + 1 + 3) ltac:(lia)) as (d & Id & Rd).
      rewrite Ia, Ib, Ic, Id, js_be32_signed in Hpl by assumption.
      injection Hpl as <- <-. eexists _, _. split; [reflexivity|]. split; [reflexivity|].
      split; [lia|]. intros [Hf | Hhigh]; [discriminate|].
      replace (off + 2) with (off + 1 + 1) in Hhigh by lia. rewrite Ia in Hhigh.
      unfold num_ltb in Hhigh. apply Z.ltb_lt in Hhigh.
      unfold wrap32. change (2 ^ 31) with 2147483648. change (2 ^ 32) with 4294967296.
      change (2 ^ 24) with 16777216. change (2 ^ 16) with 65536. change (2 ^ 8) with 256.
      rewrite Z.mod_small by lia. lia. }
  destruct Hstage1 as (p & k & -> & -> & Hk & Hp).
  assert (Hstage2 : ∃ i k2, idl = Num i ∧ o2 = Num k2 ∧ 0 <= i ∧ k <= k2 <= Z.of_nat (length data)).
  { unfold readIdLength in Hil.
    destruct (NDEFRecordHeader.idLengthFlag header).
    - destruct (num_geb _ _) eqn:Hg in Hil; [discriminate|]. apply num_geb_false in Hg.
      destruct (index_inside data k ltac:(lia)) as (i & Hi & Hir).
      rewrite Hi in Hil. injection Hil as <- <-.
      exists i, (k + 1). repeat split; lia.
    - injection Hil as <- <-. exists 0, k. repeat split; lia. }
  destruct Hstage2 as (i & k2 & -> & -> & Hi & Hk2).
  cbn [num_add] in *. apply num_gtb_false in H3.
  assert (Hstage3 : ∃ k3, o3 = Num k3 ∧ k2 + tl <= k3 <= Z.of_nat (length data)).
  { unfold readId in Hid.
    destruct (NDEFRecordHeader.idLengthFlag header).
    - cbn [num_add] in Hid.
      destruct (num_gtb _ _) eqn:Hg in Hid; [discriminate|]. apply num_gtb_false in Hg.
      injection Hid as <- <-. eexists. split; [reflexivity | lia].
    - injection Hid as <- <-. eexists. split; [reflexivity | lia]. }
  destruct Hstage3 as (k3 & -> & Hk3).
  cbn [num_add] in *. apply num_gtb_false in H4.
  exists (k3 + p). split; [exact Hnext|]. split; [exact H4|]. split; [lia|].
  intros Hshort. specialize (Hp Hshort).
  apply createNDEFRecordFromRawData_fields in Hr as (_ & _ & _ & -> & _).
  rewrite slice_inside by lia. rewrite length_take, length_drop. lia.
Qed.

(** X11.  When [parseNDEFRecord] is called with a cursor that is not
    negative and returns a record, the cursor it returns is not behind
    the end of the buffer; and if the record is short, or the first of its
    four length bytes is below 0x80, the cursor has moved on by at least
    three bytes and the payload. *)
Theorem parseNDEFRecord_bounds (data : list byte) (off : Z) (res : ParsedNDEFRecordResult) :
  0 <= off →
  parseNDEFRecord data (Num off) = OK res →
  ∃ next,
    nextOffset res = Num next
    ∧ next <= Z.of_nat (length data)
    ∧ (flag (index data (Num off)) 0x10 = true
       ∨ num_ltb (index data (Num (off + 2))) (Num 0x80) = true →
       off + 3 + Z.of_nat (length (rawPayload (parsed_record res) ())) <= next).
Proof.
  intros Hoff Hparse.
  destruct (parseNDEFRecord_advance data off res Hoff Hparse)
    as (next & Hnext & Hle & _ & Hadvance).
  exists next. split; [exact Hnext|]. split; [exact Hle | exact Hadvance].
Qed.

Lemma length_stripLeadingTrailingZeros (data : list byte) :
  (length (stripLeadingTrailingZeros data) <= length data)%nat.
Proof.
  destruct (stripLeadingTrailingZeros_ends data) as (a & b & Heq & _).
  rewrite Heq at 2. rewrite !length_app. lia.
Qed.

End ParserBounds2.

(** ** Records through encoder and parser *)

Section Backward.
Context `{Platform}.

Lemma parseNDEFRecord_backward (t : TNF) (mb : bool) (pre post : list byte) :
  parseNDEFRecord (pre ++ backwardRecord t mb ++ post) (len pre)
  = (r ← createNDEFRecordFromRawData t [] [] None;
     OK {| parsed_record := r; nextOffset := len pre; isMessageEnd := false |}).
Proof.
  unfold backwardRecord.
  destruct (constructHeaderByte_layout mb false false false t)
    as (b & -> & _ & _ & _ & _ & _ & _ & Hparse).
  set (p := Z.of_nat (length pre)).
  remember (pre ++ ([b] ++ [x00; xff; xff; xff; xfa]) ++ post) as data eqn:Hdata.
  assert (Hlen : Z.of_nat (length data) = p + 6 + Z.of_nat (length post)).
  { rewrite Hdata. rewrite !length_app. simpl length. subst p. lia. }
  assert (Hshape : ∀ l1 x l2, pre ++ l1 ++ x :: l2 ++ post = data →
                     index data (Num (p + Z.of_nat (length l1))) = Num (byte_to_Z x)).
  { intros l1 x l2 Hd. apply (index_at data (pre ++ l1) (l2 ++ post) x).
    - rewrite <- Hd, <- !app_assoc. reflexivity.
    - rewrite length_app. subst p. lia. }
  pose proof (Hshape [] b [x00; xff; xff; xff; xfa] ltac:(rewrite Hdata; reflexivity)) as I0.
  pose proof (Hshape [b] x00 [xff; xff; xff; xfa] ltac:(rewrite Hdata; reflexivity)) as I1.
  pose proof (Hshape [b; x00] xff [xff; xff; xfa] ltac:(rewrite Hdata; reflexivity)) as I2.
  pose proof (Hshape [b; x00; xff] xff [xff; xfa] ltac:(rewrite Hdata; reflexivity)) as I3.
  pose proof (Hshape [b; x00; xff; xff] xff [xfa] ltac:(rewrite Hdata; reflexivity)) as I4.
  pose proof (Hshape [b; x00; xff; xff; xff] xfa [] ltac:(rewrite Hdata; reflexivity)) as I5.
  simpl length in I0, I1, I2, I3, I4, I5.
  rewrite Z.add_0_r in I0. change (Z.of_nat 1) with 1 in I1.
  change (Z.of_nat 2) with 2 in I2. change (Z.of_nat 3) with 3 in I3.
  change (Z.of_nat 4) with 4 in I4. change (Z.of_nat 5) with 5 in I5.
  rewrite parseNDEFRecord_stages.
  unfold parseNDEFRecord_staged, readPayloadLength, readIdLength, readId, len. fold p.
  rewrite num_geb_inside by lia. rewrite I0, Hparse, bind_OK. cbn [num_add].
  unfold NDEFRecordHeader.shortRecordFlag, NDEFRecordHeader.idLengthFlag,
    NDEFRecordHeader.tnf, NDEFRecordHeader.messageEndFlag.
  rewrite num_geb_inside by lia. rewrite I1. cbn [num_add].
  rewrite num_gtb_inside by lia.
  replace (p + 1 + 1) with (p + 2) by lia.
  replace (p + 2 + 1) with (p + 3) by lia.
  replace (p + 2 + 2) with (p + 4) by lia.
  replace (p + 2 + 3) with (p + 5) by lia.
  rewrite I2, I3, I4, I5.
  change (js_or (Num (js_or (Num (js_or (Num (js_shl (Num (byte_to_Z xff)) (Num 24)))
            (Num (js_shl (Num (byte_to_Z xff)) (Num 16)))))
            (Num (js_shl (Num (byte_to_Z xff)) (Num 8))))) (Num (byte_to_Z xfa)))
    with (-6).
  rewrite !bind_OK. cbv beta iota. cbn [num_add]. change (byte_to_Z x00) with 0.
  rewrite num_gtb_inside by lia. rewrite ?bind_OK. cbv beta iota. cbn [num_add].
  rewrite num_gtb_inside by lia.
  assert (Hty : slice data (Num (p + 2 + 4)) (Num (p + 2 + 4 + 0)) = []).
  { rewrite slice_inside by lia. replace (p + 2 + 4 + 0 - (p + 2 + 4)) with 0 by lia.
    reflexivity. }
  assert (Hpay : slice data (Num (p + 2 + 4 + 0)) (Num (p + 2 + 4 + 0 + -6)) = []).
  { unfold slice. simpl ToInteger. rewrite !relative_index_inside by lia.
    replace (Z.to_nat (p + 2 + 4 + 0 + -6 - (p + 2 + 4 + 0))) with 0%nat by lia.
    reflexivity. }
  rewrite Hty, Hpay.
  replace (p + 2 + 4 + 0 + -6) with p by lia.
  reflexivity.
Qed.

Lemma parseRecords_backward (t : TNF) (mb : bool) (pre post : list byte) (fuel : nat)
  (acc : list BaseNDEFRecord) :
  t ≠ well_known →
  parseRecords fuel (pre ++ backwardRecord t mb ++ post) (len pre) acc = None.
Proof.
  intros Ht.
  assert (Hlt : num_ltb (len pre) (len (pre ++ backwardRecord t mb ++ post)) = true).
  { unfold num_ltb, len. apply Z.ltb_lt. rewrite !length_app. unfold backwardRecord.
    rewrite length_app. simpl. lia. }
  revert acc. induction fuel as [|fuel IH]; intros acc.
  - cbn [parseRecords]. rewrite Hlt. reflexivity.
  - rewrite parseRecords_step by exact Hlt.
    rewrite parseNDEFRecord_backward.
    destruct t; try congruence; apply IH.
Qed.

End Backward.

Section BackwardMessage.
Context `{Platform}.

Lemma length_backwardRecord (t : TNF) (mb : bool) (post : list byte) :
  Z.of_nat (length (backwardRecord t mb ++ post)) = 6 + Z.of_nat (length post).
Proof. unfold backwardRecord. rewrite !length_app. simpl. lia. Qed.

(** X13.  A long record without type and id, of a category other than
    well-known, whose length bytes are FF FF FF FA has the payload length
    -6 and leaves the cursor where it was.  From such a record on,
    wherever it stands in the data, the loop of [parseNDEFMessage] reads
    the same record again and again, and no number of passes ends it; so
    [parseNDEFMessage] does not return for a TLV block whose value starts
    with such a record. *)
Theorem negative_payload_length_never_ends (t : TNF) (mb : bool) (pre post : list byte)
  (fuel : nat) :
  t ≠ well_known →
  (∀ acc, parseRecords fuel (pre ++ backwardRecord t mb ++ post) (len pre) acc = None)
  ∧ (Z.of_nat (length post) <= 248 →
     parseNDEFMessage fuel
       ([x03; to_uint8 (6 + Z.of_nat (length post))]
          ++ (backwardRecord t mb ++ post) ++ [xfe])
     = None).
Proof.
  intros Ht. split.
  - intros acc. exact (parseRecords_backward t mb pre post fuel acc Ht).
  - intros Hpost. unfold parseNDEFMessage.
    rewrite stripLeadingTrailingZeros_envelope.
    pose proof (length_backwardRecord t mb post) as Hlen.
    rewrite <- Hlen.
    rewrite (validateAndStripTLV_envelope (backwardRecord t mb ++ post)) by lia.
    assert (Hne : num_eqb (len (backwardRecord t mb ++ post)) (Num 0) = false).
    { unfold num_eqb, len. apply Z.eqb_neq. lia. }
    rewrite Hne.
    assert (Hne' : ∀ l : list byte, l ≠ [] → num_eqb (len l) (Num 0) = false).
    { intros l Hl. destruct l; [congruence | reflexivity]. }
    rewrite Hne' by discriminate.
    exact (parseRecords_backward t mb [] post fuel [] Ht).
Qed.

End BackwardMessage.

Lemma negative_payload_length_never_ends_witness :
  @parseNDEFMessage example_platform 1000
    [x03; x06; x05; x00; xff; xff; xff; xfa; xfe] = None.
Proof.
  refine (proj2 (@negative_payload_length_never_ends example_platform unknown false
                   [] [] 1000 _) _).
  - discriminate.
  - simpl. lia.
Defined.

Section RecordCodec.
Context `{Platform}.

(** X14.  [parseNDEFRecord] reads back what [constructBytesFromRecordInfo]
    wrote, for every record, of any category, short or long, with or
    without an id, whose payload has less than 2^31 bytes and is not a URI
    payload the parser rejects, and wherever the encoding stands in the
    buffer: the record returned has the same category and payload bytes
    and the decoded type and id, the cursor stands right behind the
    encoding, and the end flag is the one of the encoding. *)
Theorem record_codec_round_trip (pre post bytes : list byte) (info : RecordInfo) :
  constructBytesFromRecordInfo info = OK bytes →
  Z.of_nat (length (rawPayload (record info) ())) < 2 ^ 31 →
  ¬ (tnf (record info) = well_known
     ∧ TextDecoder_decode (rawType (record info) ()) = "U"
     ∧ badURIPayload (rawPayload (record info) ()) = true) →
  ∃ r, parseNDEFRecord (pre ++ bytes ++ post) (len pre)
       = OK {| parsed_record := r;
               nextOffset := len (pre ++ bytes);
               isMessageEnd := isEnd info |}
       ∧ tnf r = tnf (record info)
       ∧ type r = TextDecoder_decode (rawType (record info) ())
       ∧ id r = (TextDecoder_decode <$> rawId (record info) ())
       ∧ rawPayload r () = rawPayload (record info) ()
       ∧ parsedRecordInvariant r.
Proof.
  intros Henc Hfit Hgood.
  rewrite (parseNDEFRecord_constructed pre post info bytes Henc Hfit).
  destruct (createNDEFRecordFromRawData (tnf (record info)) (rawType (record info) ())
              (rawPayload (record info) ()) (rawId (record info) ())) as [r|e] eqn:Hr.
  - exists r. rewrite bind_OK. split; [reflexivity|].
    pose proof (createNDEFRecordFromRawData_invariant _ _ _ _ _ Hr) as Hinv.
    apply createNDEFRecordFromRawData_fields in Hr as (Ht & Hty & Hid & Hp & _).
    auto.
  - exfalso. apply Hgood.
    destruct (createNDEFRecordFromRawData_Err_inv _ _ _ _ _ Hr) as (Ht & Hty & Hbad & _).
    auto.
Qed.

(** The encoding of a record depends on its category, its three byte
    fields and the two flags only. *)
Lemma constructBytesFromRecordInfo_ext (info info' : RecordInfo) :
  tnf (record info') = tnf (record info) →
  rawPayload (record info') () = rawPayload (record info) () →
  rawType (record info') () = rawType (record info) () →
  rawId (record info') () = rawId (record info) () →
  isBeginning info' = isBeginning info →
  isEnd info' = isEnd info →
  constructBytesFromRecordInfo info' = constructBytesFromRecordInfo info.
Proof.
  intros Ht Hp Hty Hid Hb He. unfold constructBytesFromRecordInfo.
  rewrite Ht, Hp, Hty, Hid, Hb, He. reflexivity.
Qed.

(** X15.  The record the parser makes of the fields of a record encodes to
    the same bytes as that record, under the same flags, when the type
    and id bytes are the UTF-8 encoding of the text they decode to and the
    id is not the empty string. *)
Theorem parsed_record_reencodes (info : RecordInfo) (r : BaseNDEFRecord) :
  reparse (record info) = OK r →
  reencodable (record info) →
  constructBytesFromRecordInfo (mkInfo r (isBeginning info) (isEnd info))
  = constructBytesFromRecordInfo info.
Proof.
  intros Hr [Hty Hid]. unfold reparse in Hr.
  apply createNDEFRecordFromRawData_fields in Hr as (Ht & _ & _ & Hp & Hrt & Hri & _).
  apply constructBytesFromRecordInfo_ext; simpl; try assumption; try reflexivity.
  - rewrite Hrt. exact Hty.
  - rewrite Hri. destruct (rawId (record info) ()) as [i|]; [|reflexivity].
    destruct Hid as [Hne Henc]. simpl. unfold truthy.
    destruct (String.eqb_spec (TextDecoder_decode i) "") as [He|_]; [congruence|].
    simpl. rewrite Henc. reflexivity.
Qed.

(** X16.  A record whose id bytes decode to the empty string comes back
    from the parser with the empty string as id but without id bytes: the
    encoding of the original has the ID-length flag, bit 3 of the header byte, set
    and the encoding of the parsed record has it clear, so that the two
    differ. *)
Theorem empty_id_is_lost_on_reencode (info : RecordInfo) (r : BaseNDEFRecord)
  (i bytes bytes' : list byte) :
  reparse (record info) = OK r →
  rawId (record info) () = Some i →
  TextDecoder_decode i = "" →
  constructBytesFromRecordInfo info = OK bytes →
  constructBytesFromRecordInfo (mkInfo r (isBeginning info) (isEnd info)) = OK bytes' →
  id r = Some "" ∧ rawId r () = None
  ∧ (∃ b l, bytes = b :: l ∧ Z.testbit (byte_to_Z b) 3 = true)
  ∧ (∃ b' l', bytes' = b' :: l' ∧ Z.testbit (byte_to_Z b') 3 = false).
Proof.
  intros Hr Hid Hdec Henc Henc'. unfold reparse in Hr.
  apply createNDEFRecordFromRawData_fields in Hr as (Ht & _ & Hi & Hp & _ & Hri & _).
  rewrite Hid in Hi, Hri. simpl in Hi, Hri. rewrite Hdec in Hi, Hri. simpl in Hri.
  split; [exact Hi|]. split; [exact Hri|].
  apply constructBytesFromRecordInfo_OK in Henc as (_ & _ & _ & ->).
  apply constructBytesFromRecordInfo_OK in Henc' as (_ & _ & _ & ->).
  simpl record. rewrite Hid, Hri.
  split.
  - destruct (constructHeaderByte_layout (isBeginning info) (isEnd info)
                (num_ltb (len (rawPayload (record info) ())) (Num 256)) true
                (tnf (record info))) as (b & -> & _ & _ & _ & _ & Hil & _).
    eexists _, _. split; [reflexivity | exact Hil].
  - simpl isBeginning. simpl isEnd.
    destruct (constructHeaderByte_layout (isBeginning info) (isEnd info)
                (num_ltb (len (rawPayload r ())) (Num 256)) false
                (tnf r)) as (b & -> & _ & _ & _ & _ & Hil & _).
    eexists _, _. split; [reflexivity | exact Hil].
Qed.

End RecordCodec.

Section LongForm.
Context `{Platform}.

(** Unwrapping the envelope with the three-byte length. *)
Lemma validateAndStripTLV_long_envelope (value : list byte) :
  Z.of_nat (length value) <= 65535 →
  validateAndStripTLV
    ([x03; xff; to_uint8 (Z.of_nat (length value) / 256);
      to_uint8 (Z.of_nat (length value) mod 256)] ++ value ++ [xfe])
  = OK value.
Proof.
  intros Hlen. set (n := Z.of_nat (length value)) in *.
  set (data := [x03; xff; to_uint8 (n / 256); to_uint8 (n mod 256)] ++ value ++ [xfe]).
  assert (Hn : length data = (length value + 5)%nat)
    by (subst data; simpl; rewrite length_app; simpl; lia).
  assert (Hhi : 0 <= n / 256 < 256) by (subst n; Z.to_euclidean_division_equations; lia).
  assert (Hlo : 0 <= n mod 256 < 256) by (apply Z.mod_pos_bound; lia).
  assert (H0 : byteAt data 0 = 3) by reflexivity.
  assert (H1 : byteAt data 1 = 255) by reflexivity.
  assert (H2 : byteAt data 2 = n / 256).
  { unfold byteAt. simpl. apply byte_to_Z_to_uint8. exact Hhi. }
  assert (H3 : byteAt data 3 = n mod 256).
  { unfold byteAt. simpl. apply byte_to_Z_to_uint8. exact Hlo. }
  assert (Hl : byteAt data (length data - 1) = 254).
  { unfold byteAt. rewrite Hn. subst data.
    replace (length value + 5 - 1)%nat
      with (length ([x03; xff; to_uint8 (n / 256); to_uint8 (n mod 256)] ++ value) + 0)%nat
      by (rewrite length_app; simpl; lia).
    rewrite app_assoc, lookup_app_r by lia.
    replace (_ + 0 - _)%nat with 0%nat by lia. reflexivity. }
  assert (Hlong : tlvLongForm data = true) by (unfold tlvLongForm; rewrite H1; reflexivity).
  assert (Hdecl : tlvDeclaredLength data = n).
  { unfold tlvDeclaredLength. rewrite Hlong, H2, H3.
    Z.to_euclidean_division_equations; lia. }
  assert (Hrej : tlvRejected data || tlvFourByteGuard data = false).
  { unfold tlvRejected, tlvFourByteGuard, tlvHeaderSize. rewrite Hdecl, Hlong, H0, Hl, Hn.
    simpl negb. simpl orb.
    destruct (Z.ltb_spec (Z.of_nat (length value + 5)) 3); [lia|].
    destruct (Z.ltb_spec (Z.of_nat (length value + 5)) 5); [lia|].
    destruct (Z.eqb_spec (Z.of_nat (length value + 5)) (4 + n + 1)); [|subst n; lia].
    destruct (Z.eqb_spec (Z.of_nat (length value + 5)) 4); [lia|]. reflexivity. }
  pose proof (validateAndStripTLV_cases data) as Hc.
  destruct (validateAndStripTLV data) as [v|e].
  - destruct Hc as [_ ->]. f_equal. unfold tlvValue, tlvHeaderSize.
    rewrite Hdecl, Hlong. subst data n. simpl drop. rewrite Nat2Z.id. apply take_app_length.
  - congruence.
Qed.

(** X17.  [parseNDEFMessage] reads the long form of the TLV length: for
    the record bytes of a non-empty message, up to 65535 of them, between
    03 FF, the two length bytes (most significant first) and FE, it
    returns the records rebuilt from their encodings.  [toBytes] writes
    the short form only. *)
Theorem long_form_envelope_is_parsed (records : list BaseNDEFRecord)
  (bs : list (list byte)) (fuel : nat) :
  records ≠ [] →
  mapM constructBytesFromRecordInfo (recordInfos records) = OK bs →
  Z.of_nat (length (concat bs)) <= 65535 →
  parseNDEFMessage (length records + fuel)
    ([x03; xff; to_uint8 (Z.of_nat (length (concat bs)) / 256);
      to_uint8 (Z.of_nat (length (concat bs)) mod 256)] ++ concat bs ++ [xfe])
  = Some (mapM reparse records).
Proof.
  intros Hne Hbs Hlen.
  rewrite <- (length_infosFrom records 0 (length records)).
  rewrite <- recordInfos_infosFrom.
  rewrite (parseNDEFMessage_untilMessageEnd _ [] (recordInfos records) bs fuel).
  - rewrite recordInfos_infosFrom, untilMessageEnd_infosFrom by reflexivity. reflexivity.
  - rewrite app_nil_r.
    rewrite (stripLeadingTrailingZeros_fixed
               ([x03; xff; to_uint8 (Z.of_nat (length (concat bs)) / 256);
                 to_uint8 (Z.of_nat (length (concat bs)) mod 256)] ++ concat bs ++ [xfe])).
    + apply validateAndStripTLV_long_envelope. exact Hlen.
    + discriminate.
    + change ([x03; xff; to_uint8 (Z.of_nat (length (concat bs)) / 256);
               to_uint8 (Z.of_nat (length (concat bs)) mod 256)] ++ concat bs ++ [xfe])
        with (x03 :: xff :: to_uint8 (Z.of_nat (length (concat bs)) / 256)
                :: to_uint8 (Z.of_nat (length (concat bs)) mod 256) :: concat bs ++ [xfe]).
      rewrite !last_cons. rewrite last_snoc. discriminate.
  - exact Hbs.
  - intros Hnil. apply Hne. exact (recordInfos_nil records Hnil).
  - right. reflexivity.
Qed.

End LongForm.

Lemma long_form_envelope_is_parsed_witness :
  ∃ r, @parseNDEFMessage example_platform 1
         ([x03; xff; x01; x06; xd2; x09; xfa] ++ TextEncoder_encode "image/png"
            ++ replicate 250 x00 ++ [xfe])
       = Some (OK [r])
       ∧ rawPayload r () = replicate 250 x00.
Proof.
  pose proof (@long_form_envelope_is_parsed example_platform
                [createNDEFRecordMediaImagePNG
                   (BaseNDEFRecordOptions.mk (Uint8Array (replicate 250 x00)) None)]
                [[xd2; x09; xfa] ++ TextEncoder_encode "image/png" ++ replicate 250 x00]
                0%nat ltac:(discriminate) ltac:(vm_compute; reflexivity)
                ltac:(vm_compute; discriminate)) as Hparse.
  eexists. split; [exact Hparse | reflexivity].
Defined.

(** ** Messages through encoder and parser *)

Section Reserialise.
Context `{Platform}.

Lemma reparse_reencodes (r r' : BaseNDEFRecord) (mb me : bool) :
  reparse r = OK r' → reencodable r →
  constructBytesFromRecordInfo (mkInfo r' mb me)
  = constructBytesFromRecordInfo (mkInfo r mb me).
Proof.
  intros Hr [Hty Hid]. unfold reparse in Hr.
  apply createNDEFRecordFromRawData_fields in Hr as (Ht & _ & _ & Hp & Hrt & Hri & _).
  apply constructBytesFromRecordInfo_ext; simpl; try assumption; try reflexivity.
  - rewrite Hrt. exact Hty.
  - rewrite Hri. destruct (rawId r ()) as [i|]; [|reflexivity].
    destruct Hid as [Hne Henc]. simpl. unfold truthy.
    destruct (String.eqb_spec (TextDecoder_decode i) "") as [He|_]; [congruence|].
    simpl. rewrite Henc. reflexivity.
Qed.

Lemma mapM_reparse_length (records rs : list BaseNDEFRecord) :
  mapM reparse records = OK rs → length rs = length records.
Proof.
  revert rs. induction records as [|r records IH]; intros rs Hrs.
  - injection Hrs as <-. reflexivity.
  - simpl in Hrs. destruct (reparse r) as [r'|e]; [|discriminate].
    destruct (mapM reparse records) as [rs'|e]; [|discriminate].
    injection Hrs as <-. simpl. rewrite (IH rs' eq_refl). reflexivity.
Qed.

Lemma mapM_encode_reparsed (records : list BaseNDEFRecord) :
  ∀ (rs : list BaseNDEFRecord) (k n : nat),
    mapM reparse records = OK rs → Forall reencodable records →
    mapM constructBytesFromRecordInfo (infosFrom k n rs)
    = mapM constructBytesFromRecordInfo (infosFrom k n records).
Proof.
  induction records as [|r records IH]; intros rs k n Hrs Hall.
  - injection Hrs as <-. reflexivity.
  - simpl in Hrs. destruct (reparse r) as [r'|e] eqn:Hr; [|discriminate].
    destruct (mapM reparse records) as [rs'|e] eqn:Hrs'; [|discriminate].
    injection Hrs as <-. inversion Hall as [|? ? Hr0 Hall']; subst.
    rewrite !infosFrom_cons. simpl mapM.
    rewrite (reparse_reencodes r r' _ _ Hr Hr0).
    rewrite (IH rs' (S k) n eq_refl Hall'). reflexivity.
Qed.

(** What [toBytes] has returned bytes for. *)
Lemma toBytes_OK (records : list BaseNDEFRecord) (bytes : list byte) :
  toBytes records = OK bytes → records ≠ [] →
  ∃ bs, mapM constructBytesFromRecordInfo (recordInfos records) = OK bs
        ∧ Z.of_nat (length (concat bs)) <= 254
        ∧ bytes = [x03; to_uint8 (Z.of_nat (length (concat bs)))] ++ concat bs ++ [xfe].
Proof.
  intros Hbytes Hne. unfold toBytes in Hbytes.
  destruct (mapM constructBytesFromRecordInfo (recordInfos records)) as [bs|e] eqn:Hbs.
  - rewrite (constructBytes_cases (recordInfos records) bs
               (fun Hnil => Hne (recordInfos_nil records Hnil)) Hbs
               (markers_recordInfos records Hne)) in Hbytes.
    destruct (Z.leb_spec (Z.of_nat (length (concat bs))) 254); [|discriminate].
    injection Hbytes as <-. exists bs. auto.
  - unfold constructBytes in Hbytes.
    rewrite (recordInfos_nonempty records Hne), constructBytes_loop_spec, Hbs in Hbytes.
    discriminate.
Qed.

(** X18.  Encoding, parsing and encoding again gives the same bytes: when
    [toBytes] returns bytes for a message whose records have type and id
    bytes that are the UTF-8 encoding of their decoded text and no empty
    id, and [parseNDEFMessage] returns a message for these bytes, then
    [toBytes] of the message parsed returns the same bytes. *)
Theorem reserialising_a_parsed_message (records rs : list BaseNDEFRecord)
  (bytes : list byte) (fuel : nat) :
  toBytes records = OK bytes →
  parseNDEFMessage (length records + fuel) bytes = Some (OK rs) →
  Forall reencodable records →
  toBytes rs = OK bytes.
Proof.
  intros Hbytes Hparse Hall.
  destruct records as [|r0 records0].
  { injection Hbytes as <-. injection Hparse as <-. reflexivity. }
  set (records := r0 :: records0) in *.
  assert (Hne : records ≠ []) by discriminate.
  destruct (toBytes_OK records bytes Hbytes Hne) as (bs & Hbs & Hlen & ->).
  assert (Hlen2 : 2 <= Z.of_nat (length (concat bs))).
  { subst records. rewrite recordInfos_infosFrom, infosFrom_cons in Hbs. simpl in Hbs.
    destruct (constructBytesFromRecordInfo _) as [b|e] eqn:Hb; [|discriminate].
    destruct (mapM constructBytesFromRecordInfo _) as [bs'|e]; [|discriminate].
    injection Hbs as <-. apply constructBytesFromRecordInfo_nonempty in Hb.
    simpl. rewrite length_app. lia. }
  assert (Hrs : mapM reparse records = OK rs).
  { rewrite <- (length_infosFrom records 0 (length records)) in Hparse.
    rewrite <- recordInfos_infosFrom in Hparse.
    rewrite (parseNDEFMessage_untilMessageEnd _ [] (recordInfos records) bs fuel) in Hparse.
    - rewrite recordInfos_infosFrom, untilMessageEnd_infosFrom in Hparse by reflexivity.
      congruence.
    - rewrite stripLeadingTrailingZeros_envelope, app_nil_r.
      apply validateAndStripTLV_envelope. lia.
    - exact Hbs.
    - intros Hnil. apply Hne. exact (recordInfos_nil records Hnil).
    - right. reflexivity. }
  pose proof (mapM_reparse_length records rs Hrs) as Hcount.
  assert (Hne' : rs ≠ []) by (intros ->; subst records; discriminate Hcount).
  assert (Hbs' : mapM constructBytesFromRecordInfo (recordInfos rs) = OK bs).
  { rewrite recordInfos_infosFrom, Hcount.
    rewrite (mapM_encode_reparsed records rs 0 (length records) Hrs Hall).
    rewrite <- recordInfos_infosFrom. exact Hbs. }
  unfold toBytes.
  rewrite (constructBytes_cases (recordInfos rs) bs
             (fun Hnil => Hne' (recordInfos_nil rs Hnil)) Hbs'
             (markers_recordInfos rs Hne')).
  destruct (Z.leb_spec (Z.of_nat (length (concat bs))) 254); [reflexivity | lia].
Qed.

End Reserialise.

(** ** URI prefixes, categories and the message object *)

Section URI.
Context `{Platform}.

Lemma getWellKnownURIPrefixMapping_total (URI : string) :
  URL_canParse URI = true → ∃ m, getWellKnownURIPrefixMapping URI = OK m.
Proof.
  intros Hurl. unfold getWellKnownURIPrefixMapping. rewrite Hurl.
  cbv beta iota delta [negb].
  repeat
    match goal with
    | |- ∃ m, (if startsWith ?u ?p then _ else _) = OK m =>
        destruct (startsWith u p); [eexists; reflexivity|]
    end.
  eexists. reflexivity.
Qed.

(** X19.  For a URI the platform parses, [getWellKnownURIPrefixMapping]
    returns a code of the table and a suffix such that the prefix of the
    code followed by the suffix is the URI, so that
    [reconstructURIFromPrefix] gives the URI back; and
    [createNDEFRecordWellKnownURI] returns a record whose payload bytes
    are the code and the UTF-8 bytes of the suffix and whose [payload()]
    is the URI.  For every other string both throw the TypeError
    [Provided URI is not a valid URI]. *)
Theorem uri_record_abbreviation (URI : string) (i : option string) :
  if URL_canParse URI
  then ∃ m prefix r,
         getWellKnownURIPrefixMapping URI = OK m
         ∧ prefixMappings (URIIdentifierPrefix m) = Some prefix
         ∧ URI = prefix +:+ URISuffix m
         ∧ reconstructURIFromPrefix (Num (URIIdentifierPrefix m)) (URISuffix m) = OK URI
         ∧ createNDEFRecordWellKnownURI (BaseNDEFRecordOptions.mk URI i) = OK r
         ∧ rawPayload r ()
           = to_uint8 (URIIdentifierPrefix m) :: TextEncoder_encode (URISuffix m)
         ∧ payload r () = OK (PString URI)
  else getWellKnownURIPrefixMapping URI
       = Err (TypeError "Provided URI is not a valid URI")
       ∧ createNDEFRecordWellKnownURI (BaseNDEFRecordOptions.mk URI i)
         = Err (TypeError "Provided URI is not a valid URI").
Proof.
  destruct (URL_canParse URI) eqn:Hurl.
  - destruct (getWellKnownURIPrefixMapping_total URI Hurl) as [m Hm].
    destruct (getWellKnownURIPrefixMapping_sound URI m Hm) as (prefix & Hprefix & Huri & _).
    exists m, prefix.
    unfold createNDEFRecordWellKnownURI. simpl BaseNDEFRecordOptions.payload.
    rewrite Hm, bind_OK. simpl BaseNDEFRecordOptions.id.
    destruct (prepareIdForRecord i) as [i' rawI]. eexists.
    split; [reflexivity|]. split; [exact Hprefix|]. split; [exact Huri|].
    split; [|repeat split].
    unfold reconstructURIFromPrefix. rewrite Hprefix, <- Huri. reflexivity.
  - unfold createNDEFRecordWellKnownURI, getWellKnownURIPrefixMapping.
    simpl BaseNDEFRecordOptions.payload. rewrite Hurl. split; reflexivity.
Qed.

(** X20.  Among prefixes that start alike the longer one is taken: a URI
    the platform parses gets the code 0x01 if it starts with
    [http://www.], 0x02 with [https://www.], 0x07 with
    [ftp://anonymous:anonymous@] and 0x08 with [ftp://ftp.], and the
    suffix is what follows that prefix. *)
Theorem specific_prefixes_come_first (rest : string) :
  (URL_canParse ("http://www." +:+ rest) = true →
   getWellKnownURIPrefixMapping ("http://www." +:+ rest) = OK (mkPrefix 0x01 rest))
  ∧ (URL_canParse ("https://www." +:+ rest) = true →
     getWellKnownURIPrefixMapping ("https://www." +:+ rest) = OK (mkPrefix 0x02 rest))
  ∧ (URL_canParse ("ftp://anonymous:anonymous@" +:+ rest) = true →
     getWellKnownURIPrefixMapping ("ftp://anonymous:anonymous@" +:+ rest)
     = OK (mkPrefix 0x07 rest))
  ∧ (URL_canParse ("ftp://ftp." +:+ rest) = true →
     getWellKnownURIPrefixMapping ("ftp://ftp." +:+ rest) = OK (mkPrefix 0x08 rest)).
Proof.
  repeat split; intros Hurl; unfold getWellKnownURIPrefixMapping; rewrite Hurl.
  - rewrite (replace_with_empty_prefix "http://www." rest).
    destruct rest; vm_compute; reflexivity.
  - rewrite (replace_with_empty_prefix "https://www." rest).
    destruct rest; vm_compute; reflexivity.
  - rewrite (replace_with_empty_prefix "ftp://anonymous:anonymous@" rest).
    destruct rest; vm_compute; reflexivity.
  - rewrite (replace_with_empty_prefix "ftp://ftp." rest).
    destruct rest; vm_compute; reflexivity.
Qed.

End URI.


Section MessageComposition.
Context `{Platform}.

Lemma updateRecords_records (f : list BaseNDEFRecord → list BaseNDEFRecord)
  (this : loc) (l : list BaseNDEFRecord) (h : Heap) :
  records h this = Some l →
  ∃ h', updateRecords f this h = Some (this, h') ∧ records h' this = Some (f l).
Proof.
  intros Hrec. destruct (updateRecords_inPlace f this l h Hrec) as (h' & Hout & _ & _ & Hr & _).
  exists h'. split; assumption.
Qed.

Lemma removeTail_records (this : loc) (l : list BaseNDEFRecord) (r : BaseNDEFRecord)
  (h : Heap) :
  records h this = Some (l ++ [r]) →
  ∃ h', removeTail this h = Some (this, h') ∧ records h' this = Some l.
Proof.
  intros Hrec. unfold removeTail. rewrite Hrec. cbn [mbind option_bind].
  assert (Hne : num_eqb (len (l ++ [r])) (Num 0) = false).
  { unfold num_eqb, len. apply Z.eqb_neq. rewrite length_app. simpl. lia. }
  rewrite Hne.
  destruct (updateRecords_records (fun l => removelast l) this _ h Hrec) as (h' & Hout & Hr).
  exists h'. split; [exact Hout|]. rewrite Hr, removelast_last. reflexivity.
Qed.

Lemma removeHead_records (this : loc) (l : list BaseNDEFRecord) (r : BaseNDEFRecord)
  (h : Heap) :
  records h this = Some (r :: l) →
  ∃ h', removeHead this h = Some (this, h') ∧ records h' this = Some l.
Proof.
  intros Hrec. unfold removeHead. rewrite Hrec. simpl.
  destruct (updateRecords_records (drop 1) this _ h Hrec) as (h' & Hout & Hr).
  exists h'. split; [exact Hout|]. rewrite Hr. reflexivity.
Qed.

(** X22.  [add] followed by [remove], and [addHead] followed by
    [removeHead], leave the records of a message as they were, with
    [length] one more in between; both calls return the message itself.
    [addTail] followed by [removeHead] on a message that is not empty
    drops the first record and keeps the new one at the end. *)
Theorem add_then_remove_restores (this : loc) (l : list BaseNDEFRecord) (h : Heap)
  (r : BaseNDEFRecord) :
  records h this = Some l →
  (∃ h1 h2,
      add this r h = Some (this, h1)
      ∧ NDEFMessage.length this h1 = Some (Num (Z.of_nat (length l) + 1))
      ∧ remove this h1 = Some (this, h2)
      ∧ records h2 this = Some l)
  ∧ (∃ h1 h2,
        addHead this r h = Some (this, h1)
        ∧ NDEFMessage.length this h1 = Some (Num (Z.of_nat (length l) + 1))
        ∧ removeHead this h1 = Some (this, h2)
        ∧ records h2 this = Some l)
  ∧ (∀ x l', l = x :: l' →
       ∃ h1 h2,
         addTail this r h = Some (this, h1)
         ∧ removeHead this h1 = Some (this, h2)
         ∧ records h2 this = Some (l' ++ [r])).
Proof.
  intros Hrec. split; [|split].
  - destruct (updateRecords_records (fun l => l ++ [r]) this l h Hrec) as (h1 & Hadd & Hr1).
    destruct (removeTail_records this l r h1 Hr1) as (h2 & Hrem & Hr2).
    exists h1, h2. split; [exact Hadd|]. split; [|split; [exact Hrem | exact Hr2]].
    unfold NDEFMessage.length, len. rewrite Hr1. simpl. rewrite length_app. simpl.
    do 2 f_equal. lia.
  - destruct (updateRecords_records (fun l => r :: l) this l h Hrec) as (h1 & Hadd & Hr1).
    destruct (removeHead_records this l r h1 Hr1) as (h2 & Hrem & Hr2).
    exists h1, h2. split; [exact Hadd|]. split; [|split; [exact Hrem | exact Hr2]].
    unfold NDEFMessage.length, len. rewrite Hr1. simpl. do 2 f_equal. lia.
  - intros x l' ->.
    destruct (updateRecords_records (fun l => l ++ [r]) this _ h Hrec) as (h1 & Hadd & Hr1).
    destruct (removeHead_records this (l' ++ [r]) x h1 Hr1) as (h2 & Hrem & Hr2).
    exists h1, h2. split; [exact Hadd|]. split; [exact Hrem | exact Hr2].
Qed.

(** X23.  [new NDEFMessage(records)] keeps the array it is given: the
    message is a new object, but a record added through it shows in every
    message that holds the same array.  [new NDEFMessage()] gets an array
    of its own: it is empty, and a record added to it shows in no other
    message. *)
Theorem constructor_array_sharing (h : Heap) (a m0 : loc) (l : list BaseNDEFRecord)
  (r : BaseNDEFRecord) :
  messages h !! m0 = Some a →
  arrays h !! a = Some l →
  (∃ m h1 h2,
      newNDEFMessageOf a h = (m, h1)
      ∧ m ≠ m0
      ∧ records h1 m = Some l
      ∧ add m r h1 = Some (m, h2)
      ∧ records h2 m = Some (l ++ [r])
      ∧ records h2 m0 = Some (l ++ [r]))
  ∧ (∃ m h1 h2,
        newNDEFMessage h = (m, h1)
        ∧ m ≠ m0
        ∧ records h1 m = Some []
        ∧ records h1 m0 = Some l
        ∧ add m r h1 = Some (m, h2)
        ∧ records h2 m = Some [r]
        ∧ records h2 m0 = Some l).
Proof.
  intros Hm0 Ha.
  set (m := fresh (dom (messages h))).
  assert (Hfresh : messages h !! m = None).
  { apply not_elem_of_dom. apply is_fresh. }
  assert (Hne : m ≠ m0) by congruence.
  split.
  - eexists m, _, _. split; [reflexivity|]. split; [exact Hne|].
    unfold add, addTail, updateRecords, records. simpl.
    rewrite lookup_insert_eq. simpl. rewrite Ha. simpl.
    split; [reflexivity|]. split; [reflexivity|]. simpl.
    rewrite lookup_insert_eq. simpl. rewrite lookup_insert_eq.
    split; [reflexivity|].
    rewrite lookup_insert_ne by exact Hne. rewrite Hm0. simpl.
    apply lookup_insert_eq.
  - set (a' := fresh (dom (arrays h))).
    assert (Ha' : a' ≠ a).
    { intros Heq. assert (arrays h !! a' = None) as Hn
        by (apply not_elem_of_dom; apply is_fresh).
      rewrite Heq in Hn. congruence. }
    eexists m, _, _. split; [reflexivity|]. split; [exact Hne|].
    unfold add, addTail, updateRecords, records. simpl.
    rewrite lookup_insert_eq. simpl. rewrite lookup_insert_eq. simpl.
    split; [reflexivity|].
    rewrite lookup_insert_ne by exact Hne. rewrite Hm0. simpl.
    rewrite lookup_insert_ne by exact Ha'.
    split; [exact Ha|]. split; [reflexivity|]. simpl.
    rewrite lookup_insert_eq. simpl. rewrite lookup_insert_eq.
    split; [reflexivity|].
    rewrite lookup_insert_ne by exact Hne. rewrite Hm0. simpl.
    rewrite !lookup_insert_ne by exact Ha'. exact Ha.
Qed.

End MessageComposition.

(** ** The properties above on examples *)

Lemma toBytes_errors_witness :
  recordEncodingError
    (TypeError "ID length exceeds maximum allowed length of 255 bytes.")
  ∨ TypeError "ID length exceeds maximum allowed length of 255 bytes."
    = TypeError "NDEFMessageLength is not iterable".
Proof.
  refine (@toBytes_errors example_platform
            [createNDEFRecordMediaTextPlain
               (BaseNDEFRecordOptions.mk "hi"
                  (Some (String.string_of_list_byte (replicate 256 x61))))]
            _ _).
  vm_compute. reflexivity.
Defined.

Lemma parseNDEFRecord_bounds_witness :
  ∃ res : @ParsedNDEFRecordResult example_platform,
    @parseNDEFRecord example_platform
      [xd1; x01; x08; x55; x01; x6e; x66; x63; x2e; x63; x6f; x6d] (Num 0) = OK res
    ∧ ∃ next,
        nextOffset res = Num next
        ∧ next <= 12
        ∧ (flag (index [xd1; x01; x08; x55; x01; x6e; x66; x63; x2e; x63; x6f; x6d] (Num 0))
             0x10 = true
           ∨ num_ltb (index [xd1; x01; x08; x55; x01; x6e; x66; x63; x2e; x63; x6f; x6d]
                        (Num (0 + 2))) (Num 0x80) = true →
           0 + 3 + Z.of_nat (length (rawPayload (parsed_record res) ())) <= next).
Proof.
  assert (Hex : ∃ res, @parseNDEFRecord example_platform
                         [xd1; x01; x08; x55; x01; x6e; x66; x63; x2e; x63; x6f; x6d]
                         (Num 0) = OK res) by (eexists; reflexivity).
  destruct Hex as [res Hres]. exists res. split; [exact Hres|].
  exact (@parseNDEFRecord_bounds example_platform _ 0 res ltac:(lia) Hres).
Defined.

Lemma parsed_records_invariant_witness :
  ∃ rs : list (@BaseNDEFRecord example_platform),
    @parseNDEFMessage example_platform 1
      [x03; x0c; xd1; x01; x08; x55; x01; x6e; x66; x63; x2e; x63; x6f; x6d; xfe]
    = Some (OK rs)
    ∧ Forall (@parsedRecordInvariant example_platform) rs.
Proof.
  assert (Hex : ∃ rs, @parseNDEFMessage example_platform 1
                        [x03; x0c; xd1; x01; x08; x55; x01; x6e; x66; x63; x2e; x63;
                         x6f; x6d; xfe] = Some (OK rs)) by (eexists; reflexivity).
  destruct Hex as [rs Hrs]. exists rs. split; [exact Hrs|].
  exact (@parsed_records_invariant example_platform 1 _ rs Hrs).
Defined.

Lemma record_codec_round_trip_witness :
  ∃ r : @BaseNDEFRecord example_platform,
    @parseNDEFRecord example_platform
      ([x03] ++ ([xc2; x09; x00; x00; x01; x2c] ++ TextEncoder_encode "image/png"
                   ++ replicate 300 x07) ++ [xfe])
      (Num 1)
    = OK {| parsed_record := r; nextOffset := Num 316; isMessageEnd := true |}
    ∧ tnf r = media
    ∧ type r = "image/png"
    ∧ id r = None
    ∧ rawPayload r () = replicate 300 x07
    ∧ @parsedRecordInvariant example_platform r.
Proof.
  refine (@record_codec_round_trip example_platform [x03] [xfe]
            ([xc2; x09; x00; x00; x01; x2c] ++ TextEncoder_encode "image/png"
               ++ replicate 300 x07)
            (mkInfo (createNDEFRecordMediaImagePNG
                       (BaseNDEFRecordOptions.mk (Uint8Array (replicate 300 x07)) None))
               true true) _ _ _).
  - vm_compute. reflexivity.
  - vm_compute. reflexivity.
  - intros [Hwk _]. discriminate Hwk.
Defined.

Lemma parsed_record_reencodes_witness :
  ∃ r : @BaseNDEFRecord example_platform,
    @reparse example_platform
      (createNDEFRecordMediaTextPlain (BaseNDEFRecordOptions.mk "hi" (Some "a"))) = OK r
    ∧ @constructBytesFromRecordInfo example_platform (mkInfo r true false)
      = @constructBytesFromRecordInfo example_platform
          (mkInfo (createNDEFRecordMediaTextPlain
                     (BaseNDEFRecordOptions.mk "hi" (Some "a"))) true false).
Proof.
  eexists. split; [reflexivity|].
  refine (@parsed_record_reencodes example_platform
            (mkInfo (createNDEFRecordMediaTextPlain
                       (BaseNDEFRecordOptions.mk "hi" (Some "a"))) true false)
            _ eq_refl _).
  split; [reflexivity|]. split; [discriminate | reflexivity].
Defined.

Lemma empty_id_is_lost_on_reencode_witness :
  ∃ r : @BaseNDEFRecord example_platform,
    @reparse example_platform
      (createNDEFRecordMediaTextPlain (BaseNDEFRecordOptions.mk "hi" (Some ""))) = OK r
    ∧ id r = Some "" ∧ rawId r () = None
    ∧ (∃ b l, [x9a; x0a; x02; x00] ++ TextEncoder_encode "text/plain" ++ [x68; x69]
              = b :: l ∧ Z.testbit (byte_to_Z b) 3 = true)
    ∧ (∃ b' l', [x92; x0a; x02] ++ TextEncoder_encode "text/plain" ++ [x68; x69]
                = b' :: l' ∧ Z.testbit (byte_to_Z b') 3 = false).
Proof.
  eexists. split; [reflexivity|].
  refine (@empty_id_is_lost_on_reencode example_platform
            (mkInfo (createNDEFRecordMediaTextPlain
                       (BaseNDEFRecordOptions.mk "hi" (Some ""))) true false)
            _ [] _ _ eq_refl _ _ _ _).
  - reflexivity.
  - reflexivity.
  - vm_compute. reflexivity.
  - vm_compute. reflexivity.
Defined.

Lemma add_then_remove_restores_witness :
  let r0 := @createNDEFRecordMediaTextPlain example_platform
              (BaseNDEFRecordOptions.mk "first" None) in
  let r1 := @createNDEFRecordMediaTextPlain example_platform
              (BaseNDEFRecordOptions.mk "second" None) in
  let h := {| messages := {[ 1%positive := 2%positive ]};
              arrays := {[ 2%positive := [r0] ]} |} in
  ∃ h1 h2,
    add 1%positive r1 h = Some (1%positive, h1)
    ∧ NDEFMessage.length 1%positive h1 = Some (Num 2)
    ∧ remove 1%positive h1 = Some (1%positive, h2)
    ∧ records h2 1%positive = Some [r0].
Proof.
  intros r0 r1 h.
  exact (proj1 (@add_then_remove_restores example_platform 1%positive [r0] h r1 eq_refl)).
Defined.

Lemma constructor_array_sharing_witness :
  let r0 := @createNDEFRecordMediaTextPlain example_platform
              (BaseNDEFRecordOptions.mk "first" None) in
  let r1 := @createNDEFRecordMediaTextPlain example_platform
              (BaseNDEFRecordOptions.mk "second" None) in
  let h := {| messages := {[ 1%positive := 2%positive ]};
              arrays := {[ 2%positive := [r0] ]} |} in
  ∃ m h1 h2,
    newNDEFMessageOf 2%positive h = (m, h1)
    ∧ m ≠ 1%positive
    ∧ records h1 m = Some [r0]
    ∧ add m r1 h1 = Some (m, h2)
    ∧ records h2 m = Some [r0; r1]
    ∧ records h2 1%positive = Some [r0; r1].
Proof.
  intros r0 r1 h.
  exact (proj1 (@constructor_array_sharing example_platform h 2%positive 1%positive
                  [r0] r1 eq_refl eq_refl)).
Defined.

Lemma reserialising_a_parsed_message_witness :
  ∃ rs : list (@BaseNDEFRecord example_platform),
    @parseNDEFMessage example_platform 2
      ([x03; x1f]
         ++ ([x9a; x0a; x02; x01] ++ TextEncoder_encode "text/plain"
               ++ TextEncoder_encode "a" ++ TextEncoder_encode "hi")
         ++ ([x52; x09; x02] ++ TextEncoder_encode "image/png" ++ [x01; x02])
         ++ [xfe])
    = Some (OK rs)
    ∧ @toBytes example_platform rs
      = OK ([x03; x1f]
              ++ ([x9a; x0a; x02; x01] ++ TextEncoder_encode "text/plain"
                    ++ TextEncoder_encode "a" ++ TextEncoder_encode "hi")
              ++ ([x52; x09; x02] ++ TextEncoder_encode "image/png" ++ [x01; x02])
              ++ [xfe]).
Proof.
  assert (Hex : ∃ rs,
            @parseNDEFMessage example_platform 2
              ([x03; x1f]
                 ++ ([x9a; x0a; x02; x01] ++ TextEncoder_encode "text/plain"
                       ++ TextEncoder_encode "a" ++ TextEncoder_encode "hi")
                 ++ ([x52; x09; x02] ++ TextEncoder_encode "image/png" ++ [x01; x02])
                 ++ [xfe])
            = Some (OK rs)) by (eexists; reflexivity).
  destruct Hex as [rs Hrs]. exists rs. split; [exact Hrs|].
  refine (@reserialising_a_parsed_message example_platform
            [createNDEFRecordMediaTextPlain (BaseNDEFRecordOptions.mk "hi" (Some "a"));
             createNDEFRecordMediaImagePNG
               (BaseNDEFRecordOptions.mk (Uint8Array [x01; x02]) None)]
            rs _ 0 _ Hrs _).
  - vm_compute. reflexivity.
  - constructor; [|constructor; [|constructor]].
    + split; [reflexivity|]. split; [discriminate | reflexivity].
    + split; [reflexivity | exact I].
Defined.

(** * Messages in the wire layout *)

(** ** Records in the wire layout through the parser *)

Lemma wireHeader_parsed (w : WireRecord) :
  parseNDEFRecordHeader (Num (byte_to_Z (wireHeader w)))
  = OK (NDEFRecordHeader.mk (wireTNF w) (wireMB w) (wireME w) false (wireSR w)
          (match wireId w with Some _ => true | None => false end)).
Proof.
  destruct w as [t mb me sr ty i pay]. unfold wireHeader. cbn [wireTNF wireMB wireME wireSR wireId].
  destruct t, mb, me, sr, i; vm_compute; reflexivity.
Qed.

Lemma be32_digits (n : Z) :
  0 <= n < 2 ^ 31 →
  byte_to_Z (to_uint8 (n / 2 ^ 24)) * 2 ^ 24 + byte_to_Z (to_uint8 (n / 2 ^ 16)) * 2 ^ 16
  + byte_to_Z (to_uint8 (n / 2 ^ 8)) * 2 ^ 8 + byte_to_Z (to_uint8 n) = n.
Proof.
  intros Hn.
  assert (Hb : ∀ z, byte_to_Z (to_uint8 z) = z mod 256).
  { intros z. rewrite <- (byte_to_Z_to_uint8 (z mod 256)) by (apply Z.mod_pos_bound; lia).
    unfold to_uint8. rewrite Z.mod_mod by lia. reflexivity. }
  rewrite !Hb.
  change (2 ^ 31) with 2147483648 in Hn.
  change (2 ^ 24) with 16777216. change (2 ^ 16) with 65536. change (2 ^ 8) with 256.
  pose proof (Z.div_mod n 256 ltac:(lia)) as E0.
  pose proof (Z.div_mod (n / 256) 256 ltac:(lia)) as E1.
  pose proof (Z.div_mod (n / 65536) 256 ltac:(lia)) as E2.
  rewrite Z.div_div in E1 by lia. change (256 * 256) with 65536 in E1.
  rewrite Z.div_div in E2 by lia. change (65536 * 256) with 16777216 in E2.
  pose proof (Z.mod_pos_bound n 256 ltac:(lia)).
  pose proof (Z.mod_pos_bound (n / 256) 256 ltac:(lia)).
  pose proof (Z.mod_pos_bound (n / 65536) 256 ltac:(lia)).
  assert (0 <= n / 16777216 < 128).
  { split; [apply Z.div_pos; lia | apply Z.div_lt_upper_bound; lia]. }
  rewrite (Z.mod_small (n / 16777216)) by lia. lia.
Qed.

Section WireParse.
Context `{Platform}.

Lemma readPayloadLength_wire (l1 l2 : list byte) (short : bool) (n : Z) :
  0 <= n < 2 ^ 31 → (short = true → n <= 255) →
  readPayloadLength (l1 ++ wireLength short n ++ l2) short (len l1)
  = OK (Num n, Num (Z.of_nat (length l1) + Z.of_nat (length (wireLength short n)))).
Proof.
  intros Hn Hshort. destruct short.
  - specialize (Hshort eq_refl). unfold wireLength, readPayloadLength, len. cbn [app].
    rewrite num_geb_inside by (rewrite !length_app; simpl; lia).
    rewrite (index_at _ l1 l2 (to_uint8 n) _ eq_refl eq_refl).
    rewrite byte_to_Z_to_uint8 by lia. reflexivity.
  - unfold wireLength. rewrite readPayloadLength_long, be32_digits by exact Hn.
    rewrite wrap32_small by (change (2 ^ 31) with 2147483648 in *; lia). reflexivity.
Qed.

(** On the bytes of a record in the wire layout, wherever they stand in
    the buffer, [parseNDEFRecord] reads the fields back, builds the record
    from them and leaves the cursor behind them. *)
Lemma parseNDEFRecord_wire (pre post : list byte) (w : WireRecord) :
  wireFits w →
  Z.of_nat (length (wirePayload w)) < 2 ^ 31 →
  parseNDEFRecord (pre ++ wireBytes w ++ post) (len pre)
  = (r ← wireRecord w;
     OK {| parsed_record := r;
           nextOffset := len (pre ++ wireBytes w);
           isMessageEnd := wireME w |}).
Proof.
  intros (Hty & Hid & Hsr) Hpay.
  pose proof (wireHeader_parsed w) as Hparse.
  unfold wireBytes, wireRecord.
  set (b := wireHeader w) in *.
  set (pay := wirePayload w) in *.
  set (ty := wireType w) in *.
  set (oid := wireId w) in *.
  set (sr := wireSR w) in *.
  set (il := match oid with Some _ => true | None => false end) in *.
  set (ilb := match oid with Some i => [to_uint8 (Z.of_nat (length i))] | None => [] end).
  set (idb := match oid with Some i => i | None => [] end).
  set (n := Z.of_nat (length pay)) in *.
  set (lb := wireLength sr n).
  set (tlb := to_uint8 (Z.of_nat (length ty))).
  set (p := Z.of_nat (length pre)).
  assert (Hil : Z.of_nat (length ilb) = if il then 1 else 0)
    by (subst ilb il; destruct oid; reflexivity).
  assert (Hidb : ∀ i, oid = Some i → idb = i)
    by (intros i Hi; subst idb; rewrite Hi; reflexivity).
  remember (pre ++ ([b; tlb] ++ lb ++ ilb ++ ty ++ idb ++ pay) ++ post) as data eqn:Hdata.
  assert (Hlen : Z.of_nat (length data)
                 = p + 2 + Z.of_nat (length lb) + Z.of_nat (length ilb)
                   + Z.of_nat (length ty) + Z.of_nat (length idb) + n
                   + Z.of_nat (length post)).
  { rewrite Hdata. rewrite !length_app. simpl length. subst p n. lia. }
  assert (Hnext : len (pre ++ [b; tlb] ++ lb ++ ilb ++ ty ++ idb ++ pay)
                  = Num (p + 2 + Z.of_nat (length lb) + Z.of_nat (length ilb)
                         + Z.of_nat (length ty) + Z.of_nat (length idb) + n)).
  { unfold len. f_equal. rewrite !length_app. simpl length. subst p n. lia. }
  rewrite Hnext. clear Hnext.
  rewrite parseNDEFRecord_stages. unfold parseNDEFRecord_staged, len. fold p.
  rewrite num_geb_inside by lia.
  rewrite (index_at data pre (([tlb] ++ lb ++ ilb ++ ty ++ idb ++ pay) ++ post) b p);
    [| rewrite Hdata; reflexivity | reflexivity].
  rewrite Hparse, bind_OK. cbn [num_add].
  unfold NDEFRecordHeader.shortRecordFlag, NDEFRecordHeader.idLengthFlag,
    NDEFRecordHeader.tnf, NDEFRecordHeader.messageEndFlag.
  rewrite num_geb_inside by lia.
  rewrite (index_at data (pre ++ [b]) ((lb ++ ilb ++ ty ++ idb ++ pay) ++ post) tlb (p + 1));
    [| rewrite Hdata, <- !app_assoc; reflexivity | rewrite length_app; simpl; lia].
  subst tlb. rewrite byte_to_Z_to_uint8 by lia.
  assert (Hrpl : readPayloadLength data sr (Num (p + 1 + 1))
                 = OK (Num n, Num (p + 2 + Z.of_nat (length lb)))).
  { replace data
      with ((pre ++ [b; to_uint8 (Z.of_nat (length ty))]) ++ wireLength sr n
              ++ ((ilb ++ ty ++ idb ++ pay) ++ post))
      by (rewrite Hdata, <- !app_assoc; reflexivity).
    replace (Num (p + 1 + 1)) with (len (pre ++ [b; to_uint8 (Z.of_nat (length ty))]))
      by (unfold len; rewrite length_app; simpl length; f_equal; lia).
    rewrite readPayloadLength_wire by (assumption || lia).
    rewrite length_app. simpl length. do 2 f_equal. f_equal. subst lb p. lia. }
  rewrite Hrpl, bind_OK. cbv beta iota.
  assert (Hidlen : readIdLength data il (Num (p + 2 + Z.of_nat (length lb)))
                   = OK (Num (Z.of_nat (length idb)),
                         Num (p + 2 + Z.of_nat (length lb) + Z.of_nat (length ilb)))).
  { unfold readIdLength, len. subst il ilb idb. destruct oid as [i|].
    - rewrite num_geb_inside by (simpl length in Hlen; lia).
      rewrite (index_at data
                 (pre ++ [b; to_uint8 (Z.of_nat (length ty))] ++ lb)
                 ((ty ++ i ++ pay) ++ post) (to_uint8 (Z.of_nat (length i)))).
      + rewrite byte_to_Z_to_uint8 by (specialize (Hid i eq_refl); lia).
        simpl; do 2 f_equal; try (f_equal; lia).
      + rewrite Hdata, <- !app_assoc. reflexivity.
      + rewrite !length_app. simpl. lia.
    - simpl; do 2 f_equal; try (f_equal; lia). }
  rewrite Hidlen, bind_OK. cbv beta iota. cbn [num_add].
  rewrite num_gtb_inside by lia.
  rewrite (slice_at data
             (pre ++ [b; to_uint8 (Z.of_nat (length ty))] ++ lb ++ ilb)
             ty ((idb ++ pay) ++ post));
    [| rewrite Hdata, <- !app_assoc; reflexivity
     | rewrite !length_app; simpl; lia | reflexivity].
  assert (Hrid : readId data il (Num (Z.of_nat (length idb)))
                   (Num (p + 2 + Z.of_nat (length lb)
                         + Z.of_nat (length ilb) + Z.of_nat (length ty)))
                 = OK (oid, Num (p + 2 + Z.of_nat (length lb)
                                 + Z.of_nat (length ilb) + Z.of_nat (length ty)
                                 + Z.of_nat (length idb)))).
  { unfold readId, len. subst il. destruct oid as [i|].
    - cbn [num_add]. rewrite num_gtb_inside by lia.
      rewrite (slice_at data
                 (pre ++ [b; to_uint8 (Z.of_nat (length ty))] ++ lb ++ ilb ++ ty)
                 idb (pay ++ post));
        [| rewrite Hdata, <- !app_assoc; reflexivity
         | rewrite !length_app; simpl; lia | reflexivity].
      rewrite (Hidb i eq_refl). reflexivity.
    - subst idb. simpl; do 2 f_equal; try (f_equal; lia). }
  rewrite Hrid, bind_OK. cbv beta iota. cbn [num_add].
  rewrite num_gtb_inside by lia.
  rewrite (slice_at data
             (pre ++ [b; to_uint8 (Z.of_nat (length ty))] ++ lb ++ ilb ++ ty ++ idb)
             pay post);
    [| rewrite Hdata, <- !app_assoc; reflexivity
     | rewrite !length_app; simpl; lia | reflexivity].
  reflexivity.
Qed.

End WireParse.

Lemma to_uint8_of_byte (x y : Z) : byte_to_Z (to_uint8 x) = y mod 256 → to_uint8 x = to_uint8 y.
Proof.
  intros Hxy. rewrite <- (to_uint8_byte_to_Z (to_uint8 x)), Hxy.
  unfold to_uint8. rewrite Z.mod_mod by lia. reflexivity.
Qed.

Section WireEncoder.
Context `{Platform}.

(** What [constructBytesFromRecordInfo] writes is a record in the wire
    layout, in the short form for a payload below 256 bytes and in the
    long form otherwise. *)
Lemma constructBytesFromRecordInfo_wire (info : RecordInfo) (bytes : list byte) :
  constructBytesFromRecordInfo info = OK bytes →
  Z.of_nat (length (rawPayload (record info) ())) < 2 ^ 31 →
  let w := mkWire (tnf (record info)) (isBeginning info) (isEnd info)
             (Z.of_nat (length (rawPayload (record info) ())) <? 256)
             (rawType (record info) ()) (rawId (record info) ())
             (rawPayload (record info) ()) in
  bytes = wireBytes w ∧ wireFits w.
Proof.
  intros Henc Hpay w.
  apply constructBytesFromRecordInfo_OK in Henc as (_ & Hty & Hid & ->).
  split.
  - unfold wireBytes. subst w. cbn [wireType wireId wirePayload wireSR].
    change ([?a; ?b] ++ ?l) with ([a] ++ [b] ++ l).
    f_equal; [|f_equal].
    + unfold wireHeader. cbn [wireTNF wireMB wireME wireSR wireId]. unfold num_ltb, len.
      destruct (tnf (record info)), (isBeginning info), (isEnd info),
        (rawId (record info) ()),
        (Z.of_nat (length (rawPayload (record info) ())) <? 256); reflexivity.
    + unfold payloadLengthBytes, wireLength, num_ltb.
      destruct (Z.of_nat (length (rawPayload (record info) ())) <? 256); [reflexivity|].
      assert (Hn : 0 <= Z.of_nat (length (rawPayload (record info) ())) < 2 ^ 31) by lia.
      cbv beta iota. f_equal.
      f_equal; [apply to_uint8_of_byte, length_byte; [exact Hn | lia]|].
      f_equal; [apply to_uint8_of_byte, length_byte; [exact Hn | lia]|].
      f_equal; [apply to_uint8_of_byte, length_byte; [exact Hn | lia]|].
      f_equal. apply to_uint8_of_byte, length_byte_low. exact Hn.
  - subst w. repeat split; cbn [wireType wireId wirePayload wireSR].
    + exact Hty.
    + exact Hid.
    + intros Hshort. apply Z.ltb_lt in Hshort. lia.
Qed.

End WireEncoder.

(** ** The loop on records in the wire layout *)

Lemma mapM_result_app {A B : Type} (f : A → result B) (l1 l2 : list A) :
  mapM f (l1 ++ l2) = (rs1 ← mapM f l1; rs2 ← mapM f l2; OK (rs1 ++ rs2)).
Proof.
  induction l1 as [|x l1 IH]; simpl.
  - destruct (mapM f l2); reflexivity.
  - destruct (f x) as [y|e]; [|reflexivity]. simpl. rewrite IH.
    destruct (mapM f l1) as [rs1|e]; [|reflexivity]. simpl.
    destruct (mapM f l2); reflexivity.
Qed.

Lemma mapM_result_length {A B : Type} (f : A → result B) (l : list A) (rs : list B) :
  mapM f l = OK rs → length rs = length l.
Proof.
  revert rs. induction l as [|x l IH]; intros rs; simpl.
  - intros [= <-]. reflexivity.
  - destruct (f x) as [y|e]; [|discriminate]. simpl.
    destruct (mapM f l) as [rs'|e]; [|discriminate]. simpl.
    intros [= <-]. simpl. rewrite (IH rs' eq_refl). reflexivity.
Qed.

Lemma length_wireBytes (w : WireRecord) :
  Z.of_nat (length (wireBytes w))
  = 2 + Z.of_nat (length (wireLength (wireSR w) (Z.of_nat (length (wirePayload w)))))
    + match wireId w with Some i => 1 + Z.of_nat (length i) | None => 0 end
    + Z.of_nat (length (wireType w)) + Z.of_nat (length (wirePayload w)).
Proof.
  unfold wireBytes. rewrite !length_app. destruct (wireId w); simpl length; lia.
Qed.

Lemma wireBytes_nonempty (w : WireRecord) : 3 <= Z.of_nat (length (wireBytes w)).
Proof.
  rewrite length_wireBytes. unfold wireLength.
  destruct (wireSR w), (wireId w); simpl length; lia.
Qed.

Lemma wirePayload_inside (ws : list WireRecord) (bound : Z) :
  Z.of_nat (length (concat (map wireBytes ws))) <= bound →
  Forall (fun w => Z.of_nat (length (wirePayload w)) <= bound) ws.
Proof.
  induction ws as [|w ws IH]; intros Hlen; [constructor|].
  cbn [map concat] in Hlen. rewrite length_app in Hlen.
  pose proof (length_wireBytes w) as Hw.
  assert (0 <= match wireId w with Some i => 1 + Z.of_nat (length i) | None => 0 end)
    by (destruct (wireId w); lia).
  constructor; [lia | apply IH; lia].
Qed.

Section WireLoop.
Context `{Platform}.

(** The loop, started in front of records in the wire layout none of
    which has its end flag set, rebuilds record after record; it returns
    at the first failure and otherwise goes on behind the last of them. *)
Lemma parseRecords_wire (ws : list WireRecord) :
  ∀ (pre post : list byte) (acc : list BaseNDEFRecord) (fuel : nat),
    Forall wireFits ws →
    Forall (fun w => Z.of_nat (length (wirePayload w)) <= 65535) ws →
    Forall (fun w => wireME w = false) ws →
    parseRecords (length ws + fuel) (pre ++ concat (map wireBytes ws) ++ post) (len pre) acc
    = match mapM wireRecord ws with
      | Err e => Some (Err e)
      | OK rs =>
          parseRecords fuel (pre ++ concat (map wireBytes ws) ++ post)
            (len (pre ++ concat (map wireBytes ws))) (acc ++ rs)
      end.
Proof.
  induction ws as [|w ws IH]; intros pre post acc fuel Hfit Hpay Hend.
  - simpl. rewrite !app_nil_r. reflexivity.
  - inversion Hfit as [|? ? Hfit1 Hfit2]; subst.
    inversion Hpay as [|? ? Hpay1 Hpay2]; subst.
    inversion Hend as [|? ? Hend1 Hend2]; subst.
    pose proof (wireBytes_nonempty w) as Hne.
    cbn [map concat].
    change (length (w :: ws) + fuel)%nat with (S (length ws + fuel)).
    rewrite parseRecords_step
      by (unfold num_ltb, len; rewrite !length_app; apply Z.ltb_lt; lia).
    replace (pre ++ (wireBytes w ++ concat (map wireBytes ws)) ++ post)
      with (pre ++ wireBytes w ++ (concat (map wireBytes ws) ++ post))
      by (rewrite <- !app_assoc; reflexivity).
    rewrite (parseNDEFRecord_wire pre _ w Hfit1)
      by (change (2 ^ 31) with 2147483648; lia).
    simpl mapM.
    destruct (wireRecord w) as [r|e]; [|reflexivity].
    rewrite !bind_OK. cbn [isMessageEnd parsed_record nextOffset].
    rewrite Hend1.
    replace (pre ++ wireBytes w ++ (concat (map wireBytes ws) ++ post))
      with ((pre ++ wireBytes w) ++ concat (map wireBytes ws) ++ post)
      by (rewrite <- !app_assoc; reflexivity).
    rewrite (IH (pre ++ wireBytes w) post (acc ++ [r]) fuel Hfit2 Hpay2 Hend2).
    destruct (mapM wireRecord ws) as [rs|e]; [|reflexivity].
    rewrite !bind_OK. rewrite <- !app_assoc. reflexivity.
Qed.

(** The loop on records in the wire layout that the parser accepts: it
    returns, at the first end flag or at the end of the data. *)
Lemma parseRecords_wire_returns (ws : list WireRecord) :
  ∀ (pre post : list byte) (acc : list BaseNDEFRecord) (fuel : nat),
    Forall wireFits ws →
    Forall (fun w => Z.of_nat (length (wirePayload w)) <= 65535) ws →
    Forall (fun w => ∃ r, wireRecord w = OK r) ws →
    Exists (fun w => wireME w = true) ws ∨ post = [] →
    ∃ rs, parseRecords (length ws + fuel) (pre ++ concat (map wireBytes ws) ++ post)
            (len pre) acc
          = Some (OK (acc ++ rs)).
Proof.
  induction ws as [|w ws IH]; intros pre post acc fuel Hfit Hpay Hok Hstop.
  - destruct Hstop as [Hex | ->]; [inversion Hex|].
    exists []. simpl concat. rewrite !app_nil_r.
    apply parseRecords_end. unfold num_ltb, len. apply Z.ltb_irrefl.
  - inversion Hfit as [|? ? Hfit1 Hfit2]; subst.
    inversion Hpay as [|? ? Hpay1 Hpay2]; subst.
    inversion Hok as [|? ? [r Hr] Hok2]; subst.
    pose proof (wireBytes_nonempty w) as Hne.
    cbn [map concat].
    change (length (w :: ws) + fuel)%nat with (S (length ws + fuel)).
    rewrite parseRecords_step
      by (unfold num_ltb, len; rewrite !length_app; apply Z.ltb_lt; lia).
    replace (pre ++ (wireBytes w ++ concat (map wireBytes ws)) ++ post)
      with (pre ++ wireBytes w ++ (concat (map wireBytes ws) ++ post))
      by (rewrite <- !app_assoc; reflexivity).
    rewrite (parseNDEFRecord_wire pre _ w Hfit1)
      by (change (2 ^ 31) with 2147483648; lia).
    rewrite Hr, bind_OK. cbn [isMessageEnd parsed_record nextOffset].
    destruct (wireME w) eqn:Hend; [exists [r]; reflexivity|].
    replace (pre ++ wireBytes w ++ (concat (map wireBytes ws) ++ post))
      with ((pre ++ wireBytes w) ++ concat (map wireBytes ws) ++ post)
      by (rewrite <- !app_assoc; reflexivity).
    destruct (IH (pre ++ wireBytes w) post (acc ++ [r]) fuel Hfit2 Hpay2 Hok2) as [rs Hrs].
    { destruct Hstop as [Hex | ->]; [left | right; reflexivity].
      inversion Hex as [? ? Hw | ? ? Hws]; subst; [congruence | exact Hws]. }
    exists (r :: rs). rewrite Hrs, <- app_assoc. reflexivity.
Qed.

(** [parseNDEFMessage] hands a TLV value that is not empty to its loop. *)
Lemma parseNDEFMessage_value (data value : list byte) (fuel : nat) :
  validateAndStripTLV (stripLeadingTrailingZeros data) = OK value →
  value ≠ [] →
  parseNDEFMessage fuel data = parseRecords fuel value (Num 0) [].
Proof.
  intros Htlv Hne. unfold parseNDEFMessage.
  destruct (stripLeadingTrailingZeros data) as [|d0 stripped] eqn:Hstrip.
  { rewrite validateAndStripTLV_nil in Htlv. discriminate. }
  change (num_eqb (len (d0 :: stripped)) (Num 0)) with false. cbv iota.
  rewrite Htlv. destruct value; [congruence | reflexivity].
Qed.

(** [parseNDEFMessage] on a TLV value that starts with the records [ws],
    none with its end flag set, and the record [w], all in the wire
    layout. *)
Lemma parseNDEFMessage_wire (data rest : list byte) (ws : list WireRecord)
  (w : WireRecord) (fuel : nat) :
  validateAndStripTLV (stripLeadingTrailingZeros data)
  = OK (concat (map wireBytes (ws ++ [w])) ++ rest) →
  Forall wireFits (ws ++ [w]) →
  Forall (fun w => wireME w = false) ws →
  parseNDEFMessage (length ws + S fuel) data
  = match mapM wireRecord (ws ++ [w]) with
    | Err e => Some (Err e)
    | OK rs =>
        if wireME w then Some (OK rs)
        else parseRecords fuel (concat (map wireBytes (ws ++ [w])) ++ rest)
               (len (concat (map wireBytes (ws ++ [w])))) rs
    end.
Proof.
  intros Htlv Hfit Hend.
  pose proof (validateAndStripTLV_length _ _ Htlv) as Hlen.
  rewrite length_app in Hlen.
  assert (Hpay : Forall (fun w => Z.of_nat (length (wirePayload w)) <= 65535) (ws ++ [w]))
    by (apply wirePayload_inside; lia).
  apply Forall_app in Hfit as [Hfit1 Hfit2]. apply Forall_app in Hpay as [Hpay1 Hpay2].
  inversion Hfit2 as [|? ? Hfitw _]; subst. inversion Hpay2 as [|? ? Hpayw _]; subst.
  pose proof (wireBytes_nonempty w) as Hne.
  rewrite (parseNDEFMessage_value data _ _ Htlv).
  2: { rewrite map_app, concat_app. cbn [map concat].
       intros Hnil. apply (f_equal length) in Hnil. rewrite !length_app in Hnil.
       simpl in Hnil. lia. }
  rewrite map_app, concat_app. cbn [map concat]. rewrite app_nil_r.
  rewrite <- app_assoc.
  pose proof (parseRecords_wire ws [] (wireBytes w ++ rest) [] (S fuel) Hfit1 Hpay1 Hend)
    as Hloop.
  rewrite !app_nil_l in Hloop. change (len []) with (Num 0) in Hloop.
  rewrite Hloop. clear Hloop.
  rewrite mapM_result_app.
  destruct (mapM wireRecord ws) as [rs|e]; [|reflexivity].
  rewrite bind_OK.
  rewrite parseRecords_step
    by (unfold num_ltb, len; rewrite !length_app; apply Z.ltb_lt; lia).
  rewrite (parseNDEFRecord_wire (concat (map wireBytes ws)) rest w Hfitw)
    by (change (2 ^ 31) with 2147483648; lia).
  simpl mapM.
  destruct (wireRecord w) as [r|e]; [|reflexivity].
  rewrite !bind_OK. cbn [isMessageEnd parsed_record nextOffset].
  reflexivity.
Qed.

End WireLoop.

(** ** C8, C9 and C5 *)

Section WireMessages.
Context `{Platform}.

Lemma wireRecord_Err (w : WireRecord) (e : JSError) :
  wireRecord w = Err e → badURIRecord w ∧ uriPayloadError e.
Proof.
  intros He. unfold wireRecord in He.
  destruct (createNDEFRecordFromRawData_Err_inv _ _ _ _ _ He) as (Ht & Hty & Hbad & Hmsg).
  split; [repeat split; assumption|].
  destruct (wirePayload w) as [|c rest]; [left; exact Hmsg | right; exists c; exact Hmsg].
Qed.

Lemma wireRecord_bad (w : WireRecord) : badURIRecord w → ∃ e, wireRecord w = Err e.
Proof.
  intros (Ht & Hty & Hbad). unfold wireRecord, createNDEFRecordFromRawData.
  rewrite Ht, Hty. unfold createWellKnownRecord.
  change (String.eqb "U" "U") with true. cbv iota.
  pose proof (createNDEFRecordWellKnownURIFromBytes_cases (wirePayload w)
                (TextDecoder_decode <$> wireId w)) as Hc.
  rewrite badURIPayload_cases in Hbad.
  destruct (wirePayload w) as [|c rest]; [eexists; exact Hc|].
  destruct (prefixMappings (byte_to_Z c)); [discriminate | eexists; exact Hc].
Qed.

Lemma wireRecord_accepted (w : WireRecord) : ¬ badURIRecord w → ∃ r, wireRecord w = OK r.
Proof.
  intros Hgood. destruct (wireRecord w) as [r|e] eqn:Hr; [exists r; reflexivity|].
  destruct (wireRecord_Err w e Hr) as [Hbad _]. contradiction.
Qed.

Lemma mapM_wireRecord_Err (ws : list WireRecord) (e : JSError) :
  mapM wireRecord ws = Err e → uriPayloadError e.
Proof.
  induction ws as [|w ws IH]; [discriminate|]. simpl.
  destruct (wireRecord w) as [r|e1] eqn:Hr.
  - destruct (mapM wireRecord ws) as [rs|e2]; [discriminate|].
    intros [= <-]. apply IH. reflexivity.
  - intros [= <-]. exact (proj2 (wireRecord_Err w e1 Hr)).
Qed.

Lemma mapM_wireRecord_accepted (ws : list WireRecord) :
  Forall (fun w => ¬ badURIRecord w) ws → ∃ rs, mapM wireRecord ws = OK rs.
Proof.
  induction 1 as [|w ws Hw _ [rs IH]]; [exists []; reflexivity|].
  destruct (wireRecord_accepted w Hw) as [r Hr].
  exists (r :: rs). simpl. rewrite Hr, IH. reflexivity.
Qed.

Lemma wireRecord_json (w : WireRecord) :
  jsonRecord w →
  wireRecord w
  = OK (createNDEFRecordMediaApplicationJsonFromBytes (wirePayload w)
          (TextDecoder_decode <$> wireId w)).
Proof.
  intros [Ht Hty]. unfold wireRecord, createNDEFRecordFromRawData.
  rewrite Ht, Hty. unfold createMediaRecord.
  change (String.eqb "application/json" "application/json") with true. reflexivity.
Qed.


(** C9.  When the TLV value holds records in the wire layout and one of
    them, with no end flag set before it, is a well-known record of type
    [U] whose payload is empty or starts with a byte above 0x23,
    [parseNDEFMessage] itself throws one of the two errors of a URI
    payload: it returns no message, whatever follows that record. *)
Theorem uri_payload_checked_while_parsing (data rest : list byte)
  (before : list WireRecord) (bad : WireRecord) (fuel : nat) :
  validateAndStripTLV (stripLeadingTrailingZeros data)
  = OK (concat (map wireBytes (before ++ [bad])) ++ rest) →
  Forall wireFits (before ++ [bad]) →
  Forall (fun w => wireME w = false) before →
  badURIRecord bad →
  ∃ e, parseNDEFMessage (length before + S fuel) data = Some (Err e)
       ∧ uriPayloadError e.
Proof.
  intros Htlv Hfit Hbefore Hbad.
  rewrite (parseNDEFMessage_wire data rest before bad fuel Htlv Hfit Hbefore).
  destruct (wireRecord_bad bad Hbad) as [e He].
  destruct (mapM wireRecord (before ++ [bad])) as [rs|e'] eqn:Hall.
  - rewrite mapM_result_app in Hall. simpl in Hall. rewrite He in Hall.
    destruct (mapM wireRecord before); discriminate Hall.
  - exists e'. split; [reflexivity | exact (mapM_wireRecord_Err _ _ Hall)].
Qed.

(** C5.  When the TLV value holds records in the wire layout, one of
    them, with no end flag set before it, a media record of type
    [application/json] whose payload [JSON.parse] rejects with [e], and
    none of the others a URI record the parser rejects,
    [parseNDEFMessage] returns a message; in the place of that record
    stands one whose [payload] accessor throws [e] itself when called and
    whose [safePayload] accessor returns the failure object carrying the
    message of [e]. *)
Theorem json_payload_checked_on_access (data rest : list byte)
  (before after : list WireRecord) (json : WireRecord) (e : JSError) (fuel : nat) :
  validateAndStripTLV (stripLeadingTrailingZeros data)
  = OK (concat (map wireBytes (before ++ json :: after)) ++ rest) →
  Forall wireFits (before ++ json :: after) →
  Forall (fun w => wireME w = false) before →
  Exists (fun w => wireME w = true) (json :: after) ∨ rest = [] →
  Forall (fun w => ¬ badURIRecord w) (before ++ after) →
  jsonRecord json →
  JSON_parse (TextDecoder_decode (wirePayload json)) = Err e →
  ∃ rs r,
    parseNDEFMessage (length before + S (length after + fuel)) data = Some (OK rs)
    ∧ rs !! length before = Some r
    ∧ rawPayload r () = wirePayload json
    ∧ payload r () = Err e
    ∧ safePayload r () = SafeFailure (message e)
    ∧ success (safePayload r ()) = false.
Proof.
  intros Htlv Hfit Hbefore Hstop Hothers Hjson Hparse.
  replace (before ++ json :: after) with ((before ++ [json]) ++ after) in Htlv, Hfit
    by (rewrite <- app_assoc; reflexivity).
  rewrite map_app, concat_app, <- app_assoc in Htlv.
  apply Forall_app in Hfit as [Hfit1 Hfit2].
  apply Forall_app in Hothers as [Hok1 Hok2].
  pose proof (validateAndStripTLV_length _ _ Htlv) as Hlen.
  rewrite !length_app in Hlen.
  assert (Hpay : Forall (fun w => Z.of_nat (length (wirePayload w)) <= 65535) after)
    by (apply wirePayload_inside; lia).
  rewrite (parseNDEFMessage_wire data _ before json _ Htlv Hfit1 Hbefore).
  destruct (mapM_wireRecord_accepted before Hok1) as [rs1 Hrs1].
  pose proof (mapM_result_length _ _ _ Hrs1) as Hcount.
  rewrite mapM_result_app, Hrs1, bind_OK. simpl mapM.
  rewrite (wireRecord_json json Hjson), !bind_OK.
  set (r := createNDEFRecordMediaApplicationJsonFromBytes (wirePayload json)
              (TextDecoder_decode <$> wireId json)).
  assert (Hr : rawPayload r () = wirePayload json
               ∧ payload r () = Err e
               ∧ safePayload r () = SafeFailure (message e)
               ∧ success (safePayload r ()) = false).
  { subst r. simpl. rewrite Hparse. repeat split. }
  assert (Hlook : ∀ rs2, (rs1 ++ [r] ++ rs2) !! length before = Some r).
  { intros rs2. apply list_lookup_middle. symmetry. exact Hcount. }
  destruct (wireME json) eqn:Hend.
  - exists (rs1 ++ [r]), r. split; [reflexivity|]. split; [|exact Hr].
    specialize (Hlook []). rewrite app_nil_r in Hlook. exact Hlook.
  - destruct (parseRecords_wire_returns after (concat (map wireBytes (before ++ [json])))
                rest (rs1 ++ [r]) fuel Hfit2 Hpay
                (Forall_impl _ _ _ Hok2 wireRecord_accepted)) as [rs2 Hrs2].
    { destruct Hstop as [Hex | ->]; [left | right; reflexivity].
      inversion Hex as [? ? Hw | ? ? Hws]; subst; [congruence | exact Hws]. }
    exists ((rs1 ++ [r]) ++ rs2), r. split; [exact Hrs2|]. split; [|exact Hr].
    rewrite <- app_assoc. apply Hlook.
Qed.

End WireMessages.


Lemma uri_payload_checked_while_parsing_witness :
  ∃ e, @parseNDEFMessage example_platform 1
         [x03; x07; xc1; x01; x00; x00; x00; x00; x55; xfe] = Some (Err e)
       ∧ @uriPayloadError e.
Proof.
  apply (@uri_payload_checked_while_parsing example_platform _ [] []
           (mkWire well_known true true false [x55] None []) 0%nat).
  - vm_compute. reflexivity.
  - repeat constructor; try (simpl; lia); discriminate.
  - constructor.
  - repeat split.
Defined.

Lemma json_payload_checked_on_access_witness :
  ∃ rs r,
    @parseNDEFMessage example_platform 1
      ([x03; x1a; xc2; x10; x00; x00; x00; x04] ++ TextEncoder_encode "application/json"
         ++ TextEncoder_encode "oops" ++ [xfe]) = Some (OK rs)
    ∧ rs !! 0%nat = Some r
    ∧ rawPayload r () = TextEncoder_encode "oops"
    ∧ payload r () = Err (SyntaxError "Unexpected token in JSON at position 0")
    ∧ safePayload r () = SafeFailure "Unexpected token in JSON at position 0"
    ∧ success (safePayload r ()) = false.
Proof.
  apply (@json_payload_checked_on_access example_platform _ [] [] []
           (mkWire media true true false (TextEncoder_encode "application/json") None
              (TextEncoder_encode "oops"))
           (SyntaxError "Unexpected token in JSON at position 0") 0%nat).
  - vm_compute. reflexivity.
  - repeat constructor; try (simpl; lia); discriminate.
  - constructor.
  - left. constructor. reflexivity.
  - constructor.
  - split; reflexivity.
  - reflexivity.
Defined.

(** The error of [payload()] is the [SyntaxError] of [JSON.parse], thrown
    as it is: on the message 03 1A C2 10 00 00 00 04 [application/json]
    [oops] FE the accessor throws what [JSON.parse] throws on [oops], and
    no error of another class with that one inside. *)
Lemma json_parse_error_is_not_wrapped :
  ∃ r : @BaseNDEFRecord example_platform,
    @parseNDEFMessage example_platform 1
      ([x03; x1a; xc2; x10; x00; x00; x00; x04] ++ TextEncoder_encode "application/json"
         ++ TextEncoder_encode "oops" ++ [xfe]) = Some (OK [r])
    ∧ @JSON_parse example_platform "oops"
      = Err (SyntaxError "Unexpected token in JSON at position 0")
    ∧ payload r () = @JSON_parse example_platform "oops" ≫= (fun v => OK (PJson v))
    ∧ payload r () = Err (SyntaxError "Unexpected token in JSON at position 0").
Proof.
  eexists. split; [reflexivity|]. repeat split.
Qed.

(** ** When the loop ends *)

Section CursorProperties.
Context `{Platform}.

Lemma parseRecords_returns (data : list byte) :
  (∀ off res, recordStart data off → parseNDEFRecord data (Num off) = OK res →
              lengthNotNegative data off) →
  ∀ (fuel : nat) (off : Z) (acc : list BaseNDEFRecord),
    recordStart data off → 0 <= off →
    Z.of_nat (length data) - off <= Z.of_nat fuel →
    ∃ res, parseRecords fuel data (Num off) acc = Some res.
Proof.
  intros Hdata. induction fuel as [|fuel IH]; intros off acc Hstart Hoff Hfuel.
  - rewrite parseRecords_end; [eexists; reflexivity|].
    unfold num_ltb, len. apply Z.ltb_ge. lia.
  - destruct (num_ltb (Num off) (len data)) eqn:Hlt.
    + rewrite parseRecords_step by exact Hlt.
      destruct (parseNDEFRecord data (Num off)) as [res|e] eqn:Hres;
        [|eexists; reflexivity].
      destruct (isMessageEnd res) eqn:Hend; [eexists; reflexivity|].
      destruct (parseNDEFRecord_advance data off res Hoff Hres)
        as (next & Hnext & Hle & Hin & Hadvance).
      specialize (Hadvance (Hdata off res Hstart Hres)).
      rewrite Hnext. apply IH; [|lia|lia].
      exact (recordStart_next data off next res Hstart Hres Hend Hnext).
    + rewrite parseRecords_end by exact Hlt. eexists. reflexivity.
Qed.

(** X12.  When no record that [parseNDEFMessage] reads from the TLV value
    of a buffer has a payload length that reads as a negative number,
    [parseNDEFMessage] returns, a message or an error: its loop makes no
    more passes than the buffer has bytes. *)
Theorem parseNDEFMessage_returns (data : list byte) :
  (∀ value off res,
     validateAndStripTLV (stripLeadingTrailingZeros data) = OK value →
     recordStart value off →
     parseNDEFRecord value (Num off) = OK res →
     lengthNotNegative value off) →
  ∃ res, parseNDEFMessage (length data) data = Some res.
Proof.
  intros Hvalue. unfold parseNDEFMessage.
  destruct (num_eqb (len (stripLeadingTrailingZeros data)) (Num 0));
    [eexists; reflexivity|].
  destruct (validateAndStripTLV (stripLeadingTrailingZeros data)) as [value|e] eqn:Hv;
    [|eexists; reflexivity].
  destruct (num_eqb (len value) (Num 0)); [eexists; reflexivity|].
  apply (parseRecords_returns value (fun off res => Hvalue value off res eq_refl));
    [constructor | lia |].
  pose proof (validateAndStripTLV_cases (stripLeadingTrailingZeros data)) as Hc.
  rewrite Hv in Hc. destruct Hc as [_ ->].
  pose proof (length_stripLeadingTrailingZeros data).
  unfold tlvValue. rewrite length_take, length_drop. lia.
Qed.

End CursorProperties.

Lemma parseNDEFMessage_returns_witness :
  ∃ res, @parseNDEFMessage example_platform 33
           ([x03; x1e; x92; x0a; x01] ++ TextEncoder_encode "text/plain" ++ [x61]
              ++ [x52; x09; x04] ++ TextEncoder_encode "image/png"
              ++ [x89; x50; x4e; x47; xfe])
         = Some res.
Proof.
  apply (@parseNDEFMessage_returns example_platform
           ([x03; x1e; x92; x0a; x01] ++ TextEncoder_encode "text/plain" ++ [x61]
              ++ [x52; x09; x04] ++ TextEncoder_encode "image/png"
              ++ [x89; x50; x4e; x47; xfe])).
  intros value off res Hv Hstart _. vm_compute in Hv. injection Hv as <-.
  assert (Hcursor : off = 0 ∨ off = 14).
  { induction Hstart as [|off next res0 _ IH Hres Hend Hnext]; [left; reflexivity|].
    destruct IH as [-> | ->]; vm_compute in Hres; injection Hres as <-.
    - right. injection Hnext as <-. reflexivity.
    - discriminate Hend. }
  destruct Hcursor as [-> | ->]; left; reflexivity.
Defined.

